(** * pyvista.core._validation.check: a shallow embedding

    The module [pyvista/core/_validation/check.py] is a library of
    fail-fast validation functions.  Every function either returns [None]
    or raises [TypeError] / [ValueError].  The embedding below keeps that
    shape: a check is a function into [result unit], exceptions are values
    of [exn], and the control flow of each Python function (early returns,
    [try]/[except], delegation to other checks) is written out with a small
    error monad.

    Python objects that the checks receive are values of [pyobj]; NumPy
    arrays are records [ndarray] holding a dtype, a shape and the elements
    in C order.  Floating point elements are IEEE binary64 numbers in the
    [spec_float] representation of the standard library, so comparisons,
    [floor], infinities and NaN behave as they do in NumPy. *)

From Stdlib Require Import String Ascii.
From Stdlib Require Import ZArith List Bool Lia Arith PeanoNat.
From Stdlib Require Import Floats.SpecFloat.
Import ListNotations.

Set Warnings "-register-all".

Local Open Scope string_scope.
Local Open Scope list_scope.

(** ** Exceptions and the error monad *)

(** NumPy dtypes that the checks distinguish. *)
Inductive dtype :=
| bool_ | uint8 | int32 | int64 | uint64 | float32 | float64 | object_.

(** The four wordings used by [check_instance] (lines 924-939). *)
Inductive instance_wording :=
| must_be_an_instance_of
| must_be_an_instance_of_any_type
| must_have_one_of_the_following_types
| must_have_type.

(** Error messages.  Each constructor stands for one message template of
    the module and carries the interpolated values that the theorems talk
    about; the textual rendering of arrays and types is left out. *)
Inductive message :=
| msg_incorrect_dtype (name : string) (d : dtype)
| msg_must_have_real_numbers (name : string)
| msg_axis_out_of_bounds (axis : Z) (ndim : nat)
| msg_must_be_sorted (name : string) (size : nat) (strict ascending : bool)
| msg_must_have_finite_values (name : string)
| msg_must_have_integer_like_values (name : string)
| msg_must_be_greater_than (name : string) (or_equal : bool)
| msg_must_be_less_than (name : string) (or_equal : bool)
| msg_shape_not_allowed (name : string) (array_shape : list nat)
| msg_incorrect_ndim (name : string) (array_ndim : nat)
| msg_name_must_be_a_string
| msg_instance (name : string) (wording : instance_wording)
| msg_not_valid (name : string) (one_of : bool)
| msg_none_is_not_a_valid_shape
| msg_not_reachable
| msg_cannot_be_cast
| msg_object_arrays_not_supported
| msg_interpreter (what : string).

Inductive exn :=
| TypeError (m : message)
| ValueError (m : message)
| RuntimeError (m : message)
| OverflowError (m : message)
| IndexError (m : message).

Inductive error_kind := KTypeError | KValueError | KRuntimeError | KOverflowError | KIndexError.

Definition kind_of (e : exn) : error_kind :=
  match e with
  | TypeError _ => KTypeError
  | ValueError _ => KValueError
  | RuntimeError _ => KRuntimeError
  | OverflowError _ => KOverflowError
  | IndexError _ => KIndexError
  end.

Inductive result (A : Type) :=
| Ok (a : A)
| Raise (e : exn).
Arguments Ok {A} a.
Arguments Raise {A} e.

Definition bind {A B} (c : result A) (k : A -> result B) : result B :=
  match c with
  | Ok a => k a
  | Raise e => Raise e
  end.

Declare Scope check_scope.
Delimit Scope check_scope with check.
Notation "x <- c ;; k" := (bind c (fun x => k))
  (at level 61, c at next level, right associativity) : check_scope.
Notation "c ;; k" := (bind c (fun _ => k))
  (at level 61, right associativity) : check_scope.
Local Open Scope check_scope.

(** [return] with no value. *)
Definition ret_None : result unit := Ok tt.

Definition succeeds {A} (r : result A) : bool :=
  match r with Ok _ => true | Raise _ => false end.

Definition raises {A} (k : error_kind) (r : result A) : Prop :=
  exists m, r = Raise m /\ kind_of m = k.

(** [try: c  except ValueError: h] *)
Definition try_except_ValueError {A} (c : result A) (h : result A) : result A :=
  match c with
  | Raise (ValueError _) => h
  | _ => c
  end.

Fixpoint sequence {A} (l : list (result A)) : result (list A) :=
  match l with
  | [] => Ok []
  | c :: l' => x <- c ;; xs <- sequence l' ;; Ok (x :: xs)
  end.

(** ** Floating point numbers *)

Module F.
Definition prec : Z := 53.
Definition emax : Z := 1024.

Definition of_Z (z : Z) : spec_float := binary_normalize prec emax z 0 false.
Definition div (x y : spec_float) : spec_float := SFdiv prec emax x y.

Definition inf : spec_float := S754_infinity false.
Definition nan : spec_float := S754_nan.

(** The integer a float denotes exactly, when it denotes one. *)
Definition to_Z_exact (f : spec_float) : option Z :=
  match f with
  | S754_zero _ => Some 0%Z
  | S754_finite s m e =>
      let v := cond_Zopp s (Zpos m) in
      if (0 <=? e)%Z then Some (v * 2 ^ e)%Z
      else if (Zpos m mod 2 ^ (- e) =? 0)%Z then Some (v / 2 ^ (- e))%Z
      else None
  | _ => None
  end.

(** [math.floor] as an integer (defined on finite floats). *)
Definition floor_Z (f : spec_float) : option Z :=
  match f with
  | S754_zero _ => Some 0%Z
  | S754_finite s m e =>
      let v := cond_Zopp s (Zpos m) in
      if (0 <=? e)%Z then Some (v * 2 ^ e)%Z else Some (v / 2 ^ (- e))%Z
  | _ => None
  end.

(** [np.floor] on a float: infinities, NaN, zeros and integers are fixed
    points; a fraction goes to the float of its integer floor, which is
    exact because the fraction is below 2^53 in magnitude. *)
Definition floor (f : spec_float) : spec_float :=
  match f with
  | S754_finite s m e =>
      if (0 <=? e)%Z then f
      else match floor_Z f with
           | Some q => binary_normalize prec emax q 0 s
           | None => f
           end
  | _ => f
  end.

(** [int(x)]: truncation towards zero. *)
Definition trunc_Z (f : spec_float) : option Z :=
  match f with
  | S754_zero _ => Some 0%Z
  | S754_finite s m e =>
      let v := cond_Zopp s (Zpos m) in
      if (0 <=? e)%Z then Some (v * 2 ^ e)%Z else Some (Z.quot v (2 ^ (- e)))
  | _ => None
  end.

Definition is_nan (f : spec_float) : bool :=
  match f with S754_nan => true | _ => false end.

Definition is_finite (f : spec_float) : bool :=
  match f with S754_zero _ | S754_finite _ _ _ => true | _ => false end.
End F.

(** ** Array elements and their NumPy comparisons *)

(** An element of an array: an integer (integer and boolean dtypes, a
    boolean being 0 or 1) or a float (floating dtypes).  Integers are not
    bounded by the width of the dtype. *)
Inductive scalar :=
| SInt (z : Z)
| SFloat (f : spec_float).

Definition scalar_to_float (x : scalar) : spec_float :=
  match x with
  | SInt z => F.of_Z z
  | SFloat f => f
  end.

(** Comparison of two elements after NumPy's promotion: two integers are
    compared as integers, anything else as binary64 numbers.  [None] is the
    unordered outcome (a NaN on either side). *)
Definition np_compare (x y : scalar) : option comparison :=
  match x, y with
  | SInt a, SInt b => Some (a ?= b)%Z
  | _, _ => SFcompare (scalar_to_float x) (scalar_to_float y)
  end.

Definition np_equal (x y : scalar) : bool :=
  match np_compare x y with Some Eq => true | _ => false end.
Definition np_less (x y : scalar) : bool :=
  match np_compare x y with Some Lt => true | _ => false end.
Definition np_less_equal (x y : scalar) : bool :=
  match np_compare x y with Some (Lt | Eq) => true | _ => false end.
Definition np_greater (x y : scalar) : bool :=
  match np_compare x y with Some Gt => true | _ => false end.
Definition np_greater_equal (x y : scalar) : bool :=
  match np_compare x y with Some (Gt | Eq) => true | _ => false end.

Definition np_floor_scalar (x : scalar) : scalar :=
  match x with
  | SInt z => SInt z
  | SFloat f => SFloat (F.floor f)
  end.

Definition np_isfinite_scalar (x : scalar) : bool :=
  match x with
  | SInt _ => true
  | SFloat f => F.is_finite f
  end.

(** ** NumPy arrays *)

Record ndarray := mk_ndarray {
  arr_dtype : dtype;
  arr_shape : list nat;
  arr_data : list scalar   (* the elements, flattened in C order *)
}.

Definition arr_ndim (a : ndarray) : nat := length (arr_shape a).
Definition prod (s : list nat) : nat := fold_right Nat.mul 1 s.
Definition arr_size (a : ndarray) : nat := prod (arr_shape a).

(** The elements fill the shape. *)
Definition well_formed (a : ndarray) : Prop :=
  length (arr_data a) = arr_size a.

(** Abstract dtypes used as [base_dtype] of [np.issubdtype]. *)
Inductive base_dtype :=
| np_integer
| np_floating
| np_exact (d : dtype).

Definition dtype_eqb (d e : dtype) : bool :=
  match d, e with
  | bool_, bool_ | uint8, uint8 | int32, int32 | int64, int64 | uint64, uint64
  | float32, float32 | float64, float64 | object_, object_ => true
  | _, _ => false
  end.

Definition np_issubdtype (d : dtype) (b : base_dtype) : bool :=
  match b with
  | np_integer => match d with uint8 | int32 | int64 | uint64 => true | _ => false end
  | np_floating => match d with float32 | float64 => true | _ => false end
  | np_exact e => dtype_eqb d e
  end.

Definition zero_dim (d : dtype) (x : scalar) : ndarray := mk_ndarray d [] [x].

(** Result dtype of putting two arrays in one ([np.result_type]): the
    larger of the two kinds, except that no integer dtype holds both the
    signed integers and [uint64], and that [float32] does not hold the
    integers of 32 bits and more; these meet in [float64]. *)
Definition dtype_rank (d : dtype) : nat :=
  match d with
  | bool_ => 0 | uint8 => 1 | int32 => 2 | int64 => 3 | uint64 => 4
  | float32 => 5 | float64 => 6 | object_ => 7
  end.
Definition promote (d e : dtype) : dtype :=
  match d, e with
  | uint64, (int32 | int64) | (int32 | int64), uint64 => float64
  | float32, (int32 | int64 | uint64) | (int32 | int64 | uint64), float32 => float64
  | _, _ => if (dtype_rank d <=? dtype_rank e)%nat then e else d
  end.

Definition astype (d : dtype) (x : scalar) : scalar :=
  match d with
  | float32 | float64 => SFloat (scalar_to_float x)
  | _ => x
  end.

Definition list_nat_eqb (s t : list nat) : bool :=
  if list_eq_dec Nat.eq_dec s t then true else false.

(** ** Python objects *)

(** User-defined classes that derive, directly or through other user
    classes, from [object] alone. *)
Inductive plain_class :=
| p_object
| p_user (name : string) (base : plain_class).

Inductive pyclass :=
| c_object | c_NoneType | c_bool | c_int | c_float | c_str | c_tuple | c_list
| c_iterator
| c_Number | c_Iterable | c_Sequence            (* abstract base classes *)
| c_user (name : string) (base : pyclass).      (* class name(base): ... *)

Fixpoint class_of_plain (p : plain_class) : pyclass :=
  match p with
  | p_object => c_object
  | p_user n b => c_user n (class_of_plain b)
  end.

(** The values of the inputs.  A user class may derive from any class,
    but the instances considered are those of plain user classes: they
    carry no number, string or items. *)
Inductive pyobj :=
| PyNone
| PyBool (b : bool)
| PyInt (z : Z)
| PyFloat (f : spec_float)
| PyStr (s : string)
| PyTuple (items : list pyobj)
| PyList (items : list pyobj)
| PyIter (remaining : list pyobj)   (* an iterator that will still yield [remaining] *)
| PyInstance (name : string) (base : plain_class) (id : nat).

(** [type(obj)] *)
Definition type_of (o : pyobj) : pyclass :=
  match o with
  | PyNone => c_NoneType
  | PyBool _ => c_bool
  | PyInt _ => c_int
  | PyFloat _ => c_float
  | PyStr _ => c_str
  | PyTuple _ => c_tuple
  | PyList _ => c_list
  | PyIter _ => c_iterator
  | PyInstance n b _ => c_user n (class_of_plain b)
  end.

Definition pyclass_eq_dec (c d : pyclass) : {c = d} + {c <> d}.
Proof. decide equality. apply string_dec. Defined.

Definition pyclass_eqb (c d : pyclass) : bool :=
  if pyclass_eq_dec c d then true else false.

(** The class itself followed by everything it inherits from or is
    registered with. *)
Fixpoint ancestors (c : pyclass) : list pyclass :=
  match c with
  | c_object => [c_object]
  | c_NoneType => [c_NoneType; c_object]
  | c_bool => [c_bool; c_int; c_Number; c_object]
  | c_int => [c_int; c_Number; c_object]
  | c_float => [c_float; c_Number; c_object]
  | c_str => [c_str; c_Sequence; c_Iterable; c_object]
  | c_tuple => [c_tuple; c_Sequence; c_Iterable; c_object]
  | c_list => [c_list; c_Sequence; c_Iterable; c_object]
  | c_iterator => [c_iterator; c_Iterable; c_object]
  | c_Number => [c_Number; c_object]
  | c_Iterable => [c_Iterable; c_object]
  | c_Sequence => [c_Sequence; c_Iterable; c_object]
  | c_user n b => c_user n b :: ancestors b
  end.

Definition issubclass (c d : pyclass) : bool :=
  existsb (pyclass_eqb d) (ancestors c).

(** The second argument of [isinstance]: one class or a tuple of classes;
    [cls_Union] is a [typing.Union[...]] hint. *)
Inductive classinfo :=
| cls_one (c : pyclass)
| cls_tuple (cs : list pyclass)
| cls_Union (cs : list pyclass).

Definition isinstance (o : pyobj) (ci : classinfo) : bool :=
  match ci with
  | cls_one c => issubclass (type_of o) c
  | cls_tuple cs | cls_Union cs => existsb (issubclass (type_of o)) cs
  end.

(** Numeric value of a Python number ([bool] is a subclass of [int]). *)
Definition as_number (o : pyobj) : option scalar :=
  match o with
  | PyBool b => Some (SInt (Z.b2z b))
  | PyInt z => Some (SInt z)
  | PyFloat f => Some (SFloat f)
  | _ => None
  end.

(** Python's [==] on numbers is exact, also between [int] and [float]. *)
Definition number_eq (x y : scalar) : bool :=
  match x, y with
  | SInt a, SInt b => (a =? b)%Z
  | SFloat f, SFloat g => SFeqb f g
  | SInt a, SFloat f | SFloat f, SInt a =>
      match F.to_Z_exact f with Some b => (a =? b)%Z | None => false end
  end.

(** Python's [==].  Objects without a value of their own (iterators,
    instances of user classes) compare by identity; an iterator is never
    met twice in the inputs considered here. *)
Fixpoint py_eq (x y : pyobj) : bool :=
  let fix all_eq (l l' : list pyobj) : bool :=
    match l, l' with
    | [], [] => true
    | a :: l, b :: l' => py_eq a b && all_eq l l'
    | _, _ => false
    end in
  match x, y with
  | PyNone, PyNone => true
  | PyStr s, PyStr t => String.eqb s t
  | PyTuple l, PyTuple l' => all_eq l l'
  | PyList l, PyList l' => all_eq l l'
  | PyInstance n b i, PyInstance n' b' i' =>
      String.eqb n n' && pyclass_eqb (class_of_plain b) (class_of_plain b') && Nat.eqb i i'
  | _, _ =>
      match as_number x, as_number y with
      | Some a, Some b => number_eq a b
      | _, _ => false
      end
  end.

(** [x is None] *)
Definition is_None (x : pyobj) : bool :=
  match x with PyNone => true | _ => false end.

(** [x in seq] for a list or tuple [seq] whose items are equal to
    themselves (numbers other than NaN, [None], tuples of such), as the
    literal lists of this module are: the identity test that precedes
    [==] then adds nothing. *)
Definition py_in (x : pyobj) (seq : list pyobj) : bool :=
  existsb (py_eq x) seq.

(** ** NumPy's view of Python objects *)

(** [np.shape(obj)]: numbers and other non-sequences are 0-dimensional;
    a list or tuple adds a leading axis to the common shape of its items
    and is refused when the items disagree. *)
Fixpoint np_shape_obj (o : pyobj) : result (list nat) :=
  match o with
  | PyTuple l | PyList l =>
      shapes <- sequence (map np_shape_obj l) ;;
      match shapes with
      | [] => Ok [0]
      | s :: _ =>
          if forallb (list_nat_eqb s) shapes then Ok (length l :: s)
          else Raise (ValueError msg_cannot_be_cast)
      end
  | _ => Ok []
  end.

(** The items of a nested sequence in C order. *)
Fixpoint leaves (o : pyobj) : list pyobj :=
  match o with
  | PyTuple l | PyList l => concat (map leaves l)
  | _ => [o]
  end.

(** The integers of 64 bits. *)
Definition int64_min : Z := -9223372036854775808.
Definition int64_max : Z := 9223372036854775807.
Definition uint64_max : Z := 18446744073709551615.

Definition fits_int64 (z : Z) : bool := (int64_min <=? z)%Z && (z <=? int64_max)%Z.
Definition fits_uint64 (z : Z) : bool := (0 <=? z)%Z && (z <=? uint64_max)%Z.

(** The dtype NumPy finds for one Python number: an [int] is an [int64]
    when it fits, a [uint64] when it fits that instead, and has no numeric
    dtype otherwise. *)
Definition dtype_of_number (o : pyobj) : option dtype :=
  match o with
  | PyBool _ => Some bool_
  | PyInt z =>
      if fits_int64 z then Some int64
      else if fits_uint64 z then Some uint64
      else None
  | PyFloat _ => Some float64
  | _ => None
  end.

(** The dtype NumPy picks for a sequence of numbers; [None] when some item
    is not a number or is an [int] beyond 64 bits (the array then has dtype
    [object]). *)
Fixpoint common_dtype (xs : list pyobj) : option dtype :=
  match xs with
  | [] => Some bool_
  | x :: xs' =>
      match dtype_of_number x, common_dtype xs' with
      | Some d, Some e => Some (promote d e)
      | _, _ => None
      end
  end.

Definition number_value (o : pyobj) : scalar :=
  match as_number o with Some x => x | None => SInt 0 end.

(** What [np.asanyarray] yields: an array of numbers, or an array of dtype
    [object] holding arbitrary Python objects. *)
Inductive anyarray :=
| Numeric (a : ndarray)
| Objects (shape : list nat) (items : list pyobj).

Definition np_asanyarray (o : pyobj) : result anyarray :=
  s <- np_shape_obj o ;;
  let xs := leaves o in
  match xs, common_dtype xs with
  | [], _ => Ok (Numeric (mk_ndarray float64 s []))
  | _, Some d => Ok (Numeric (mk_ndarray d s (map (fun x => astype d (number_value x)) xs)))
  | _, None => Ok (Objects s xs)
  end.

(** An argument documented as "array-like": an [ndarray] or any Python
    object.  What an [ndarray] holds does not depend on how its elements
    are laid out in memory, but [ravel(order='A')] does: [NdF a] is an
    array that is Fortran-contiguous in memory and not C-contiguous, [Nd a]
    an array that is not laid out that way; in both, [a] has the elements
    in index (C) order. *)
Inductive array_like :=
| Nd (a : ndarray)
| NdF (a : ndarray)
| Obj (o : pyobj).

Inductive memory_order := C_order | F_order.

(** The order that [order='A'] stands for: Fortran order for an array
    that is Fortran-contiguous in memory, C order otherwise (an array that
    [_cast_to_numpy] builds is C-contiguous). *)
Definition order_A (x : array_like) : memory_order :=
  match x with
  | NdF _ => F_order
  | Nd _ | Obj _ => C_order
  end.

(** [np.shape(array)] *)
Definition np_shape (x : array_like) : result (list nat) :=
  match x with
  | Nd a | NdF a => Ok (arr_shape a)
  | Obj o => np_shape_obj o
  end.

(** Modelled from the spec: [_cast_to_numpy] lives in
    [pyvista/core/_validation/_cast_array.py], which is not part of the
    sources.  It is "the numeric-array coercion utility that turns
    arbitrary array-like inputs into a concrete numeric array": an array is
    returned as it is, numbers and rectangular nested sequences of numbers
    are converted, a ragged sequence is a [ValueError] and anything that
    would need dtype [object] is a [TypeError]. *)
Definition _cast_to_numpy (x : array_like) : result ndarray :=
  match x with
  | Nd a | NdF a => Ok a
  | Obj o =>
      a <- np_asanyarray o ;;
      match a with
      | Numeric a => Ok a
      | Objects _ _ => Raise (TypeError msg_object_arrays_not_supported)
      end
  end.

(** [array if isinstance(array, np.ndarray) else _cast_to_numpy(array)] *)
Definition as_ndarray (x : array_like) : result ndarray :=
  match x with
  | Nd a | NdF a => Ok a
  | Obj _ => _cast_to_numpy x
  end.

(** ** Type and instance checks (lines 716-1088) *)

Definition name_text (name : pyobj) : string :=
  match name with PyStr s => s | _ => "" end.

(** [check_instance] (lines 857-943). *)
Definition check_instance (obj : pyobj) (classinfo : classinfo)
    (allow_subclass : bool) (name : pyobj) : result unit :=
  if negb (isinstance name (cls_one c_str)) then
    Raise (TypeError msg_name_must_be_a_string)
  else
    (* Get class info from generics *)
    let classinfo :=
      match classinfo with cls_Union cs => cls_tuple cs | _ => classinfo end in
    (* Count num classes *)
    let num_classes :=
      match classinfo with cls_tuple cs => length cs | _ => 1 end in
    (* Check if is instance *)
    let is_instance := isinstance obj classinfo in
    (* the error flag and the wording chosen with it *)
    let is_error : option instance_wording :=
      if allow_subclass && negb is_instance then
        if (num_classes =? 1)%nat then Some must_be_an_instance_of
        else Some must_be_an_instance_of_any_type
      else if negb allow_subclass then
        match classinfo with
        | cls_tuple cs | cls_Union cs =>
            if negb (existsb (pyclass_eqb (type_of obj)) cs)
            then Some must_have_one_of_the_following_types else None
        | cls_one c =>
            if negb (pyclass_eqb (type_of obj) c)
            then Some must_have_type else None
        end
      else None in
    match is_error with
    | Some msg_body => Raise (TypeError (msg_instance (name_text name) msg_body))
    | None => ret_None
    end.

(** [check_number] (line 747). *)
Definition check_number (num : pyobj) (name : pyobj) : result unit :=
  check_instance num (cls_one c_Number) true name.



(** [check_iterable] (line 854). *)
Definition check_iterable (obj : pyobj) (name : pyobj) : result unit :=
  check_instance obj (cls_one c_Iterable) true name.

(** [check_type] (line 985). *)
Definition check_type (obj : pyobj) (classinfo : classinfo) (name : pyobj) : result unit :=
  check_instance obj classinfo false name.

(** *** Iteration

    A [for] loop over a list, a tuple or a string starts a fresh iterator
    and leaves the object as it was; a loop over an iterator advances the
    iterator itself.  Functions that iterate over an argument therefore
    return, next to their outcome, the state in which they leave it. *)

Definition chars (s : string) : list pyobj :=
  map (fun c => PyStr (String c EmptyString)) (list_ascii_of_string s).

(** The items a loop over [o] visits, [None] when [o] is not iterable. *)
Definition iter_items (o : pyobj) : option (list pyobj) :=
  match o with
  | PyTuple l | PyList l | PyIter l => Some l
  | PyStr s => Some (chars s)
  | _ => None
  end.

(** The object after a loop that left [rest] unvisited. *)
Definition after_loop (o : pyobj) (rest : list pyobj) : pyobj :=
  match o with
  | PyIter _ => PyIter rest
  | _ => o
  end.

(** [any(check_instance(item, ...) for item in items)]: every call returns
    [None], so [any] goes on until the items run out or a call raises;
    the second component is what was not drawn from the iterator. *)
Fixpoint any_check_instance (items : list pyobj) (item_type : classinfo)
    (allow_subclass : bool) (name : pyobj) : result unit * list pyobj :=
  match items with
  | [] => (ret_None, [])
  | item :: rest =>
      match check_instance item item_type allow_subclass name with
      | Ok _ => any_check_instance rest item_type allow_subclass name
      | Raise e => (Raise e, rest)
      end
  end.

(** [check_iterable_items] (lines 1039-1048). *)
Definition check_iterable_items (iterable_obj : pyobj) (item_type : classinfo)
    (allow_subclass : bool) (name : string) : result unit * pyobj :=
  match check_iterable iterable_obj (PyStr name) with
  | Raise e => (Raise e, iterable_obj)
  | Ok _ =>
      match iter_items iterable_obj with
      | None => (Raise (TypeError (msg_interpreter "object is not iterable")), iterable_obj)
      | Some items =>
          let '(r, rest) :=
            any_check_instance items item_type allow_subclass
              (PyStr ("All items of " ++ name)) in
          (r, after_loop iterable_obj rest)
      end
  end.

(** [must_contain in container] compares the items one after the other
    with the object that is searched for, and an item that is that very
    object is a match before [==] is tried; the two differ for an object
    that is not equal to itself, such as NaN.  Values of [pyobj] carry no
    identity, so the positions at which the search meets the object itself
    are an argument: [same i] for the [i]-th item that is visited. *)
Fixpoint py_contains (same : nat -> bool) (i : nat) (x : pyobj) (items : list pyobj)
    : bool :=
  match items with
  | [] => false
  | y :: rest => (same i || py_eq x y) || py_contains same (S i) x rest
  end.

(** What an iterator is left with: it is drawn from up to and including
    the first match. *)
Fixpoint drop_through (same : nat -> bool) (i : nat) (x : pyobj) (items : list pyobj)
    : list pyobj :=
  match items with
  | [] => []
  | y :: rest => if same i || py_eq x y then rest else drop_through same (S i) x rest
  end.

(** [t in s] for two strings: [t] occurs in [s]. *)
Definition is_substring (t s : string) : bool :=
  match String.index 0 t s with Some _ => true | None => false end.

(** [check_contains] (lines 1085-1088).  The containers among the values
    of [pyobj] are lists, tuples, iterators and strings; for any other
    object [in] raises a [TypeError]. *)
Definition check_contains (container : pyobj) (must_contain : pyobj)
    (same : nat -> bool) (name : string) : result unit * pyobj :=
  match container with
  | PyTuple l | PyList l =>
      if negb (py_contains same 0 must_contain l)
      then (Raise (ValueError (msg_not_valid name true)), container)
      else (ret_None, container)
  | PyIter l =>
      if negb (py_contains same 0 must_contain l)
      then (Raise (ValueError (msg_not_valid name false)), PyIter [])
      else (ret_None, PyIter (drop_through same 0 must_contain l))
  | PyStr s =>
      match must_contain with
      | PyStr t =>
          if negb (is_substring t s)
          then (Raise (ValueError (msg_not_valid name false)), container)
          else (ret_None, container)
      | _ =>
          (Raise (TypeError (msg_interpreter
                    "'in <string>' requires string as left operand")), container)
      end
  | _ => (Raise (TypeError (msg_interpreter "argument is not iterable")), container)
  end.

(** ** Numeric property checks (lines 45-358) *)

(** [base_dtype] of [check_subdtype]: one dtype or a sequence of them. *)
Inductive base_dtypes :=
| base_one (b : base_dtype)
| base_seq (bs : list base_dtype).

(** [np.array_equal(a, b)] *)
Fixpoint all2 (p : scalar -> scalar -> bool) (xs ys : list scalar) : bool :=
  match xs, ys with
  | [], [] => true
  | x :: xs', y :: ys' => p x y && all2 p xs' ys'
  | _, _ => false
  end.

Definition np_array_equal (a b : ndarray) : bool :=
  list_nat_eqb (arr_shape a) (arr_shape b) && all2 np_equal (arr_data a) (arr_data b).

Definition np_floor (a : ndarray) : ndarray :=
  mk_ndarray (arr_dtype a) (arr_shape a) (map np_floor_scalar (arr_data a)).

(** [check_subdtype] (lines 96-112) on an array argument: [np.dtype(array)]
    raises [TypeError], so the dtype is the one of the array. *)
Definition check_subdtype (input_obj : ndarray) (base_dtype : base_dtypes)
    (name : string) : result unit :=
  let input_dtype := arr_dtype input_obj in
  let base_dtype :=
    match base_dtype with base_one b => [b] | base_seq bs => bs end in
  if negb (existsb (np_issubdtype input_dtype) base_dtype) then
    Raise (TypeError (msg_incorrect_dtype name input_dtype))
  else ret_None.

(** [check_real] (lines 155-167). *)
Definition check_real (array : array_like) (name : string) : result unit :=
  array <- as_ndarray array ;;
  (* Return early for common cases *)
  if existsb (dtype_eqb (arr_dtype array)) [int32; int64; float32; float64] then ret_None
  else
    match check_subdtype array (base_seq [np_floating; np_integer]) name with
    | Raise (TypeError _) => Raise (TypeError (msg_must_have_real_numbers name))
    | r => r
    end.

(** [check_finite] (lines 304-307). *)
Definition check_finite (array : array_like) (name : string) : result unit :=
  array <- as_ndarray array ;;
  if negb (forallb np_isfinite_scalar (arr_data array)) then
    Raise (ValueError (msg_must_have_finite_values name))
  else ret_None.

(** [check_integer] (lines 353-358). *)
Definition check_integer (array : array_like) (strict : bool) (name : string) : result unit :=
  array <- as_ndarray array ;;
  if strict then check_subdtype array (base_one np_integer) "Input"
  else if negb (np_array_equal array (np_floor array)) then
    Raise (ValueError (msg_must_have_integer_like_values name))
  else ret_None.

(** ** Shape checks and comparisons against a value
    (lines 393-508, 573-645 and 1201-1231)

    [check_greater_than] validates its bound with [_validate_real_value],
    which calls [check_shape], which calls [_validate_shape_value], whose
    error path calls [check_greater_than] again.  The functions are first
    written with that last call left open ([check_greater_than_rec]); the
    recursion is closed after the section, and [check_greater_than_eq]
    shows that the closed function satisfies the equation of the source. *)

(** The single element of a 0-dimensional array. *)
Definition item (a : ndarray) : scalar := hd (SInt 0) (arr_data a).

(** [np.all(array OP value)] for a 0-dimensional [value]. *)
Definition np_all_against (op : scalar -> scalar -> bool) (array value : ndarray) : bool :=
  forallb (fun x => op x (item value)) (arr_data array).

(** [d >= -1] for an [int] *)
Definition int_ge (d : pyobj) (bound : Z) : bool :=
  match as_number d with
  | Some (SInt z) => (bound <=? z)%Z
  | _ => false
  end.

(** The shapes that [_validate_shape_value] returns early for (line 1211):
    [(), (-1,), (1,), (3,), (2,), (1, 3), (-1, 3)]. *)
Definition common_shapes : list pyobj :=
  [ PyTuple [];
    PyTuple [PyInt (-1)];
    PyTuple [PyInt 1];
    PyTuple [PyInt 3];
    PyTuple [PyInt 2];
    PyTuple [PyInt 1; PyInt 3];
    PyTuple [PyInt (-1); PyInt 3] ].

(** [_shape_is_allowed] (line 629): [a] is the array's actual shape, [b]
    the allowed shape (may have -1). *)
Definition _shape_is_allowed (a : list nat) (b : list pyobj) : bool :=
  (length a =? length b)%nat
  && forallb (fun xy => if py_eq (PyInt (Z.of_nat (fst xy))) (snd xy) then true
                        else py_eq (snd xy) (PyInt (-1)))
       (combine a b).

(** [_is_valid_dim] (line 1215) *)
Definition _is_valid_dim (d : pyobj) : bool :=
  isinstance d (cls_one c_int) && int_ge d (-1).

Section ShapeChecks.
Variable check_greater_than_rec :
  array_like -> array_like -> bool -> string -> result unit.

(** Lines 1214-1231: what [_validate_shape_value] does with an input
    that is neither [None] nor one of the common shapes. *)
Definition validate_shape_general (shape : pyobj) : result pyobj :=
  if _is_valid_dim shape then Ok (PyTuple [shape])
  else if isinstance shape (cls_one c_tuple)
          && forallb _is_valid_dim
               (match iter_items shape with Some l => l | None => [] end)
  then Ok shape
  else
    (* Input is not valid at this point. Use checks to raise an
       appropriate error *)
    check_instance shape (cls_tuple [c_int; c_tuple]) true (PyStr "Shape") ;;
    shape <- (if isinstance shape (cls_one c_int) then Ok (PyTuple [shape])
              else fst (check_iterable_items shape (cls_one c_int) true "Shape") ;;
                   Ok shape) ;;
    check_greater_than_rec (Obj shape) (Obj (PyInt (-1))) false "Shape" ;;
    Raise (RuntimeError msg_not_reachable).

(** [_validate_shape_value] (lines 1201-1231). *)
Definition _validate_shape_value_ (shape : pyobj) : result pyobj :=
  if is_None shape then
    (* `None` is used to mean `any shape is allowed` by the array
       validation methods, so raise an error here. *)
    Raise (TypeError msg_none_is_not_a_valid_shape)
  (* Return early for common inputs *)
  else if py_in shape common_shapes then Ok shape
  else validate_shape_general shape.

(** The loop of [check_shape] (lines 635-638): [true] when it returns
    from inside the loop, [false] when it falls through. *)
Fixpoint some_shape_is_allowed (array_shape : list nat) (shape : list pyobj)
    : result bool :=
  match shape with
  | [] => Ok false
  | input_shape :: rest =>
      valid_shape <- _validate_shape_value_ input_shape ;;
      match valid_shape with
      | PyTuple b =>
          if _shape_is_allowed array_shape b then Ok true
          else some_shape_is_allowed array_shape rest
      | _ => Raise (TypeError (msg_interpreter "object has no len()"))
      end
  end.

(** [check_shape] (lines 626-645). *)
Definition check_shape_ (array : array_like) (shape : pyobj) (name : string)
    : result unit :=
  let shape := match shape with PyList l => l | _ => [shape] end in
  array_shape <- np_shape array ;;
  found <- some_shape_is_allowed array_shape shape ;;
  if (found : bool) then ret_None
  else Raise (ValueError (msg_shape_not_allowed name array_shape)).

(** [_validate_real_value] (lines 393-397). *)
Definition _validate_real_value_ (scalar : array_like) (name : string)
    : result ndarray :=
  valid_scalar <- _cast_to_numpy scalar ;;
  check_shape_ (Nd valid_scalar) (PyTuple []) name ;;
  check_real (Nd valid_scalar) name ;;
  Ok valid_scalar.

(** [check_greater_than] (lines 445-452). *)
Definition check_greater_than_ (array value : array_like) (strict : bool)
    (name : string) : result unit :=
  array <- as_ndarray array ;;
  valid_value <- _validate_real_value_ value "Value" ;;
  if strict && negb (np_all_against np_greater array valid_value) then
    Raise (ValueError (msg_must_be_greater_than name false))
  else if negb (np_all_against np_greater_equal array valid_value) then
    Raise (ValueError (msg_must_be_greater_than name true))
  else ret_None.
End ShapeChecks.

(** Closing the recursion: the innermost [check_greater_than] is reached
    only through [check_shape(valid_scalar, ())], and [()] is a common
    shape, so what is plugged in for the call of line 1229 at that depth is
    never run. *)
Definition check_greater_than : array_like -> array_like -> bool -> string -> result unit :=
  check_greater_than_ (fun _ _ _ _ => Raise (RuntimeError msg_not_reachable)).

Definition _validate_shape_value : pyobj -> result pyobj :=
  _validate_shape_value_ check_greater_than.

Definition check_shape : array_like -> pyobj -> string -> result unit :=
  check_shape_ check_greater_than.

Definition _validate_real_value : array_like -> string -> result ndarray :=
  _validate_real_value_ check_greater_than.

(** [check_less_than] (lines 501-508). *)
Definition check_less_than (array value : array_like) (strict : bool)
    (name : string) : result unit :=
  array <- as_ndarray array ;;
  valid_value <- _validate_real_value value "Value" ;;
  if strict && negb (np_all_against np_less array valid_value) then
    Raise (ValueError (msg_must_be_less_than name false))
  else if negb (np_all_against np_less_equal array valid_value) then
    Raise (ValueError (msg_must_be_less_than name true))
  else ret_None.

(** [check_nonnegative] (line 390). *)
Definition check_nonnegative (array : array_like) (name : string) : result unit :=
  check_greater_than array (Obj (PyInt 0)) false name.

(** ** Sortedness and range checks (lines 170-273 and 511-570) *)

(** *** Basic slicing along one axis

    With the elements in C order, an array of shape [s] is, seen from
    axis [k], a sequence of [prod (firstn k s)] blocks of
    [nth k s 0 * prod (skipn (S k) s)] elements; the element at position
    [i] along the axis and offset [j] inside is at [i * inner + j] of its
    block. *)

Fixpoint chunks {A} (m n : nat) (l : list A) : list (list A) :=
  match n with
  | O => []
  | S n' => firstn m l :: chunks m n' (skipn m l)
  end.

(** The elements of an array of shape [s], given in C order, listed in
    Fortran order (first index fastest): for a leading axis of length [n]
    the [n] subarrays are listed in Fortran order each, and the result
    takes their first elements, then their second elements, and so on. *)
Fixpoint heads_then_tails (m : nat) (rows : list (list scalar)) : list (list scalar) :=
  match m with
  | O => []
  | S m' => map (hd (SInt 0)) rows :: heads_then_tails m' (map (@tl scalar) rows)
  end.

Fixpoint fortran_order (s : list nat) (l : list scalar) : list scalar :=
  match s with
  | [] => l
  | n :: s' =>
      concat (heads_then_tails (prod s') (map (fortran_order s') (chunks (prod s') n l)))
  end.

(** [array.ravel(order=...)] for the orders ['C'] and ['F']. *)
Definition ravel (order : memory_order) (a : ndarray) : ndarray :=
  let l := match order with
           | C_order => arr_data a
           | F_order => fortran_order (arr_shape a) (arr_data a)
           end in
  mk_ndarray (arr_dtype a) [length l] l.

Fixpoint set_nth {A} (l : list A) (k : nat) (x : A) : list A :=
  match l, k with
  | [], _ => []
  | _ :: l', O => x :: l'
  | y :: l', S k' => y :: set_nth l' k' x
  end.

Definition axis_len (s : list nat) (k : nat) : nat := nth k s 0.
Definition inner_size (s : list nat) (k : nat) : nat := prod (skipn (S k) s).
Definition outer_size (s : list nat) (k : nat) : nat := prod (firstn k s).

(** [a[:, ..., lo:hi, ..., :]] with the slice at [axis], for
    [lo <= hi <= axis_len]. *)
Definition basic_slice (a : ndarray) (axis lo hi : nat) : ndarray :=
  let s := arr_shape a in
  let inner := inner_size s axis in
  mk_ndarray (arr_dtype a) (set_nth s axis (hi - lo))
    (concat (map (fun block => firstn ((hi - lo) * inner) (skipn (lo * inner) block))
               (chunks (axis_len s axis * inner) (outer_size s axis) (arr_data a)))).

(** [np.all(x OP y)] for two arrays of one shape. *)
Definition on_pair (op : scalar -> scalar -> bool) (xy : scalar * scalar) : bool :=
  op (fst xy) (snd xy).

Definition np_all_pairwise (op : scalar -> scalar -> bool) (x y : ndarray) : bool :=
  forallb (on_pair op) (combine (arr_data x) (arr_data y)).

(** [a[i]] on the first axis. *)
Definition getitem (a : ndarray) (i : nat) : ndarray :=
  let inner := prod (tl (arr_shape a)) in
  mk_ndarray (arr_dtype a) (tl (arr_shape a)) (firstn inner (skipn (i * inner) (arr_data a))).

(** [int(x)] for a number. *)
Definition py_int (x : pyobj) : result Z :=
  match x with
  | PyBool b => Ok (Z.b2z b)
  | PyInt z => Ok z
  | PyFloat f =>
      match F.trunc_Z f with
      | Some z => Ok z
      | None =>
          if F.is_nan f
          then Raise (ValueError (msg_interpreter "cannot convert float NaN to integer"))
          else Raise (OverflowError (msg_interpreter "cannot convert float infinity to integer"))
      end
  | _ => Raise (TypeError (msg_interpreter "int() argument must be a number"))
  end.

(** The position that [lst[axis] = ...] writes in a list of length [n]. *)
Definition list_index (axis : pyobj) (n : nat) : result nat :=
  match axis with
  | PyBool _ | PyInt _ =>
      let z := match axis with PyBool b => Z.b2z b | PyInt z => z | _ => 0%Z end in
      let i := if (z <? 0)%Z then (z + Z.of_nat n)%Z else z in
      if (0 <=? i)%Z && (i <? Z.of_nat n)%Z then Ok (Z.to_nat i)
      else Raise (IndexError (msg_interpreter "list assignment index out of range"))
  | _ => Raise (TypeError (msg_interpreter "list indices must be integers or slices"))
  end.

Section Sorted.
Variable check_range_rec :
  array_like -> array_like -> bool -> bool -> string -> result unit.

(** [check_sorted] (lines 221-273). *)
Definition check_sorted_ (array : array_like) (ascending strict : bool)
    (axis : pyobj) (name : string) : result unit :=
  let order := order_A array in
  array <- as_ndarray array ;;
  let ndim := arr_ndim array in
  if (ndim =? 0)%nat then
    (* Scalars are always sorted *)
    ret_None
  else
    (* Validate axis *)
    axis <- (if negb (py_in axis [PyInt (-1); PyNone]) then
               check_number axis (PyStr "Axis") ;;
               check_integer (Obj axis) false "Axis" ;;
               axis <- py_int axis ;;
               try_except_ValueError
                 (check_range_rec (Obj (PyInt axis))
                    (Obj (PyList [PyInt (- Z.of_nat ndim); PyInt (Z.of_nat ndim - 1)]))
                    false false "Axis")
                 (Raise (ValueError (msg_axis_out_of_bounds axis ndim))) ;;
               Ok (PyInt axis)
             else Ok axis) ;;
    (* Emulate np.sort(), which flattens array when axis is None *)
    let '(array, ndim, axis) :=
      if is_None axis && (1 <=? ndim)%nat then (ravel order array, 1, PyInt 0)
      else (array, ndim, axis) in
    (* Create two slicers to compare consecutive elements with each other *)
    k <- list_index axis ndim ;;
    let n := axis_len (arr_shape array) k in
    let first_item := basic_slice array k 0 (n - 1) in
    let second_item := basic_slice array k (Nat.min 1 n) n in
    let is_sorted :=
      if ascending && negb strict then np_all_pairwise np_less_equal first_item second_item
      else if ascending && strict then np_all_pairwise np_less first_item second_item
      else if negb ascending && negb strict
      then np_all_pairwise np_greater_equal first_item second_item
      else np_all_pairwise np_greater first_item second_item in
    if negb is_sorted then
      Raise (ValueError (msg_must_be_sorted name (arr_size array) strict ascending))
    else ret_None.
End Sorted.

Section Range.
Variable check_sorted_rec :
  array_like -> bool -> bool -> pyobj -> string -> result unit.

(** [check_range] (lines 564-570). *)
Definition check_range_ (array rng : array_like) (strict_lower strict_upper : bool)
    (name : string) : result unit :=
  rng <- as_ndarray rng ;;
  check_shape (Nd rng) (PyInt 2) "Range" ;;
  check_sorted_rec (Nd rng) true false (PyInt (-1)) "Range" ;;
  array <- as_ndarray array ;;
  check_greater_than (Nd array) (Nd (getitem rng 0)) strict_lower name ;;
  check_less_than (Nd array) (Nd (getitem rng 1)) strict_upper name.
End Range.

(** [check_range] calls [check_sorted] with the default axis, for which
    [check_sorted] does not call [check_range]. *)
Definition check_range : array_like -> array_like -> bool -> bool -> string -> result unit :=
  check_range_ (check_sorted_ (fun _ _ _ _ _ => Raise (RuntimeError msg_not_reachable))).

Definition check_sorted : array_like -> bool -> bool -> pyobj -> string -> result unit :=
  check_sorted_ check_range.

(** ** Number of dimensions (lines 648-713) *)

(** [np.atleast_1d] *)
Definition np_atleast_1d (x : array_like) : result anyarray :=
  a <- match x with
       | Nd a | NdF a => Ok (Numeric a)
       | Obj o => np_asanyarray o
       end ;;
  Ok match a with
     | Numeric a =>
         match arr_shape a with
         | [] => Numeric (mk_ndarray (arr_dtype a) [1] (arr_data a))
         | _ => Numeric a
         end
     | Objects [] items => Objects [1] items
     | Objects s items => Objects s items
     end.

(** [n in arr]: [(arr == n).any()] *)
Definition array_contains (arr : anyarray) (n : nat) : bool :=
  match arr with
  | Numeric a => existsb (fun x => np_equal x (SInt (Z.of_nat n))) (arr_data a)
  | Objects _ items => existsb (fun x => py_eq x (PyInt (Z.of_nat n))) items
  end.

(** [len(arr)] of an array with at least one axis. *)
Definition array_len (arr : anyarray) : nat :=
  match arr with
  | Numeric a => hd 0 (arr_shape a)
  | Objects s _ => hd 0 s
  end.

(** [arr[0]] *)
Definition array_first (arr : anyarray) : array_like :=
  match arr with
  | Numeric a => Nd (getitem a 0)
  | Objects s items =>
      match tl s with
      | [] => Obj (hd PyNone items)
      | s' => Obj (PyList (firstn (prod s') items))
      end
  end.

Section Ndim.
Variable check_ndim_rec : array_like -> array_like -> string -> result unit.

(** [check_ndim] (lines 697-713). *)
Definition check_ndim_ (array ndim : array_like) (name : string) : result unit :=
  ndim_ <- np_atleast_1d ndim ;;
  array <- _cast_to_numpy array ;;
  let array_ndim := arr_ndim array in
  if negb (array_contains ndim_ array_ndim) then
    check_ndim_rec ndim (Obj (PyList [PyInt 0; PyInt 1])) "ndim" ;;
    (if (array_len ndim_ =? 1)%nat
     then check_integer (array_first ndim_) true "ndim"
     else check_integer ndim true "ndim") ;;
    Raise (ValueError (msg_incorrect_ndim name array_ndim))
  else ret_None.
End Ndim.

(** The inner call [check_ndim(ndim, [0, 1])] recurses once more at most,
    into [check_ndim([0, 1], [0, 1])], which returns at once. *)
Definition check_ndim : array_like -> array_like -> string -> result unit :=
  check_ndim_ (check_ndim_ (check_ndim_ (fun _ _ _ => Raise (RuntimeError msg_not_reachable)))).

(** ** Length (lines 1091-1198) *)

(** [array.tolist()] of a 0-dimensional array: the Python number it
    holds. *)
Definition tolist_scalar (d : dtype) (x : scalar) : pyobj :=
  match d, x with
  | (float32 | float64), _ => PyFloat (scalar_to_float x)
  | bool_, SInt z => PyBool (negb (z =? 0)%Z)
  | _, SInt z => PyInt z
  | _, SFloat f => PyFloat f
  end.

(** [len(obj)] *)
Definition py_len (x : array_like) : result nat :=
  match x with
  | Nd a | NdF a =>
      match arr_shape a with
      | [] => Raise (TypeError (msg_interpreter "len() of unsized object"))
      | n :: _ => Ok n
      end
  | Obj (PyTuple l) | Obj (PyList l) => Ok (length l)
  | Obj (PyStr s) => Ok (String.length s)
  | Obj _ => Raise (TypeError (msg_interpreter "object has no len()"))
  end.

(** Python's [n < f] and [n > f] between an [int] and a [float]: the
    comparison is exact, and false against NaN. *)
Definition int_lt_float (n : Z) (f : spec_float) : bool :=
  match f with
  | S754_nan => false
  | S754_infinity s => negb s
  | _ =>
      match F.floor_Z f, F.to_Z_exact f with
      | Some q, Some _ => (n <? q)%Z
      | Some q, None => (n <=? q)%Z
      | None, _ => false
      end
  end.

Definition int_gt_float (n : Z) (f : spec_float) : bool :=
  match f with
  | S754_nan => false
  | S754_infinity s => s
  | _ => match F.floor_Z f with Some q => (q <? n)%Z | None => false end
  end.

(** [array_len < bound] and [array_len > bound] *)
Definition py_lt (array_len : nat) (bound : pyobj) : result bool :=
  match as_number bound with
  | Some (SInt z) => Ok (Z.of_nat array_len <? z)%Z
  | Some (SFloat f) => Ok (int_lt_float (Z.of_nat array_len) f)
  | None => Raise (TypeError (msg_interpreter "'<' not supported between instances"))
  end.

Definition py_gt (array_len : nat) (bound : pyobj) : result bool :=
  match as_number bound with
  | Some (SInt z) => Ok (z <? Z.of_nat array_len)%Z
  | Some (SFloat f) => Ok (int_gt_float (Z.of_nat array_len) f)
  | None => Raise (TypeError (msg_interpreter "'>' not supported between instances"))
  end.

(** The three messages of [check_length], as text up to the interpolated
    lengths. *)
Definition msg_length_equal (name : string) : message :=
  msg_interpreter (name ++ " must have a length equal to any of the exact lengths").
Definition msg_length_minimum (name : string) : message :=
  msg_interpreter (name ++ " must have a minimum length").
Definition msg_length_maximum (name : string) : message :=
  msg_interpreter (name ++ " must have a maximum length").

(** [x is None] for an array-like argument *)
Definition arg_is_None (x : array_like) : bool :=
  match x with Obj o => is_None o | Nd _ | NdF _ => false end.

(** [check_length] (lines 1165-1198). *)
Definition check_length (sized_input exact_length : array_like)
    (min_length max_length : pyobj) (must_be_1d allow_scalar : bool)
    (name : string) : result unit :=
  let sized_input :=
    if allow_scalar then
      (* Reshape to 1D *)
      match sized_input with
      | Nd a | NdF a =>
          if (arr_ndim a =? 0)%nat
          then Obj (PyList [tolist_scalar (arr_dtype a) (item a)])
          else sized_input
      | Obj o =>
          if isinstance o (cls_tuple [c_float; c_int]) then Obj (PyList [o])
          else sized_input
      end
    else sized_input in
  (if must_be_1d then check_shape sized_input (PyInt (-1)) "Array" else ret_None) ;;
  array_len <- py_len sized_input ;;
  (if negb (arg_is_None exact_length) then
     check_integer exact_length false "'exact_length'" ;;
     lengths <- np_atleast_1d exact_length ;;
     if negb (array_contains lengths array_len)
     then Raise (ValueError (msg_length_equal name))
     else ret_None
   else ret_None) ;;
  (* Validate min/max length *)
  (if negb (is_None min_length) then check_finite (Obj min_length) "Min length"
   else ret_None) ;;
  (if negb (is_None max_length) then check_finite (Obj max_length) "Max length"
   else ret_None) ;;
  (if negb (is_None min_length) && negb (is_None max_length)
   then check_sorted (Obj (PyTuple [min_length; max_length])) true false (PyInt (-1)) "Range"
   else ret_None) ;;
  too_short <- (if negb (is_None min_length) then py_lt array_len min_length
                else Ok false) ;;
  if (too_short : bool) then Raise (ValueError (msg_length_minimum name))
  else
    too_long <- (if negb (is_None max_length) then py_gt array_len max_length
                 else Ok false) ;;
    if (too_long : bool) then Raise (ValueError (msg_length_maximum name))
    else ret_None.

(** ** Vocabulary of the statements *)

(** The argument of the inner call [check_ndim(ndim, [0, 1])]. *)
Definition ranks_0_1 : array_like := Obj (PyList [PyInt 0; PyInt 1]).

(** The floats 2.0 and 2.5. *)
Definition float_2_0 : spec_float := F.of_Z 2.
Definition float_2_5 : spec_float := F.div (F.of_Z 5) (F.of_Z 2).

(** The classes named by a [classinfo]. *)
Definition candidates (ci : classinfo) : list pyclass :=
  match ci with
  | cls_one c => [c]
  | cls_tuple cs | cls_Union cs => cs
  end.

(** The comparison that [check_sorted] applies to adjacent elements. *)
Definition sorted_op (ascending strict : bool) : scalar -> scalar -> bool :=
  if ascending then if strict then np_less else np_less_equal
  else if strict then np_greater else np_greater_equal.

(** Dtypes accepted by [check_real]. *)
Definition is_real_dtype (d : dtype) : bool :=
  np_issubdtype d np_integer || np_issubdtype d np_floating.

(** The outcome of lines 247-273 of [check_sorted] for an array and an
    axis position that are already settled. *)
Definition compare_along (a : ndarray) (k : nat) (ascending strict : bool)
    (name : string) : result unit :=
  let n := axis_len (arr_shape a) k in
  if np_all_pairwise (sorted_op ascending strict)
       (basic_slice a k 0 (n - 1)) (basic_slice a k (Nat.min 1 n) n)
  then Ok tt
  else Raise (ValueError (msg_must_be_sorted name (arr_size a) strict ascending)).

(** [array_ndim in ndim_]: some entry of the converted [ndim] argument
    equals the rank of the array. *)
Definition ndim_matches (n0 : ndarray) (rank : nat) : bool :=
  existsb (fun x => np_equal x (SInt (Z.of_nat rank))) (arr_data n0).


(** The float -2.5. *)
Definition float_m2_5 : spec_float := F.div (F.of_Z (-5)) (F.of_Z 2).

(** A shape descriptor of the data model: an integer [>= -1], or a tuple
    of such integers; the second index is its tuple form. *)
Inductive shape_descriptor : pyobj -> list Z -> Prop :=
| descriptor_int (z : Z) :
    (-1 <= z)%Z -> shape_descriptor (PyInt z) [z]
| descriptor_tuple (zs : list Z) :
    Forall (fun z => (-1 <= z)%Z) zs -> shape_descriptor (PyTuple (map PyInt zs)) zs.

(** A candidate matches the actual shape: equal rank and, position by
    position, equal dimensions or the wildcard -1. *)
Definition shape_matches (actual : list nat) (candidate : list Z) : Prop :=
  Forall2 (fun a c => c = Z.of_nat a \/ c = (-1)%Z) actual candidate.


(** The float 1.0. *)
Definition float_1_0 : spec_float := F.of_Z 1.



(** The element of [a] at position [i] along axis [k], in block [o] of the
    axes before [k] and at offset [j] in the axes after it (C order). *)
Definition element (a : ndarray) (k o i j : nat) : scalar :=
  nth ((o * axis_len (arr_shape a) k + i) * inner_size (arr_shape a) k + j)
    (arr_data a) (SInt 0).

(** Every adjacent pair of elements along axis [k] satisfies [op]. *)
Definition sorted_along (a : ndarray) (k : nat) (op : scalar -> scalar -> bool) : Prop :=
  forall o i j,
    o < outer_size (arr_shape a) k ->
    S i < axis_len (arr_shape a) k ->
    j < inner_size (arr_shape a) k ->
    op (element a k o i j) (element a k o (S i) j) = true.

(** Every element of the list and its successor satisfy [op]. *)
Definition adjacent_sorted (op : scalar -> scalar -> bool) (l : list scalar) : Prop :=
  forall i, S i < length l -> op (nth i l (SInt 0)) (nth (S i) l (SInt 0)) = true.

(** The position in the shape that an integer axis denotes. *)
Definition axis_position (axis : Z) (ndim : nat) : nat :=
  Z.to_nat (if (axis <? 0)%Z then (axis + Z.of_nat ndim)%Z else axis).

(** The instances of [int] among the inputs: an [int] or a [bool]. *)
Definition is_int (o : pyobj) : bool :=
  match o with PyBool _ | PyInt _ => true | _ => false end.

(** The [int]s that NumPy stores in 64 bits, as [int64] or [uint64]; an
    object that is not an [int] counts as fitting. *)
Definition fits_64 (o : pyobj) : bool :=
  match o with PyInt z => fits_int64 z || fits_uint64 z | _ => true end.

(** The instances of [int] that NumPy stores as [bool] or [int64]. *)
Definition is_int64 (o : pyobj) : bool :=
  match o with PyBool _ => true | PyInt z => fits_int64 z | _ => false end.

(** The tuples among the inputs. *)
Definition is_tuple (o : pyobj) : bool :=
  match o with PyTuple _ => true | _ => false end.

(** * Properties *)

(** ** The recursive equations of the source hold *)

Lemma bind_Ok {A B} (a : A) (k : A -> result B) : bind (Ok a) k = k a.
Proof. reflexivity. Qed.

Lemma bind_Raise {A B} (e : exn) (k : A -> result B) : bind (Raise e) k = Raise e.
Proof. reflexivity. Qed.

(** ** Python integers as array elements *)

Lemma as_ndarray_cast (x : array_like) : as_ndarray x = _cast_to_numpy x.
Proof. destruct x; reflexivity. Qed.

Lemma fits_int64_iff (z : Z) :
  fits_int64 z = true <-> (int64_min <= z <= int64_max)%Z.
Proof.
  unfold fits_int64. rewrite andb_true_iff, !Z.leb_le. reflexivity.
Qed.

Lemma fits_uint64_iff (z : Z) :
  fits_uint64 z = true <-> (0 <= z <= uint64_max)%Z.
Proof.
  unfold fits_uint64. rewrite andb_true_iff, !Z.leb_le. reflexivity.
Qed.

Lemma dtype_of_int64 (z : Z) :
  fits_int64 z = true -> dtype_of_number (PyInt z) = Some int64.
Proof. intros H. cbn [dtype_of_number]. now rewrite H. Qed.

Lemma dtype_of_int (z : Z) :
  fits_int64 z || fits_uint64 z = true ->
  exists d, (d = int64 \/ d = uint64) /\ dtype_of_number (PyInt z) = Some d.
Proof.
  intros H. cbn [dtype_of_number]. destruct (fits_int64 z); [eauto|].
  cbn [orb] in H. rewrite H. eauto.
Qed.

Lemma dtype_of_big_int (z : Z) :
  fits_int64 z || fits_uint64 z = false -> dtype_of_number (PyInt z) = None.
Proof.
  intros H. apply orb_false_iff in H. destruct H as [H1 H2].
  cbn [dtype_of_number]. now rewrite H1, H2.
Qed.

Lemma np_asanyarray_int (z : Z) (d : dtype) :
  (d = int64 \/ d = uint64) -> dtype_of_number (PyInt z) = Some d ->
  np_asanyarray (PyInt z) = Ok (Numeric (zero_dim d (SInt z))).
Proof.
  intros Hd H. unfold np_asanyarray. cbn [np_shape_obj bind leaves common_dtype].
  rewrite H. destruct Hd as [-> | ->]; reflexivity.
Qed.

Lemma _cast_to_numpy_int (z : Z) (d : dtype) :
  (d = int64 \/ d = uint64) -> dtype_of_number (PyInt z) = Some d ->
  _cast_to_numpy (Obj (PyInt z)) = Ok (zero_dim d (SInt z)).
Proof.
  intros Hd H. unfold _cast_to_numpy. now rewrite (np_asanyarray_int z d Hd H).
Qed.

Lemma _cast_to_numpy_int64 (z : Z) :
  fits_int64 z = true -> _cast_to_numpy (Obj (PyInt z)) = Ok (zero_dim int64 (SInt z)).
Proof.
  intros H. apply _cast_to_numpy_int; [now left | now apply dtype_of_int64].
Qed.

Lemma _cast_to_numpy_big_int (z : Z) :
  fits_int64 z || fits_uint64 z = false ->
  _cast_to_numpy (Obj (PyInt z)) = Raise (TypeError msg_object_arrays_not_supported).
Proof.
  intros H. unfold _cast_to_numpy, np_asanyarray.
  cbn [np_shape_obj bind leaves common_dtype]. now rewrite (dtype_of_big_int z H).
Qed.

Lemma _cast_to_numpy_int64_pair (a b : Z) :
  fits_int64 a = true -> fits_int64 b = true ->
  _cast_to_numpy (Obj (PyList [PyInt a; PyInt b]))
  = Ok (mk_ndarray int64 [2] [SInt a; SInt b])
  /\ _cast_to_numpy (Obj (PyTuple [PyInt a; PyInt b]))
     = Ok (mk_ndarray int64 [2] [SInt a; SInt b]).
Proof.
  intros Ha Hb. unfold _cast_to_numpy, np_asanyarray.
  cbn [np_shape_obj map sequence bind forallb leaves concat app common_dtype].
  rewrite (dtype_of_int64 a Ha), (dtype_of_int64 b Hb). split; reflexivity.
Qed.

(** The dtypes at the ends of the ranges: [2**63 - 1] and [-2**63] are
    [int64], [2**63] and [2**64 - 1] are [uint64], [2**64] and
    [-2**63 - 1] have no numeric dtype; a [uint64] next to a negative
    integer gives [float64], next to a [bool] it stays [uint64]. *)
Lemma dtypes_of_integers :
  dtype_of_number (PyInt 9223372036854775807) = Some int64
  /\ dtype_of_number (PyInt (-9223372036854775808)) = Some int64
  /\ dtype_of_number (PyInt 9223372036854775808) = Some uint64
  /\ dtype_of_number (PyInt 18446744073709551615) = Some uint64
  /\ dtype_of_number (PyInt 18446744073709551616) = None
  /\ dtype_of_number (PyInt (-9223372036854775809)) = None
  /\ common_dtype [PyInt 9223372036854775808; PyInt (-1)] = Some float64
  /\ common_dtype [PyInt 9223372036854775808; PyBool true] = Some uint64
  /\ common_dtype [PyInt 9223372036854775807; PyInt (-1)] = Some int64
  /\ common_dtype [PyInt 18446744073709551616; PyInt 1] = None.
Proof. repeat split. Qed.

(** The rank of a NumPy array is at most 64, so that [-ndim] and
    [ndim - 1] are integers of 64 bits. *)
Lemma rank_fits_int64 (n : nat) :
  n <= 64 ->
  fits_int64 (- Z.of_nat n) = true /\ fits_int64 (Z.of_nat n - 1) = true.
Proof.
  intros H. split; apply fits_int64_iff; unfold int64_min, int64_max; lia.
Qed.

(** [check_shape(x, ())] never gets to the call left open. *)
Lemma check_shape_scalar_closed f g (x : array_like) (name : string) :
  check_shape_ f x (PyTuple []) name = check_shape_ g x (PyTuple []) name.
Proof. reflexivity. Qed.

Lemma _validate_real_value_closed f g (v : array_like) (name : string) :
  _validate_real_value_ f v name = _validate_real_value_ g v name.
Proof. reflexivity. Qed.

Lemma check_greater_than_closed f g array value strict name :
  check_greater_than_ f array value strict name
  = check_greater_than_ g array value strict name.
Proof. reflexivity. Qed.

(** [check_greater_than] is the function of lines 445-452, its own call
    on line 1229 included. *)
Lemma check_greater_than_eq array value strict name :
  check_greater_than array value strict name
  = check_greater_than_ check_greater_than array value strict name.
Proof. apply check_greater_than_closed. Qed.

(** With [axis=-1], [check_sorted] does not call [check_range]. *)
Lemma check_sorted_default_axis_closed f g array ascending strict name :
  check_sorted_ f array ascending strict (PyInt (-1)) name
  = check_sorted_ g array ascending strict (PyInt (-1)) name.
Proof. reflexivity. Qed.

(** [check_range] is the function of lines 564-570 calling [check_sorted]. *)
Lemma check_range_eq array rng strict_lower strict_upper name :
  check_range array rng strict_lower strict_upper name
  = check_range_ check_sorted array rng strict_lower strict_upper name.
Proof. reflexivity. Qed.

Lemma check_ndim_ext f g array ndim name :
  f ndim ranks_0_1 "ndim" = g ndim ranks_0_1 "ndim" ->
  check_ndim_ f array ndim name = check_ndim_ g array ndim name.
Proof. intros H. unfold check_ndim_, ranks_0_1 in *. now rewrite H. Qed.

(** [check_ndim] is the function of lines 697-713 calling itself. *)
Lemma check_ndim_eq array ndim name :
  check_ndim array ndim name = check_ndim_ check_ndim array ndim name.
Proof.
  unfold check_ndim at 1.
  apply check_ndim_ext. unfold check_ndim.
  apply check_ndim_ext. reflexivity.
Qed.

(** ** [check_integer] *)

Lemma all2_floor_nan (l : list scalar) :
  In (SFloat F.nan) l -> all2 np_equal l (map np_floor_scalar l) = false.
Proof.
  induction l as [|x l IH]; simpl; intros H.
  - contradiction.
  - destruct H as [-> | H].
    + reflexivity.
    + rewrite (IH H). apply andb_false_r.
Qed.

Lemma check_integer_strict_dtype (a : ndarray) (name : string) :
  check_integer (Nd a) true name
  = if np_issubdtype (arr_dtype a) np_integer then Ok tt
    else Raise (TypeError (msg_incorrect_dtype "Input" (arr_dtype a))).
Proof.
  unfold check_integer, check_subdtype; simpl.
  destruct (arr_dtype a); reflexivity.
Qed.

(** C4, as the spec states it, fails: with [strict=True] the float 2.5 is
    refused with a [TypeError], not with a [ValueError]. *)
Lemma check_integer_strict_not_ValueError :
  ~ raises KValueError (check_integer (Obj (PyFloat float_2_5)) true "Array").
Proof.
  intros [e [H K]]. vm_compute in H. inversion H; subst e. discriminate K.
Qed.

(** C4 (amended): [check_integer(2.0)] succeeds, [check_integer(2.5)]
    raises a [ValueError], and with [strict=True] the outcome is decided by
    the dtype alone: every float, whole or not, and every array whose dtype
    is not an integer dtype is refused with a [TypeError], every array of an
    integer dtype is accepted. *)
Theorem check_integer_value_or_dtype :
  check_integer (Obj (PyFloat float_2_0)) false "Array" = Ok tt
  /\ check_integer (Obj (PyFloat float_2_5)) false "Array"
     = Raise (ValueError (msg_must_have_integer_like_values "Array"))
  /\ check_integer (Obj (PyFloat float_2_5)) true "Array"
     = Raise (TypeError (msg_incorrect_dtype "Input" float64))
  /\ (forall (f : spec_float) (name : string),
        check_integer (Obj (PyFloat f)) true name
        = Raise (TypeError (msg_incorrect_dtype "Input" float64)))
  /\ (forall (a : ndarray) (name : string),
        check_integer (Nd a) true name
        = if np_issubdtype (arr_dtype a) np_integer then Ok tt
          else Raise (TypeError (msg_incorrect_dtype "Input" (arr_dtype a)))).
Proof.
  repeat split; try (vm_compute; reflexivity).
  apply check_integer_strict_dtype.
Qed.

(** C10: without [strict], an infinite value passes [check_integer] (it
    equals its own floor) although [check_finite] refuses it, and an array
    with a NaN element is refused with a [ValueError]. *)
Theorem check_integer_inf_and_nan :
  forall (a : ndarray) (name : string),
    check_integer (Obj (PyList [PyFloat F.inf])) false name = Ok tt
    /\ raises KValueError (check_finite (Obj (PyList [PyFloat F.inf])) name)
    /\ (In (SFloat F.nan) (arr_data a) ->
        check_integer (Nd a) false name
        = Raise (ValueError (msg_must_have_integer_like_values name))).
Proof.
  intros a name. split; [reflexivity|]. split.
  - eexists. split; [reflexivity|reflexivity].
  - intros H. unfold check_integer, np_array_equal, np_floor; simpl.
    rewrite (all2_floor_nan _ H), andb_false_r. reflexivity.
Qed.

Lemma check_integer_inf_and_nan_witness :
  In (SFloat F.nan) [SFloat (F.of_Z 1); SFloat F.nan]
  /\ check_integer (Nd (mk_ndarray float64 [2] [SFloat (F.of_Z 1); SFloat F.nan]))
       false "Array"
     = Raise (ValueError (msg_must_have_integer_like_values "Array")).
Proof.
  split.
  - simpl. right. left. reflexivity.
  - apply (proj2 (proj2 (check_integer_inf_and_nan
             (mk_ndarray float64 [2] [SFloat (F.of_Z 1); SFloat F.nan]) "Array"))).
    simpl. right. left. reflexivity.
Defined.

(** ** [check_instance] *)

Lemma pyclass_eqb_eq (c d : pyclass) : pyclass_eqb c d = true <-> c = d.
Proof.
  unfold pyclass_eqb. destruct (pyclass_eq_dec c d); split; congruence.
Qed.

Lemma existsb_pyclass_eqb (c : pyclass) (cs : list pyclass) :
  existsb (pyclass_eqb c) cs = true <-> In c cs.
Proof.
  rewrite existsb_exists. split.
  - intros [d [Hin Heq]]. apply pyclass_eqb_eq in Heq. now subst.
  - intros Hin. exists c. split; [assumption | now apply pyclass_eqb_eq].
Qed.

Lemma isinstance_candidates (o : pyobj) (ci : classinfo) :
  isinstance o ci = true
  <-> exists c, In c (candidates ci) /\ issubclass (type_of o) c = true.
Proof.
  destruct ci as [c | cs | cs]; simpl.
  - split.
    + intros H. exists c. split; [now left | assumption].
    + intros [d [[<- | []] H]]. assumption.
  - apply existsb_exists.
  - apply existsb_exists.
Qed.

Lemma issubclass_refl (c : pyclass) : issubclass c c = true.
Proof.
  unfold issubclass. apply existsb_exists. exists c. split.
  - destruct c; simpl; auto.
  - now apply pyclass_eqb_eq.
Qed.

(** What [check_instance] returns when [name] is a string. *)
Lemma check_instance_cases (obj : pyobj) (ci : classinfo) (allow : bool) (name : string) :
  check_instance obj ci allow (PyStr name)
  = if (if allow then isinstance obj ci
        else existsb (pyclass_eqb (type_of obj)) (candidates ci))
    then Ok tt
    else Raise (TypeError (msg_instance name
           (if allow then
              if (length (match ci with cls_one _ => [c_object] | _ => candidates ci end) =? 1)%nat
              then must_be_an_instance_of else must_be_an_instance_of_any_type
            else match ci with
                 | cls_one _ => must_have_type
                 | _ => must_have_one_of_the_following_types
                 end))).
Proof.
  unfold check_instance.
  replace (isinstance (PyStr name) (cls_one c_str)) with true by reflexivity.
  cbv beta iota delta [negb].
  destruct ci as [c | cs | cs], allow; simpl.
  - destruct (issubclass (type_of obj) c); reflexivity.
  - rewrite orb_false_r. destruct (pyclass_eqb (type_of obj) c); reflexivity.
  - destruct (existsb (issubclass (type_of obj)) cs); [reflexivity|].
    simpl. destruct (length cs =? 1)%nat; reflexivity.
  - destruct (existsb (pyclass_eqb (type_of obj)) cs); reflexivity.
  - destruct (existsb (issubclass (type_of obj)) cs); [reflexivity|].
    simpl. destruct (length cs =? 1)%nat; reflexivity.
  - destruct (existsb (pyclass_eqb (type_of obj)) cs); reflexivity.
Qed.

(** C8: with [allow_subclass=True], [check_instance] succeeds exactly when
    the object is an instance of some candidate, subclasses included; with
    [allow_subclass=False], exactly when the type of the object is one of
    the candidates; in every other case it raises a [TypeError].  So
    [check_instance(5, (int, str))] succeeds in both modes, and [True],
    whose type [bool] is a proper subclass of [int], passes only when
    subclasses are allowed. *)
Theorem check_instance_subclass_or_exact_type :
  (forall obj ci name,
      check_instance obj ci true (PyStr name) = Ok tt
      <-> exists c, In c (candidates ci) /\ issubclass (type_of obj) c = true)
  /\ (forall obj ci name,
      check_instance obj ci false (PyStr name) = Ok tt
      <-> In (type_of obj) (candidates ci))
  /\ (forall obj ci allow name,
      check_instance obj ci allow (PyStr name) = Ok tt
      \/ raises KTypeError (check_instance obj ci allow (PyStr name)))
  /\ check_instance (PyInt 5) (cls_tuple [c_int; c_str]) true (PyStr "Object") = Ok tt
  /\ check_instance (PyInt 5) (cls_tuple [c_int; c_str]) false (PyStr "Object") = Ok tt
  /\ check_instance (PyBool true) (cls_tuple [c_int; c_str]) true (PyStr "Object") = Ok tt
  /\ check_instance (PyBool true) (cls_tuple [c_int; c_str]) false (PyStr "Object")
     = Raise (TypeError (msg_instance "Object" must_have_one_of_the_following_types)).
Proof.
  split; [|split; [|split; [|repeat split; reflexivity]]].
  - intros obj ci name. rewrite check_instance_cases.
    rewrite <- isinstance_candidates.
    destruct (isinstance obj ci); split; intros H; try reflexivity; discriminate.
  - intros obj ci name. rewrite check_instance_cases.
    rewrite <- existsb_pyclass_eqb.
    destruct (existsb _ _); split; intros H; try reflexivity; discriminate.
  - intros obj ci allow name. rewrite check_instance_cases.
    match goal with |- (if ?b then _ else _) = _ \/ _ => destruct b end.
    + now left.
    + right. eexists. split; reflexivity.
Qed.

(** ** [check_shape] with one candidate *)

Lemma check_shape_one (x : array_like) (c : pyobj) (b : list pyobj) (name : string) :
  (forall l, c <> PyList l) ->
  _validate_shape_value c = Ok (PyTuple b) ->
  check_shape x c name
  = bind (np_shape x) (fun s =>
      if _shape_is_allowed s b then Ok tt
      else Raise (ValueError (msg_shape_not_allowed name s))).
Proof.
  intros Hl Hv. unfold check_shape, check_shape_.
  replace (match c with PyList l => l | _ => [c] end) with [c]
    by (destruct c; try reflexivity; exfalso; eapply Hl; reflexivity).
  destruct (np_shape x) as [s|e]; [|reflexivity].
  cbn [bind some_shape_is_allowed].
  fold _validate_shape_value. rewrite Hv. cbn [bind].
  destruct (_shape_is_allowed s b); reflexivity.
Qed.

Lemma shape_is_allowed_2 (s : list nat) :
  _shape_is_allowed s [PyInt 2] = true <-> s = [2].
Proof.
  unfold _shape_is_allowed.
  destruct s as [|n [|m s]]; cbn; split; try discriminate; try reflexivity.
  - destruct (Z.of_nat n =? 2)%Z eqn:E; [|discriminate].
    apply Z.eqb_eq in E. intros _. f_equal. lia.
  - intros [= ->]. reflexivity.
Qed.

(** ** [check_sorted] and [check_range] on two elements *)

Lemma check_sorted_pair d r0 r1 ascending strict name :
  check_sorted (Nd (mk_ndarray d [2] [r0; r1])) ascending strict (PyInt (-1)) name
  = if sorted_op ascending strict r0 r1 then Ok tt
    else Raise (ValueError (msg_must_be_sorted name 2 strict ascending)).
Proof.
  destruct ascending, strict; cbn; unfold on_pair; cbn [fst snd];
  rewrite andb_true_r;
  match goal with |- context [negb ?b] => destruct b end; reflexivity.
Qed.

Lemma check_real_Nd (a : ndarray) (name : string) :
  check_real (Nd a) name
  = if is_real_dtype (arr_dtype a) then Ok tt
    else Raise (TypeError (msg_must_have_real_numbers name)).
Proof. destruct a as [d s l]. destruct d; reflexivity. Qed.

Lemma _validate_real_value_zero_dim (d : dtype) (v : scalar) (name : string) :
  _validate_real_value (Nd (zero_dim d v)) name
  = if is_real_dtype d then Ok (zero_dim d v)
    else Raise (TypeError (msg_must_have_real_numbers name)).
Proof.
  unfold _validate_real_value, _validate_real_value_.
  cbn [_cast_to_numpy bind].
  replace (check_shape_ check_greater_than (Nd (zero_dim d v)) (PyTuple []) name)
    with (Ok tt) by reflexivity.
  cbn [bind]. rewrite check_real_Nd. cbn [zero_dim arr_dtype].
  destruct (is_real_dtype d); reflexivity.
Qed.

Lemma check_greater_than_zero_dim (a : ndarray) (d : dtype) (v : scalar)
    (strict : bool) (name : string) :
  is_real_dtype d = true ->
  check_greater_than (Nd a) (Nd (zero_dim d v)) strict name
  = if forallb (fun x => (if strict then np_greater else np_greater_equal) x v) (arr_data a)
    then Ok tt
    else Raise (ValueError (msg_must_be_greater_than name (negb strict))).
Proof.
  intros Hd. unfold check_greater_than, check_greater_than_.
  cbn [as_ndarray bind]. fold _validate_real_value.
  rewrite _validate_real_value_zero_dim, Hd. cbn [bind].
  unfold np_all_against, item. cbn [zero_dim arr_data hd].
  destruct strict; cbn [andb negb].
  - destruct (forallb (fun x => np_greater x v) (arr_data a)) eqn:E; [|reflexivity].
    cbn [negb].
    assert (H : forallb (fun x => np_greater_equal x v) (arr_data a) = true).
    { rewrite forallb_forall in *. intros x Hx. specialize (E x Hx).
      unfold np_greater, np_greater_equal in *.
      destruct (np_compare x v) as [[]|]; try discriminate; reflexivity. }
    rewrite H. reflexivity.
  - destruct (forallb _ _); reflexivity.
Qed.

Lemma check_less_than_zero_dim (a : ndarray) (d : dtype) (v : scalar)
    (strict : bool) (name : string) :
  is_real_dtype d = true ->
  check_less_than (Nd a) (Nd (zero_dim d v)) strict name
  = if forallb (fun x => (if strict then np_less else np_less_equal) x v) (arr_data a)
    then Ok tt
    else Raise (ValueError (msg_must_be_less_than name (negb strict))).
Proof.
  intros Hd. unfold check_less_than.
  cbn [as_ndarray bind].
  rewrite _validate_real_value_zero_dim, Hd. cbn [bind].
  unfold np_all_against, item. cbn [zero_dim arr_data hd].
  destruct strict; cbn [andb negb].
  - destruct (forallb (fun x => np_less x v) (arr_data a)) eqn:E; [|reflexivity].
    cbn [negb].
    assert (H : forallb (fun x => np_less_equal x v) (arr_data a) = true).
    { rewrite forallb_forall in *. intros x Hx. specialize (E x Hx).
      unfold np_less, np_less_equal in *.
      destruct (np_compare x v) as [[]|]; try discriminate; reflexivity. }
    rewrite H. reflexivity.
  - destruct (forallb _ _); reflexivity.
Qed.

(** [check_range] on an array and a two-element range of a real dtype. *)
Lemma check_range_pair (a : ndarray) (d : dtype) (lo hi : scalar)
    (strict_lower strict_upper : bool) (name : string) :
  is_real_dtype d = true ->
  check_range (Nd a) (Nd (mk_ndarray d [2] [lo; hi])) strict_lower strict_upper name
  = if np_less_equal lo hi then
      if forallb (fun x => (if strict_lower then np_greater else np_greater_equal) x lo)
           (arr_data a)
      then if forallb (fun x => (if strict_upper then np_less else np_less_equal) x hi)
                (arr_data a)
           then Ok tt
           else Raise (ValueError (msg_must_be_less_than name (negb strict_upper)))
      else Raise (ValueError (msg_must_be_greater_than name (negb strict_lower)))
    else Raise (ValueError (msg_must_be_sorted "Range" 2 false true)).
Proof.
  intros Hd. rewrite check_range_eq. unfold check_range_.
  cbn [as_ndarray bind].
  rewrite (check_shape_one _ (PyInt 2) [PyInt 2]) by (discriminate || reflexivity).
  cbn [np_shape arr_shape bind].
  replace (_shape_is_allowed [2] [PyInt 2]) with true by reflexivity.
  cbn [bind]. rewrite check_sorted_pair. cbn [sorted_op].
  destruct (np_less_equal lo hi); [|reflexivity].
  cbn [bind].
  change (getitem (mk_ndarray d [2] [lo; hi]) 0) with (zero_dim d lo).
  change (getitem (mk_ndarray d [2] [lo; hi]) 1) with (zero_dim d hi).
  rewrite check_greater_than_zero_dim by assumption.
  destruct (forallb _ (arr_data a)); [|reflexivity].
  cbn [bind]. now rewrite check_less_than_zero_dim.
Qed.

Lemma check_range_rng_cast (x rng : array_like) (r : ndarray) sl su name :
  as_ndarray rng = Ok r ->
  check_range x rng sl su name = check_range x (Nd r) sl su name.
Proof.
  intros H. rewrite !check_range_eq. unfold check_range_. now rewrite H.
Qed.

(** C5: [check_range] validates [rng] before it looks at the array: a
    range that is not of shape (2,) or not ascending is refused with a
    [ValueError] whatever the array is (also when the array could not be
    converted at all); only then are the values compared with the two
    endpoints.  [check_range(5, [0, 10])] succeeds and
    [check_range(-1, [0, 10])] raises a [ValueError]. *)
Theorem check_range_validates_rng_first :
  (forall (x : array_like) (r : ndarray) sl su name,
      arr_shape r <> [2] ->
      check_range x (Nd r) sl su name
      = Raise (ValueError (msg_shape_not_allowed "Range" (arr_shape r))))
  /\ (forall (x : array_like) d lo hi sl su name,
      np_less_equal lo hi = false ->
      check_range x (Nd (mk_ndarray d [2] [lo; hi])) sl su name
      = Raise (ValueError (msg_must_be_sorted "Range" 2 false true)))
  /\ (forall (x : array_like) sl su name,
      check_range x (Obj (PyList [PyInt 10; PyInt 0])) sl su name
      = Raise (ValueError (msg_must_be_sorted "Range" 2 false true)))
  /\ (forall (a : ndarray) d lo hi sl su name,
      is_real_dtype d = true -> np_less_equal lo hi = true ->
      (check_range (Nd a) (Nd (mk_ndarray d [2] [lo; hi])) sl su name = Ok tt
       <-> forall x, In x (arr_data a) ->
             (if sl then np_greater else np_greater_equal) x lo = true
             /\ (if su then np_less else np_less_equal) x hi = true))
  /\ check_range (Obj (PyInt 5)) (Obj (PyList [PyInt 0; PyInt 10])) false false "Array"
     = Ok tt
  /\ check_range (Obj (PyInt (-1))) (Obj (PyList [PyInt 0; PyInt 10])) false false "Array"
     = Raise (ValueError (msg_must_be_greater_than "Array" true)).
Proof.
  assert (Hsorted : forall (x : array_like) d lo hi sl su name,
      np_less_equal lo hi = false ->
      check_range x (Nd (mk_ndarray d [2] [lo; hi])) sl su name
      = Raise (ValueError (msg_must_be_sorted "Range" 2 false true))).
  { intros x d lo hi sl su name H. rewrite check_range_eq. unfold check_range_.
    cbn [as_ndarray bind].
    rewrite (check_shape_one _ (PyInt 2) [PyInt 2]) by (discriminate || reflexivity).
    cbn [np_shape arr_shape bind].
    replace (_shape_is_allowed [2] [PyInt 2]) with true by reflexivity.
    cbn [bind]. rewrite check_sorted_pair. cbn [sorted_op]. now rewrite H. }
  split; [|split; [|split; [|split; [|split]]]].
  - intros x r sl su name H. rewrite check_range_eq. unfold check_range_.
    cbn [as_ndarray bind].
    rewrite (check_shape_one _ (PyInt 2) [PyInt 2]) by (discriminate || reflexivity).
    cbn [np_shape bind].
    destruct (_shape_is_allowed (arr_shape r) [PyInt 2]) eqn:E; [|reflexivity].
    apply shape_is_allowed_2 in E. contradiction.
  - exact Hsorted.
  - intros x sl su name.
    rewrite (check_range_rng_cast _ _ (mk_ndarray int64 [2] [SInt 10; SInt 0]))
      by reflexivity.
    now apply Hsorted.
  - intros a d lo hi sl su name Hd Hle.
    rewrite check_range_pair by assumption. rewrite Hle.
    destruct (forallb (fun x => (if sl then np_greater else np_greater_equal) x lo)
                (arr_data a)) eqn:E1;
      [destruct (forallb (fun x => (if su then np_less else np_less_equal) x hi)
                   (arr_data a)) eqn:E2|].
    + split; [|reflexivity]. intros _ x Hx.
      rewrite forallb_forall in E1, E2. split; [now apply E1 | now apply E2].
    + split; [discriminate|]. intros H. exfalso.
      assert (E : forallb (fun x => (if su then np_less else np_less_equal) x hi)
                    (arr_data a) = true)
        by (apply forallb_forall; intros x Hx; now apply H).
      congruence.
    + split; [discriminate|]. intros H. exfalso.
      assert (E : forallb (fun x => (if sl then np_greater else np_greater_equal) x lo)
                    (arr_data a) = true)
        by (apply forallb_forall; intros x Hx; now apply H).
      congruence.
  - reflexivity.
  - reflexivity.
Qed.

Lemma check_range_validates_rng_first_witness :
  arr_shape (mk_ndarray int64 [3] [SInt 0; SInt 5; SInt 10]) <> [2]
  /\ check_range (Obj PyNone) (Nd (mk_ndarray int64 [3] [SInt 0; SInt 5; SInt 10]))
       false false "Array"
     = Raise (ValueError (msg_shape_not_allowed "Range" [3])).
Proof.
  split.
  - simpl. discriminate.
  - apply (proj1 check_range_validates_rng_first). simpl. discriminate.
Defined.

(** ** [check_sorted]: validation of [axis] *)

Lemma np_less_equal_int (a b : Z) : np_less_equal (SInt a) (SInt b) = (a <=? b)%Z.
Proof. unfold np_less_equal, np_compare, Z.leb. destruct (a ?= b)%Z; reflexivity. Qed.

Lemma np_greater_equal_int (a b : Z) : np_greater_equal (SInt a) (SInt b) = (b <=? a)%Z.
Proof.
  unfold np_greater_equal, np_compare, Z.leb. rewrite (Z.compare_antisym a b).
  destruct (a ?= b)%Z; reflexivity.
Qed.

Lemma np_less_int (a b : Z) : np_less (SInt a) (SInt b) = (a <? b)%Z.
Proof. unfold np_less, np_compare, Z.ltb. destruct (a ?= b)%Z; reflexivity. Qed.

Lemma np_greater_int (a b : Z) : np_greater (SInt a) (SInt b) = (b <? a)%Z.
Proof.
  unfold np_greater, np_compare, Z.ltb. rewrite (Z.compare_antisym a b).
  destruct (a ?= b)%Z; reflexivity.
Qed.

Lemma check_range_array_cast (x : array_like) (a r : ndarray) sl su name :
  as_ndarray x = Ok a ->
  check_range x (Nd r) sl su name = check_range (Nd a) (Nd r) sl su name.
Proof.
  intros H. rewrite (check_range_eq x), (check_range_eq (Nd a)). unfold check_range_.
  cbn [as_ndarray bind].
  destruct (check_shape (Nd r) (PyInt 2) "Range"); [|reflexivity].
  cbn [bind].
  destruct (check_sorted (Nd r) true false (PyInt (-1)) "Range"); [|reflexivity].
  cbn [bind]. now rewrite H.
Qed.

(** What the two slices and the comparison of lines 247-273 come to. *)
Lemma check_sorted_tail (a : ndarray) (asc strict : bool) (z : Z) (name : string) :
  (k <- list_index (PyInt z) (arr_ndim a) ;;
      let n := axis_len (arr_shape a) k in
      let first_item := basic_slice a k 0 (n - 1) in
      let second_item := basic_slice a k (Nat.min 1 n) n in
      let is_sorted :=
        if asc && negb strict then np_all_pairwise np_less_equal first_item second_item
        else if asc && strict then np_all_pairwise np_less first_item second_item
        else if negb asc && negb strict
        then np_all_pairwise np_greater_equal first_item second_item
        else np_all_pairwise np_greater first_item second_item in
      if negb is_sorted then
        Raise (ValueError (msg_must_be_sorted name (arr_size a) strict asc))
      else ret_None)%check
  = (k <- list_index (PyInt z) (arr_ndim a) ;; compare_along a k asc strict name)%check.
Proof.
  destruct (list_index (PyInt z) (arr_ndim a)) as [k|e]; [|reflexivity].
  cbn [bind]. unfold compare_along.
  destruct asc, strict; cbn [andb negb sorted_op];
  match goal with |- context [negb ?b] => destruct b end; reflexivity.
Qed.

Lemma check_integer_int (z : Z) (name : string) :
  fits_int64 z || fits_uint64 z = true ->
  check_integer (Obj (PyInt z)) false name = Ok tt.
Proof.
  intros H. destruct (dtype_of_int z H) as [d [Hd Hz]].
  unfold check_integer. rewrite as_ndarray_cast, (_cast_to_numpy_int z d Hd Hz).
  cbn. unfold np_equal, np_compare. now rewrite Z.compare_refl.
Qed.

Lemma check_sorted_int_axis (a : ndarray) (asc strict : bool) (z : Z) (name : string) :
  arr_ndim a <> 0 -> arr_ndim a <= 64 ->
  fits_int64 z || fits_uint64 z = true ->
  check_sorted (Nd a) asc strict (PyInt z) name
  = if (- Z.of_nat (arr_ndim a) <=? z)%Z && (z <=? Z.of_nat (arr_ndim a) - 1)%Z then
      k <- list_index (PyInt z) (arr_ndim a) ;;
      compare_along a k asc strict name
    else Raise (ValueError (msg_axis_out_of_bounds z (arr_ndim a))).
Proof.
  intros Hn Hrank Hz. unfold check_sorted, check_sorted_.
  destruct (rank_fits_int64 _ Hrank) as [Hlo Hhi].
  destruct (dtype_of_int z Hz) as [d [Hd Hdz]].
  cbn [as_ndarray bind order_A].
  destruct (arr_ndim a =? 0)%nat eqn:E; [apply Nat.eqb_eq in E; contradiction|].
  replace (py_in (PyInt z) [PyInt (-1); PyNone]) with (z =? -1)%Z
    by (cbn; now rewrite orb_false_r).
  destruct (z =? -1)%Z eqn:Ez.
  - apply Z.eqb_eq in Ez. subst z. cbn [negb bind is_None andb].
    replace ((- Z.of_nat (arr_ndim a) <=? -1)%Z && (-1 <=? Z.of_nat (arr_ndim a) - 1)%Z)
      with true by (symmetry; apply andb_true_iff; split; apply Z.leb_le; lia).
    apply check_sorted_tail.
  - cbn [negb].
    replace (check_number (PyInt z) (PyStr "Axis")) with (Ok tt) by reflexivity.
    cbn [bind].
    rewrite (check_integer_int z "Axis" Hz).
    cbn [bind py_int].
    rewrite (check_range_rng_cast _ _
               (mk_ndarray int64 [2] [SInt (- Z.of_nat (arr_ndim a));
                                      SInt (Z.of_nat (arr_ndim a) - 1)]))
      by (rewrite as_ndarray_cast; apply _cast_to_numpy_int64_pair; assumption).
    rewrite (check_range_array_cast _ (zero_dim d (SInt z)))
      by (rewrite as_ndarray_cast; now apply _cast_to_numpy_int).
    rewrite check_range_pair by reflexivity.
    cbn [zero_dim arr_data forallb].
    rewrite !np_less_equal_int, np_greater_equal_int, !andb_true_r.
    replace (- Z.of_nat (arr_ndim a) <=? Z.of_nat (arr_ndim a) - 1)%Z with true
      by (symmetry; apply Z.leb_le; lia).
    destruct (- Z.of_nat (arr_ndim a) <=? z)%Z; cbn [andb try_except_ValueError bind];
      [|reflexivity].
    destruct (z <=? Z.of_nat (arr_ndim a) - 1)%Z; cbn [try_except_ValueError bind];
      [|reflexivity].
    cbn [is_None andb].
    apply check_sorted_tail.
Qed.

(** The memory layout of the array plays no part when the axis is an
    integer. *)
Lemma check_sorted_layout (a : ndarray) (asc strict : bool) (z : Z) (name : string) :
  check_sorted (NdF a) asc strict (PyInt z) name
  = check_sorted (Nd a) asc strict (PyInt z) name.
Proof.
  unfold check_sorted, check_sorted_. cbn [as_ndarray bind order_A].
  destruct (arr_ndim a =? 0)%nat; [reflexivity|].
  destruct (negb (py_in (PyInt z) [PyInt (-1); PyNone])); cbn [bind is_None andb];
    [|reflexivity].
  destruct (check_number (PyInt z) (PyStr "Axis")); cbn [bind]; [|reflexivity].
  destruct (check_integer (Obj (PyInt z)) false "Axis"); cbn [bind py_int]; [|reflexivity].
  destruct (try_except_ValueError _ _); reflexivity.
Qed.

(** An integer axis beyond 64 bits is refused by [check_integer] (line
    231), which converts it to an array first. *)
Lemma check_sorted_big_axis (a : ndarray) (asc strict : bool) (z : Z) (name : string) :
  arr_ndim a <> 0 ->
  fits_int64 z || fits_uint64 z = false ->
  check_sorted (Nd a) asc strict (PyInt z) name
  = Raise (TypeError msg_object_arrays_not_supported).
Proof.
  intros Hn Hz. unfold check_sorted, check_sorted_. cbn [as_ndarray bind order_A].
  destruct (arr_ndim a =? 0)%nat eqn:E; [apply Nat.eqb_eq in E; contradiction|].
  replace (py_in (PyInt z) [PyInt (-1); PyNone]) with (z =? -1)%Z
    by (cbn; now rewrite orb_false_r).
  destruct (z =? -1)%Z eqn:Ez.
  { apply Z.eqb_eq in Ez. subst z. discriminate Hz. }
  cbn [negb].
  replace (check_number (PyInt z) (PyStr "Axis")) with (Ok tt) by reflexivity.
  cbn [bind]. unfold check_integer.
  rewrite as_ndarray_cast, (_cast_to_numpy_big_int z Hz). reflexivity.
Qed.

(** C6, as the spec states it, fails: the axis is converted to an array
    before its bounds are looked at (line 231, outside the [try]), and an
    integer beyond 64 bits has no numeric dtype.  With [axis=2**64],
    [check_sorted([1, 2, 3], axis=2**64)] raises a [TypeError], not the
    [ValueError] for an axis out of bounds. *)
Lemma check_sorted_huge_axis_not_ValueError :
  check_sorted (Obj (PyList [PyInt 1; PyInt 2; PyInt 3])) true false
    (PyInt 18446744073709551616) "Array"
  = Raise (TypeError msg_object_arrays_not_supported)
  /\ ~ raises KValueError
        (check_sorted (Obj (PyList [PyInt 1; PyInt 2; PyInt 3])) true false
           (PyInt 18446744073709551616) "Array").
Proof.
  assert (H : check_sorted (Obj (PyList [PyInt 1; PyInt 2; PyInt 3])) true false
                (PyInt 18446744073709551616) "Array"
              = Raise (TypeError msg_object_arrays_not_supported))
    by (vm_compute; reflexivity).
  split; [exact H|].
  intros [e [He Hk]]. rewrite H in He. inversion He; subst e. discriminate Hk.
Qed.

(** C6 (amended): for an array of rank [1 <= ndim] (at most 64, as every
    NumPy array) and an integer axis of 64 bits (an [int64] or a
    [uint64]), an axis outside [-ndim, ndim - 1] makes [check_sorted]
    raise the [ValueError] "Axis ... is out of bounds for ndim ...", and
    an axis inside that interval never does; an integer axis beyond 64
    bits is refused with the [TypeError] of the conversion.  Before the
    bounds are looked at, an axis that is not a number is refused with a
    [TypeError] and a number that is not integer-valued, such as 2.5,
    with the [ValueError] of [check_integer].  The largest axis that gets
    the [ValueError] is [2**64 - 1]. *)
Theorem check_sorted_axis_out_of_bounds :
  forall (a : ndarray) (ascending strict : bool) (axis : Z) (name : string),
    1 <= arr_ndim a -> arr_ndim a <= 64 ->
    ((axis < - Z.of_nat (arr_ndim a) \/ Z.of_nat (arr_ndim a) - 1 < axis)%Z ->
     (fits_int64 axis || fits_uint64 axis = true ->
      check_sorted (Nd a) ascending strict (PyInt axis) name
      = Raise (ValueError (msg_axis_out_of_bounds axis (arr_ndim a)))
      /\ check_sorted (NdF a) ascending strict (PyInt axis) name
         = Raise (ValueError (msg_axis_out_of_bounds axis (arr_ndim a))))
     /\ (fits_int64 axis || fits_uint64 axis = false ->
         check_sorted (Nd a) ascending strict (PyInt axis) name
         = Raise (TypeError msg_object_arrays_not_supported)
         /\ check_sorted (NdF a) ascending strict (PyInt axis) name
            = Raise (TypeError msg_object_arrays_not_supported)))
    /\ ((- Z.of_nat (arr_ndim a) <= axis <= Z.of_nat (arr_ndim a) - 1)%Z ->
        forall z n,
          check_sorted (Nd a) ascending strict (PyInt axis) name
          <> Raise (ValueError (msg_axis_out_of_bounds z n))
          /\ check_sorted (NdF a) ascending strict (PyInt axis) name
             <> Raise (ValueError (msg_axis_out_of_bounds z n)))
    /\ (forall obj : pyobj,
          py_in obj [PyInt (-1); PyNone] = false ->
          isinstance obj (cls_one c_Number) = false ->
          check_sorted (Nd a) ascending strict obj name
          = Raise (TypeError (msg_instance "Axis" must_be_an_instance_of)))
    /\ (forall f : spec_float,
          py_in (PyFloat f) [PyInt (-1); PyNone] = false ->
          np_equal (SFloat f) (SFloat (F.floor f)) = false ->
          check_sorted (Nd a) ascending strict (PyFloat f) name
          = Raise (ValueError (msg_must_have_integer_like_values "Axis")))
    /\ check_sorted (Nd a) ascending strict (PyFloat float_2_5) name
       = Raise (ValueError (msg_must_have_integer_like_values "Axis"))
    /\ check_sorted (Nd a) ascending strict (PyInt 18446744073709551615) name
       = Raise (ValueError (msg_axis_out_of_bounds 18446744073709551615 (arr_ndim a)))
    /\ check_sorted (Nd a) ascending strict (PyInt 18446744073709551616) name
       = Raise (TypeError msg_object_arrays_not_supported).
Proof.
  intros a ascending strict axis name Hn Hrank.
  assert (Hn0 : arr_ndim a <> 0) by lia.
  assert (E : (arr_ndim a =? 0)%nat = false) by (apply Nat.eqb_neq; assumption).
  assert (Hfloat : forall f : spec_float,
            py_in (PyFloat f) [PyInt (-1); PyNone] = false ->
            np_equal (SFloat f) (SFloat (F.floor f)) = false ->
            check_sorted (Nd a) ascending strict (PyFloat f) name
            = Raise (ValueError (msg_must_have_integer_like_values "Axis"))).
  { intros f Hin Hfl. unfold check_sorted, check_sorted_.
    cbn [as_ndarray bind]. rewrite E, Hin. cbn [negb].
    replace (check_number (PyFloat f) (PyStr "Axis")) with (Ok tt) by reflexivity.
    cbn [bind].
    replace (check_integer (Obj (PyFloat f)) false "Axis")
      with (Raise (ValueError (msg_must_have_integer_like_values "Axis")) : result unit).
    - reflexivity.
    - cbn. now rewrite Hfl. }
  split; [|split; [|split; [|split; [|split; [|split]]]]].
  - intros Hout. split.
    + intros Hfit. rewrite check_sorted_layout.
      rewrite check_sorted_int_axis by assumption.
      replace ((- Z.of_nat (arr_ndim a) <=? axis)%Z && (axis <=? Z.of_nat (arr_ndim a) - 1)%Z)
        with false; [split; reflexivity|].
      symmetry. apply andb_false_iff.
      destruct Hout; [left | right]; apply Z.leb_gt; lia.
    + intros Hbig. rewrite check_sorted_layout.
      rewrite check_sorted_big_axis by assumption. split; reflexivity.
  - intros Hin z n. rewrite check_sorted_layout.
    assert (Hfit : fits_int64 axis || fits_uint64 axis = true).
    { apply orb_true_iff. left. apply fits_int64_iff.
      unfold int64_min, int64_max. lia. }
    rewrite check_sorted_int_axis by assumption.
    replace ((- Z.of_nat (arr_ndim a) <=? axis)%Z && (axis <=? Z.of_nat (arr_ndim a) - 1)%Z)
      with true by (symmetry; apply andb_true_iff; split; apply Z.leb_le; lia).
    destruct (list_index (PyInt axis) (arr_ndim a)) as [k|e] eqn:Ek.
    + cbn [bind]. unfold compare_along.
      destruct (np_all_pairwise _ _ _); split; discriminate.
    + cbn [bind]. unfold list_index in Ek.
      destruct ((0 <=? _)%Z && _) in Ek; inversion Ek. split; discriminate.
  - intros obj Hin Hnum. unfold check_sorted, check_sorted_.
    cbn [as_ndarray bind]. rewrite E, Hin. cbn [negb].
    unfold check_number. rewrite check_instance_cases, Hnum. reflexivity.
  - exact Hfloat.
  - apply Hfloat; vm_compute; reflexivity.
  - rewrite check_sorted_int_axis by (assumption || reflexivity).
    replace ((- Z.of_nat (arr_ndim a) <=? 18446744073709551615)%Z
             && (18446744073709551615 <=? Z.of_nat (arr_ndim a) - 1)%Z)
      with false; [reflexivity|].
    symmetry. apply andb_false_iff. right. apply Z.leb_gt. lia.
  - apply check_sorted_big_axis; [assumption | reflexivity].
Qed.

Lemma check_sorted_axis_out_of_bounds_witness :
  1 <= arr_ndim (mk_ndarray int64 [3] [SInt 1; SInt 2; SInt 3]) <= 64
  /\ check_sorted (Nd (mk_ndarray int64 [3] [SInt 1; SInt 2; SInt 3])) true false
       (PyInt 1) "Array"
     = Raise (ValueError (msg_axis_out_of_bounds 1 1)).
Proof.
  assert (H : 1 <= arr_ndim (mk_ndarray int64 [3] [SInt 1; SInt 2; SInt 3]) <= 64)
    by (cbn; lia).
  split; [exact H|].
  apply (proj1 (check_sorted_axis_out_of_bounds
           (mk_ndarray int64 [3] [SInt 1; SInt 2; SInt 3]) true false 1 "Array"
           (proj1 H) (proj2 H))).
  - right. vm_compute. reflexivity.
  - reflexivity.
Defined.

(** ** [check_ndim] *)

Lemma np_atleast_1d_cast (ndim : array_like) (n0 : ndarray) :
  _cast_to_numpy ndim = Ok n0 ->
  exists n1, np_atleast_1d ndim = Ok (Numeric n1)
             /\ arr_dtype n1 = arr_dtype n0 /\ arr_data n1 = arr_data n0.
Proof.
  intros H. unfold np_atleast_1d. destruct ndim as [a|a|o]; cbn in H.
  - injection H as ->. cbn [bind]. destruct (arr_shape n0); eexists; repeat split.
  - injection H as ->. cbn [bind]. destruct (arr_shape n0); eexists; repeat split.
  - destruct (np_asanyarray o) as [[a|s l]|e]; cbn in H; try discriminate.
    injection H as ->. cbn [bind]. destruct (arr_shape n0); eexists; repeat split.
Qed.

Lemma check_integer_strict_cast (x : array_like) (a : ndarray) (name : string) :
  _cast_to_numpy x = Ok a ->
  check_integer x true name
  = if np_issubdtype (arr_dtype a) np_integer then Ok tt
    else Raise (TypeError (msg_incorrect_dtype "Input" (arr_dtype a))).
Proof.
  intros H. rewrite <- (check_integer_strict_dtype a name).
  unfold check_integer. rewrite as_ndarray_cast, H. reflexivity.
Qed.

Lemma np_equal_int (a b : Z) : np_equal (SInt a) (SInt b) = (a =? b)%Z.
Proof.
  unfold np_equal, np_compare.
  destruct (Z.compare_spec a b), (Z.eqb_spec a b); try reflexivity; lia.
Qed.

(** The inner call [check_ndim(ndim, [0, 1], name='ndim')]. *)
Lemma check_ndim_ranks_0_1 (ndim : array_like) (n0 : ndarray) :
  _cast_to_numpy ndim = Ok n0 ->
  check_ndim ndim ranks_0_1 "ndim"
  = if (arr_ndim n0 <=? 1)%nat then Ok tt
    else Raise (ValueError (msg_incorrect_ndim "ndim" (arr_ndim n0))).
Proof.
  intros H. rewrite check_ndim_eq. unfold check_ndim_.
  replace (np_atleast_1d ranks_0_1)
    with (Ok (Numeric (mk_ndarray int64 [2] [SInt 0; SInt 1]))) by reflexivity.
  cbn [bind]. rewrite H. cbn [bind].
  replace (array_contains (Numeric (mk_ndarray int64 [2] [SInt 0; SInt 1])) (arr_ndim n0))
    with (arr_ndim n0 <=? 1)%nat.
  2:{ cbn [array_contains arr_data existsb]. rewrite !np_equal_int.
      destruct (Nat.leb_spec (arr_ndim n0) 1), (Z.eqb_spec 0 (Z.of_nat (arr_ndim n0))),
        (Z.eqb_spec 1 (Z.of_nat (arr_ndim n0))); cbn; try reflexivity; lia. }
  destruct (arr_ndim n0 <=? 1)%nat; [reflexivity|]. cbn [negb].
  replace (check_ndim ranks_0_1 ranks_0_1 "ndim") with (Ok tt) by reflexivity.
  reflexivity.
Qed.

(** C3, as the spec states it, fails: when the rank of the array is among
    the entries, [ndim] is not validated at all.  Here [ndim] is
    [[1, -2.5]] nested once more: of rank 2, with a negative entry that is
    not an integer, and the rank-1 array passes. *)
Lemma check_ndim_malformed_ndim_not_refused :
  check_ndim (Obj (PyList [PyInt 1; PyInt 2; PyInt 3]))
    (Obj (PyList [PyList [PyInt 1; PyFloat float_m2_5]])) "Array" = Ok tt
  /\ ~ (raises KValueError
         (check_ndim (Obj (PyList [PyInt 1; PyInt 2; PyInt 3]))
            (Obj (PyList [PyList [PyInt 1; PyFloat float_m2_5]])) "Array")
       \/ raises KTypeError
            (check_ndim (Obj (PyList [PyInt 1; PyInt 2; PyInt 3]))
               (Obj (PyList [PyList [PyInt 1; PyFloat float_m2_5]])) "Array")).
Proof.
  assert (H : check_ndim (Obj (PyList [PyInt 1; PyInt 2; PyInt 3]))
                (Obj (PyList [PyList [PyInt 1; PyFloat float_m2_5]])) "Array" = Ok tt)
    by (vm_compute; reflexivity).
  split; [exact H|]. rewrite H.
  intros [[e [He _]] | [e [He _]]]; discriminate He.
Qed.

(** C3 (amended): [check_ndim] validates its [ndim] argument only on the
    failure path.  When some entry of [ndim] equals the rank of the array
    it returns without looking at [ndim] any further.  Otherwise it always
    raises: a [ValueError] when [ndim] itself has a rank above 1, else a
    [TypeError] when the dtype of [ndim] is not an integer dtype, else the
    [ValueError] for the rank of the array.  The sign of the entries is
    never examined. *)
Theorem check_ndim_validates_on_mismatch_only :
  forall (array ndim : array_like) (name : string) (a n0 : ndarray),
    _cast_to_numpy array = Ok a ->
    _cast_to_numpy ndim = Ok n0 ->
    check_ndim array ndim name
    = if ndim_matches n0 (arr_ndim a) then Ok tt
      else if negb (arr_ndim n0 <=? 1)%nat
      then Raise (ValueError (msg_incorrect_ndim "ndim" (arr_ndim n0)))
      else if negb (np_issubdtype (arr_dtype n0) np_integer)
      then Raise (TypeError (msg_incorrect_dtype "Input" (arr_dtype n0)))
      else Raise (ValueError (msg_incorrect_ndim name (arr_ndim a))).
Proof.
  intros array ndim name a n0 Ha Hn.
  destruct (np_atleast_1d_cast _ _ Hn) as [n1 [H1 [Hd Hdata]]].
  rewrite check_ndim_eq. unfold check_ndim_.
  rewrite H1. cbn [bind]. rewrite Ha. cbn [bind].
  replace (array_contains (Numeric n1) (arr_ndim a)) with (ndim_matches n0 (arr_ndim a))
    by (unfold ndim_matches; cbn; now rewrite Hdata).
  destruct (ndim_matches n0 (arr_ndim a)); [reflexivity|]. cbn [negb].
  fold ranks_0_1. rewrite (check_ndim_ranks_0_1 _ _ Hn).
  destruct (arr_ndim n0 <=? 1)%nat; [|reflexivity]. cbn [negb bind].
  assert (Hint : (if (array_len (Numeric n1) =? 1)%nat
                  then check_integer (array_first (Numeric n1)) true "ndim"
                  else check_integer ndim true "ndim")
                 = if np_issubdtype (arr_dtype n0) np_integer then Ok tt
                   else Raise (TypeError (msg_incorrect_dtype "Input" (arr_dtype n0)))).
  { destruct (array_len (Numeric n1) =? 1)%nat.
    - cbn [array_first]. rewrite check_integer_strict_dtype. cbn [getitem arr_dtype].
      now rewrite Hd.
    - now apply check_integer_strict_cast. }
  rewrite Hint. destruct (np_issubdtype (arr_dtype n0) np_integer); reflexivity.
Qed.

Lemma check_ndim_validates_on_mismatch_only_witness :
  _cast_to_numpy (Obj (PyList [PyInt 1; PyInt 2; PyInt 3]))
  = Ok (mk_ndarray int64 [3] [SInt 1; SInt 2; SInt 3])
  /\ _cast_to_numpy (Obj (PyFloat float_2_0)) = Ok (zero_dim float64 (SFloat float_2_0))
  /\ check_ndim (Obj (PyList [PyInt 1; PyInt 2; PyInt 3])) (Obj (PyFloat float_2_0)) "Array"
     = Raise (TypeError (msg_incorrect_dtype "Input" float64)).
Proof.
  split; [reflexivity|]. split; [reflexivity|].
  exact (check_ndim_validates_on_mismatch_only
           (Obj (PyList [PyInt 1; PyInt 2; PyInt 3])) (Obj (PyFloat float_2_0)) "Array"
           (mk_ndarray int64 [3] [SInt 1; SInt 2; SInt 3])
           (zero_dim float64 (SFloat float_2_0)) eq_refl eq_refl).
Defined.

(** ** [check_shape] *)

Lemma py_eq_int (a b : Z) : py_eq (PyInt a) (PyInt b) = (a =? b)%Z.
Proof. reflexivity. Qed.

Lemma _is_valid_dim_int (z : Z) : _is_valid_dim (PyInt z) = (-1 <=? z)%Z.
Proof. reflexivity. Qed.

Lemma _validate_shape_value_descriptor (c : pyobj) (zs : list Z) :
  shape_descriptor c zs -> _validate_shape_value c = Ok (PyTuple (map PyInt zs)).
Proof.
  intros [z Hz | l Hl]; unfold _validate_shape_value, _validate_shape_value_.
  - cbn [is_None]. replace (py_in (PyInt z) common_shapes) with false by reflexivity.
    unfold validate_shape_general. rewrite _is_valid_dim_int.
    replace (-1 <=? z)%Z with true by (symmetry; apply Z.leb_le; assumption).
    reflexivity.
  - cbn [is_None]. destruct (py_in (PyTuple (map PyInt l)) common_shapes); [reflexivity|].
    unfold validate_shape_general.
    replace (_is_valid_dim (PyTuple (map PyInt l))) with false by reflexivity.
    replace (isinstance (PyTuple (map PyInt l)) (cls_one c_tuple)) with true by reflexivity.
    cbn [iter_items andb].
    replace (forallb _is_valid_dim (map PyInt l)) with true; [reflexivity|].
    symmetry. apply forallb_forall. intros x Hx.
    apply in_map_iff in Hx. destruct Hx as [z [<- Hz]].
    rewrite _is_valid_dim_int. apply Z.leb_le.
    rewrite Forall_forall in Hl. now apply Hl.
Qed.

Lemma _shape_is_allowed_matches (s : list nat) (zs : list Z) :
  _shape_is_allowed s (map PyInt zs) = true <-> shape_matches s zs.
Proof.
  unfold _shape_is_allowed, shape_matches. revert zs.
  induction s as [|a s IH]; intros [|c zs]; cbn [map length combine forallb Nat.eqb].
  - split; [constructor | reflexivity].
  - split; [discriminate | inversion 1].
  - split; [discriminate | inversion 1].
  - specialize (IH zs). cbn [fst snd]. rewrite !py_eq_int.
    split.
    + intros H. apply andb_true_iff in H. destruct H as [Hlen H].
      apply andb_true_iff in H. destruct H as [Hd H].
      constructor.
      * destruct (Z.eqb_spec (Z.of_nat a) c); [now left|].
        apply Z.eqb_eq in Hd. now right.
      * apply IH. now rewrite Hlen, H.
    + inversion 1 as [|? ? ? ? Hd Hrest]; subst.
      apply IH in Hrest. apply andb_true_iff in Hrest. destruct Hrest as [Hlen H'].
      rewrite Hlen, H'. cbn [andb]. rewrite andb_true_r.
      destruct Hd as [-> | ->].
      * now rewrite Z.eqb_refl.
      * destruct (Z.of_nat a =? -1)%Z; reflexivity.
Qed.

Lemma some_shape_is_allowed_descriptors (s : list nat) (cands : list (pyobj * list Z)) :
  Forall (fun c => shape_descriptor (fst c) (snd c)) cands ->
  some_shape_is_allowed check_greater_than s (map fst cands)
  = Ok (existsb (fun c => _shape_is_allowed s (map PyInt (snd c))) cands).
Proof.
  induction 1 as [|[c zs] cands Hc _ IH]; [reflexivity|].
  cbn [map fst snd some_shape_is_allowed existsb] in *.
  fold _validate_shape_value. rewrite (_validate_shape_value_descriptor _ _ Hc).
  cbn [bind]. destruct (_shape_is_allowed s (map PyInt zs)); [reflexivity|].
  cbn [orb]. exact IH.
Qed.

Lemma check_shape_list (x : array_like) (s : list nat) (cands : list (pyobj * list Z))
    (name : string) :
  np_shape x = Ok s ->
  Forall (fun c => shape_descriptor (fst c) (snd c)) cands ->
  check_shape x (PyList (map fst cands)) name
  = if existsb (fun c => _shape_is_allowed s (map PyInt (snd c))) cands then Ok tt
    else Raise (ValueError (msg_shape_not_allowed name s)).
Proof.
  intros Hs Hc. unfold check_shape, check_shape_. rewrite Hs. cbn [bind].
  rewrite (some_shape_is_allowed_descriptors _ _ Hc). reflexivity.
Qed.

Lemma check_shape_descriptor (x : array_like) (s : list nat) (c : pyobj) (zs : list Z)
    (name : string) :
  np_shape x = Ok s ->
  shape_descriptor c zs ->
  check_shape x c name
  = if _shape_is_allowed s (map PyInt zs) then Ok tt
    else Raise (ValueError (msg_shape_not_allowed name s)).
Proof.
  intros Hs Hc.
  rewrite (check_shape_one x c (map PyInt zs)).
  - now rewrite Hs.
  - destruct Hc; discriminate.
  - now apply _validate_shape_value_descriptor.
Qed.

Lemma shape_matches_any_by_3 (s : list nat) :
  shape_matches s [(-1)%Z; 3%Z] <-> exists n, s = [n; 3].
Proof.
  unfold shape_matches. split.
  - intros H. inversion H as [|a ? s1 ? _ H1]; subst.
    inversion H1 as [|b ? s2 ? Hb H2]; subst. inversion H2; subst.
    exists a. destruct Hb as [Hb | Hb]; [|discriminate]. f_equal. f_equal. lia.
  - intros [n ->]. constructor; [now right|]. constructor; [now left | constructor].
Qed.

(** C1: for candidates that are shape descriptors, [check_shape] succeeds
    exactly when some candidate matches the actual shape (same rank and,
    position by position, the same dimension or the wildcard -1) and
    raises a [ValueError] otherwise; with [shape=(-1, 3)] it succeeds
    exactly for arrays of rank 2 whose second dimension is 3. *)
Theorem check_shape_matches_some_candidate :
  forall (x : array_like) (s : list nat) (name : string),
    np_shape x = Ok s ->
    (forall cands : list (pyobj * list Z),
        Forall (fun c => shape_descriptor (fst c) (snd c)) cands ->
        (check_shape x (PyList (map fst cands)) name = Ok tt
         <-> exists c, In c cands /\ shape_matches s (snd c))
        /\ (check_shape x (PyList (map fst cands)) name = Ok tt
            \/ check_shape x (PyList (map fst cands)) name
               = Raise (ValueError (msg_shape_not_allowed name s))))
    /\ (forall (c : pyobj) (zs : list Z),
        shape_descriptor c zs ->
        (check_shape x c name = Ok tt <-> shape_matches s zs)
        /\ (check_shape x c name = Ok tt
            \/ check_shape x c name = Raise (ValueError (msg_shape_not_allowed name s))))
    /\ (check_shape x (PyTuple [PyInt (-1); PyInt 3]) name = Ok tt
        <-> exists n, s = [n; 3])
    /\ (check_shape x (PyTuple [PyInt (-1); PyInt 3]) name = Ok tt
        \/ check_shape x (PyTuple [PyInt (-1); PyInt 3]) name
           = Raise (ValueError (msg_shape_not_allowed name s))).
Proof.
  intros x s name Hs.
  assert (Hone : forall (c : pyobj) (zs : list Z),
             shape_descriptor c zs ->
             (check_shape x c name = Ok tt <-> shape_matches s zs)
             /\ (check_shape x c name = Ok tt
                 \/ check_shape x c name
                    = Raise (ValueError (msg_shape_not_allowed name s)))).
  { intros c zs Hc. rewrite (check_shape_descriptor x s c zs name Hs Hc).
    rewrite <- _shape_is_allowed_matches.
    destruct (_shape_is_allowed s (map PyInt zs)); split;
      try (now left); try (now right); split; intros H; try reflexivity; discriminate. }
  assert (H3 : shape_descriptor (PyTuple [PyInt (-1); PyInt 3]) [(-1)%Z; 3%Z]).
  { apply (descriptor_tuple [(-1)%Z; 3%Z]). repeat constructor; lia. }
  split; [|split; [exact Hone|split]].
  - intros cands Hc. rewrite (check_shape_list x s cands name Hs Hc).
    destruct (existsb _ cands) eqn:E.
    + split; [|now left]. split; [intros _|reflexivity].
      apply existsb_exists in E. destruct E as [c [Hin Hm]].
      exists c. split; [assumption|]. now apply _shape_is_allowed_matches.
    + split; [|now right]. split; [discriminate|].
      intros [c [Hin Hm]]. apply _shape_is_allowed_matches in Hm.
      assert (E' : existsb (fun c => _shape_is_allowed s (map PyInt (snd c))) cands = true)
        by (apply existsb_exists; exists c; split; assumption).
      congruence.
  - rewrite <- shape_matches_any_by_3. apply (Hone _ _ H3).
  - apply (Hone _ _ H3).
Qed.

Lemma check_shape_matches_some_candidate_witness :
  np_shape (Nd (mk_ndarray float64 [0; 3] [])) = Ok [0; 3]
  /\ (check_shape (Nd (mk_ndarray float64 [0; 3] [])) (PyTuple [PyInt (-1); PyInt 3]) "Array"
      = Ok tt
      <-> exists n, [0; 3] = [n; 3]).
Proof.
  split; [reflexivity|].
  exact (proj1 (proj2 (proj2 (check_shape_matches_some_candidate
           (Nd (mk_ndarray float64 [0; 3] [])) [0; 3] "Array" eq_refl)))).
Defined.

(** ** [_validate_shape_value]: the early return *)

(** On the common shapes themselves the early return gives what lines
    1214-1231 give. *)
Lemma common_shapes_agree :
  forall c, In c common_shapes ->
    _validate_shape_value c = validate_shape_general check_greater_than c.
Proof.
  intros c Hc. cbn in Hc.
  repeat (destruct Hc as [<- | Hc]; [reflexivity|]). contradiction.
Qed.

(** On tuples whose items are instances of [int], the early return gives
    what lines 1214-1231 give: the divergence needs an item that is equal
    to a dimension without being an [int]. *)
Lemma plain_class_not_int (b : plain_class) :
  existsb (pyclass_eqb c_int) (ancestors (class_of_plain b)) = false.
Proof. induction b as [|n b IH]; [reflexivity|]. cbn. exact IH. Qed.

Lemma int_instance_equal_dim (d : pyobj) (c : Z) :
  isinstance d (cls_one c_int) = true ->
  py_eq d (PyInt c) = true ->
  (-1 <= c)%Z ->
  _is_valid_dim d = true.
Proof.
  intros Hi He Hc. unfold _is_valid_dim. rewrite Hi. cbn [andb].
  destruct d; try discriminate Hi.
  - change (py_eq (PyBool b) (PyInt c)) with (Z.b2z b =? c)%Z in He.
    apply Z.eqb_eq in He. subst c. destruct b; reflexivity.
  - change (py_eq (PyInt z) (PyInt c)) with (z =? c)%Z in He.
    apply Z.eqb_eq in He. subst c. cbn. now apply Z.leb_le.
  - cbn in Hi. now rewrite plain_class_not_int in Hi.
Qed.

Ltac split_cases H :=
  repeat match type of H with
         | _ || _ = true => apply orb_true_iff in H; destruct H as [H | H]
         end;
  repeat match goal with
         | E : _ && _ = true |- _ =>
             let E1 := fresh "E" in
             apply andb_true_iff in E; destruct E as [E1 E]
         end;
  try discriminate.

Lemma early_return_agrees_on_ints (l : list pyobj) :
  Forall (fun d => isinstance d (cls_one c_int) = true) l ->
  py_in (PyTuple l) common_shapes = true ->
  _validate_shape_value (PyTuple l) = validate_shape_general check_greater_than (PyTuple l).
Proof.
  intros Hint Hin.
  unfold _validate_shape_value, _validate_shape_value_. cbn [is_None]. rewrite Hin.
  unfold validate_shape_general.
  replace (_is_valid_dim (PyTuple l)) with false by reflexivity.
  replace (isinstance (PyTuple l) (cls_one c_tuple)) with true by reflexivity.
  cbn [iter_items andb].
  replace (forallb _is_valid_dim l) with true; [reflexivity|].
  symmetry.
  destruct l as [|d1 [|d2 [|d3 l]]].
  - reflexivity.
  - inversion Hint as [|? ? H1 _]; subst.
    cbn [forallb]. rewrite andb_true_r.
    cbn in Hin. split_cases Hin;
      (eapply int_instance_equal_dim; [exact H1 | eassumption | lia]).
  - inversion Hint as [|? ? H1 Hrest]; subst.
    inversion Hrest as [|? ? H2 _]; subst.
    cbn [forallb]. rewrite andb_true_r. apply andb_true_iff.
    cbn in Hin. split_cases Hin;
      (split; (eapply int_instance_equal_dim; [eassumption | eassumption | lia])).
  - cbn in Hin. split_cases Hin.
Qed.

(** C2: the early return of line 1211 tests [shape in [...]] with [==],
    and [(1.0,) == (1,)].  A tuple holding the float 1.0 is therefore
    returned as a valid shape, while lines 1214-1231 refuse the same tuple
    with the [TypeError] of [check_iterable_items]; so
    [check_shape([7], (1.0,))] passes although [check_shape([7], (4.0,))]
    raises that [TypeError]. *)
Theorem early_return_accepts_float_dimension :
  py_in (PyTuple [PyFloat float_1_0]) common_shapes = true
  /\ _validate_shape_value (PyTuple [PyFloat float_1_0]) = Ok (PyTuple [PyFloat float_1_0])
  /\ validate_shape_general check_greater_than (PyTuple [PyFloat float_1_0])
     = Raise (TypeError (msg_instance "All items of Shape" must_be_an_instance_of))
  /\ check_shape (Obj (PyList [PyInt 7])) (PyTuple [PyFloat float_1_0]) "Array" = Ok tt
  /\ check_shape (Obj (PyList [PyInt 7])) (PyTuple [PyFloat (F.of_Z 4)]) "Array"
     = Raise (TypeError (msg_instance "All items of Shape" must_be_an_instance_of)).
Proof. repeat split; vm_compute; reflexivity. Qed.

(** ** Repeated calls *)







(** ** [check_sorted]: adjacent pairs along the axis *)

Section AdjacentPairs.
Variable op : scalar -> scalar -> bool.
Variable d : scalar.

Lemma forallb_combine_nth (l1 l2 : list scalar) :
  forallb (on_pair op) (combine l1 l2) = true
  <-> forall t, t < length l1 -> t < length l2 -> op (nth t l1 d) (nth t l2 d) = true.
Proof.
  revert l2. induction l1 as [|x l1 IH]; intros [|y l2]; cbn [combine forallb length].
  - split; [intros _ t H; inversion H | reflexivity].
  - split; [intros _ t H; inversion H | reflexivity].
  - split; [intros _ t _ H; inversion H | reflexivity].
  - rewrite andb_true_iff, IH. split.
    + intros [Hxy H] [|t] H1 H2; [exact Hxy|]. cbn [nth]. apply H; lia.
    + intros H. split.
      * apply (H 0); lia.
      * intros t H1 H2. apply (H (S t)); lia.
Qed.

Lemma combine_app_same_length (x1 x2 y1 y2 : list scalar) :
  length x1 = length y1 ->
  combine (x1 ++ x2) (y1 ++ y2) = combine x1 y1 ++ combine x2 y2.
Proof.
  revert y1. induction x1 as [|a x1 IH]; intros [|b y1] H; try discriminate H.
  - reflexivity.
  - cbn. f_equal. apply IH. now injection H.
Qed.

(** One block of [m = p + q] elements: its first [p] elements against
    the elements [q] places further. *)
Lemma block_pairs (p q : nat) (blk : list scalar) :
  length blk = p + q ->
  forallb (on_pair op) (combine (firstn p (skipn 0 blk)) (firstn p (skipn q blk))) = true
  <-> forall t, t < p -> op (nth t blk d) (nth (q + t) blk d) = true.
Proof.
  intros Hlen. rewrite forallb_combine_nth. cbn [skipn].
  assert (L1 : length (firstn p blk) = p) by (rewrite length_firstn; lia).
  assert (L2 : length (firstn p (skipn q blk)) = p)
    by (rewrite length_firstn, length_skipn; lia).
  rewrite L1, L2. split; intros H t Ht.
  - specialize (H t Ht Ht). rewrite !nth_firstn, nth_skipn in H.
    apply Nat.ltb_lt in Ht. now rewrite Ht in H.
  - intros _. rewrite !nth_firstn, nth_skipn.
    pose proof Ht as Ht'. apply Nat.ltb_lt in Ht'. rewrite Ht'. now apply H.
Qed.

(** All blocks of a list of [outer] blocks. *)
Lemma all_block_pairs (p q outer : nat) (data : list scalar) :
  length data = outer * (p + q) ->
  forallb (on_pair op)
    (combine
       (concat (map (fun blk => firstn p (skipn 0 blk)) (chunks (p + q) outer data)))
       (concat (map (fun blk => firstn p (skipn q blk)) (chunks (p + q) outer data))))
  = true
  <-> forall o t, o < outer -> t < p ->
        op (nth (o * (p + q) + t) data d) (nth (o * (p + q) + (q + t)) data d) = true.
Proof.
  revert data. induction outer as [|outer IH]; intros data Hlen.
  - cbn. split; [intros _ o t H; inversion H | reflexivity].
  - cbn [chunks map concat].
    assert (Lb : length (firstn (p + q) data) = p + q)
      by (rewrite length_firstn; lia).
    rewrite combine_app_same_length.
    2:{ cbn [skipn]. rewrite !length_firstn, length_skipn. lia. }
    rewrite forallb_app, andb_true_iff, (block_pairs p q _ Lb), IH.
    2:{ rewrite length_skipn. lia. }
    split.
    + intros [Hb Hr] [|o] t Ho Ht.
      * specialize (Hb t Ht). rewrite !nth_firstn in Hb.
        replace (t <? p + q)%nat with true in Hb by (symmetry; apply Nat.ltb_lt; lia).
        replace (q + t <? p + q)%nat with true in Hb by (symmetry; apply Nat.ltb_lt; lia).
        exact Hb.
      * specialize (Hr o t ltac:(lia) Ht). rewrite !nth_skipn in Hr.
        replace (S o * (p + q) + t) with (p + q + (o * (p + q) + t)) by lia.
        replace (S o * (p + q) + (q + t)) with (p + q + (o * (p + q) + (q + t))) by lia.
        exact Hr.
    + intros H. split.
      * intros t Ht. specialize (H 0 t ltac:(lia) Ht). cbn [Nat.mul Nat.add] in H.
        rewrite !nth_firstn.
        replace (t <? p + q)%nat with true by (symmetry; apply Nat.ltb_lt; lia).
        replace (q + t <? p + q)%nat with true by (symmetry; apply Nat.ltb_lt; lia).
        exact H.
      * intros o t Ho Ht. specialize (H (S o) t ltac:(lia) Ht). rewrite !nth_skipn.
        replace (S o * (p + q) + t) with (p + q + (o * (p + q) + t)) in H by lia.
        replace (S o * (p + q) + (q + t)) with (p + q + (o * (p + q) + (q + t))) in H by lia.
        exact H.
Qed.
End AdjacentPairs.

Lemma prod_split (s : list nat) (k : nat) :
  k < length s -> prod s = outer_size s k * (axis_len s k * inner_size s k).
Proof.
  unfold outer_size, axis_len, inner_size, prod. revert k.
  induction s as [|x s IH]; intros k Hk; [inversion Hk|].
  destruct k as [|k].
  - cbn. lia.
  - cbn [firstn skipn nth fold_right]. cbn [length] in Hk.
    rewrite (IH k) by lia. apply Nat.mul_assoc.
Qed.

Lemma np_all_pairwise_sorted_along (a : ndarray) (k : nat) (op : scalar -> scalar -> bool) :
  well_formed a -> k < arr_ndim a ->
  np_all_pairwise op
    (basic_slice a k 0 (axis_len (arr_shape a) k - 1))
    (basic_slice a k (Nat.min 1 (axis_len (arr_shape a) k)) (axis_len (arr_shape a) k))
  = true
  <-> sorted_along a k op.
Proof.
  intros Hwf Hk. unfold np_all_pairwise, basic_slice, sorted_along, element.
  cbn [arr_data arr_shape].
  set (n := axis_len (arr_shape a) k). set (inner := inner_size (arr_shape a) k).
  set (outer := outer_size (arr_shape a) k).
  set (p := (n - 1) * inner). set (q := Nat.min 1 n * inner).
  assert (Hm : n * inner = p + q) by (unfold p, q; destruct n; cbn; lia).
  assert (Hlen : length (arr_data a) = outer * (p + q)).
  { rewrite <- Hm. unfold well_formed, arr_size in Hwf. rewrite Hwf.
    now apply prod_split. }
  replace ((n - 1 - 0) * inner) with p by (unfold p; now rewrite Nat.sub_0_r).
  replace ((n - Nat.min 1 n) * inner) with p by (unfold p; destruct n; cbn; lia).
  change (0 * inner) with 0. fold q. rewrite Hm.
  rewrite (all_block_pairs op (SInt 0) p q outer (arr_data a) Hlen).
  split.
  - intros H o i j Ho Hi Hj.
    assert (Hq : q = inner) by (unfold q; destruct n; [lia | cbn; lia]).
    assert (Ht : i * inner + j < p) by (unfold p; nia).
    specialize (H o (i * inner + j) Ho Ht).
    replace (o * (p + q) + (i * inner + j)) with ((o * n + i) * inner + j) in H
      by (rewrite <- Hm; lia).
    replace (o * (p + q) + (q + (i * inner + j))) with ((o * n + S i) * inner + j) in H
      by (rewrite <- Hm, Hq; lia).
    exact H.
  - intros H o t Ho Ht.
    assert (Hn : 1 <= n) by (unfold p in Ht; destruct n; [cbn in Ht; lia | lia]).
    assert (Hinner : 0 < inner) by (unfold p in Ht; destruct inner; [lia | lia]).
    assert (Hq : q = inner) by (unfold q; destruct n; [lia | cbn; lia]).
    pose proof (Nat.div_mod_eq t inner) as Hdm.
    pose proof (Nat.mod_upper_bound t inner ltac:(lia)) as Hmod.
    assert (Hi : S (t / inner) < n).
    { unfold p in Ht. 
      assert (t / inner < n - 1) by (apply Nat.Div0.div_lt_upper_bound; lia).
      lia. }
    specialize (H o (t / inner) (t mod inner) Ho Hi Hmod).
    replace (o * (p + q) + t) with ((o * n + t / inner) * inner + t mod inner)
      by (rewrite <- Hm; lia).
    replace (o * (p + q) + (q + t)) with ((o * n + S (t / inner)) * inner + t mod inner)
      by (rewrite <- Hm, Hq; lia).
    exact H.
Qed.

Lemma check_sorted_cast (x : array_like) (a : ndarray) ascending strict axis name :
  as_ndarray x = Ok a -> order_A x = C_order ->
  check_sorted x ascending strict axis name
  = check_sorted (Nd a) ascending strict axis name.
Proof.
  intros H Ho. unfold check_sorted, check_sorted_. rewrite H, Ho. reflexivity.
Qed.

Lemma compare_along_sorted (a : ndarray) (k : nat) (ascending strict : bool)
    (name : string) :
  well_formed a -> k < arr_ndim a ->
  (compare_along a k ascending strict name = Ok tt
   <-> sorted_along a k (sorted_op ascending strict))
  /\ (compare_along a k ascending strict name = Ok tt
      \/ compare_along a k ascending strict name
         = Raise (ValueError (msg_must_be_sorted name (arr_size a) strict ascending))).
Proof.
  intros Hwf Hk. unfold compare_along.
  rewrite <- (np_all_pairwise_sorted_along a k _ Hwf Hk).
  destruct (np_all_pairwise _ _ _); split;
    try (now left); try (now right); split; intros H; try reflexivity; discriminate.
Qed.

Lemma list_index_in_range (axis : Z) (ndim : nat) :
  (- Z.of_nat ndim <= axis <= Z.of_nat ndim - 1)%Z ->
  list_index (PyInt axis) ndim = Ok (axis_position axis ndim)
  /\ axis_position axis ndim < ndim.
Proof.
  intros H. unfold list_index, axis_position.
  destruct (axis <? 0)%Z eqn:E.
  - apply Z.ltb_lt in E.
    replace ((0 <=? axis + Z.of_nat ndim)%Z && (axis + Z.of_nat ndim <? Z.of_nat ndim)%Z)
      with true by (symmetry; apply andb_true_iff; split;
                    [apply Z.leb_le | apply Z.ltb_lt]; lia).
    split; [reflexivity | lia].
  - apply Z.ltb_ge in E.
    replace ((0 <=? axis)%Z && (axis <? Z.of_nat ndim)%Z)
      with true by (symmetry; apply andb_true_iff; split;
                    [apply Z.leb_le | apply Z.ltb_lt]; lia).
    split; [reflexivity | lia].
Qed.

Lemma check_sorted_None (x : array_like) (a : ndarray) (ascending strict : bool)
    (name : string) :
  as_ndarray x = Ok a ->
  arr_ndim a <> 0 ->
  check_sorted x ascending strict PyNone name
  = compare_along (ravel (order_A x) a) 0 ascending strict name.
Proof.
  intros Hx Hn. unfold check_sorted, check_sorted_. rewrite Hx.
  cbn [bind].
  destruct (arr_ndim a =? 0)%nat eqn:E; [apply Nat.eqb_eq in E; contradiction|].
  replace (py_in PyNone [PyInt (-1); PyNone]) with true by reflexivity.
  cbn [negb bind is_None andb].
  replace (1 <=? arr_ndim a)%nat with true by (symmetry; apply Nat.leb_le; lia).
  exact (check_sorted_tail (ravel (order_A x) a) ascending strict 0 name).
Qed.

Lemma sorted_along_ravel (order : memory_order) (a : ndarray)
    (op : scalar -> scalar -> bool) :
  sorted_along (ravel order a) 0 op <-> adjacent_sorted op (arr_data (ravel order a)).
Proof.
  unfold sorted_along, adjacent_sorted, element, ravel, outer_size, axis_len, inner_size.
  cbn [arr_shape arr_data firstn skipn nth prod fold_right].
  split.
  - intros H i Hi. specialize (H 0 i 0 ltac:(lia) Hi ltac:(lia)).
    replace ((0 * _ + i) * 1 + 0) with i in H by lia.
    replace ((0 * _ + S i) * 1 + 0) with (S i) in H by lia.
    exact H.
  - intros H o i j Ho Hi Hj.
    assert (o = 0) by lia. assert (j = 0) by lia. subst o j.
    replace ((0 * _ + i) * 1 + 0) with i by lia.
    replace ((0 * _ + S i) * 1 + 0) with (S i) by lia.
    now apply H.
Qed.

(** *** Fortran order *)

Lemma heads_of_singletons (m : nat) (r : list scalar) :
  length r = m -> map (hd (SInt 0)) (chunks 1 m r) = r.
Proof.
  revert r. induction m as [|m IH]; intros r H.
  - destruct r; [reflexivity | discriminate].
  - destruct r as [|x r]; [discriminate|]. cbn [chunks map firstn skipn hd].
    injection H as H. now rewrite IH.
Qed.

Lemma fortran_order_1d (m : nat) (r : list scalar) :
  length r = m -> fortran_order [m] r = r.
Proof.
  intros H. cbn [fortran_order prod fold_right heads_then_tails concat].
  rewrite map_id, app_nil_r. now apply heads_of_singletons.
Qed.

Lemma chunks_lengths (m n : nat) (l : list scalar) :
  length l = n * m -> Forall (fun r => length r = m) (chunks m n l) /\ length (chunks m n l) = n.
Proof.
  revert l. induction n as [|n IH]; intros l H; cbn [chunks].
  - split; [constructor | reflexivity].
  - destruct (IH (skipn m l)) as [H1 H2]; [rewrite length_skipn; lia|].
    split; [constructor; [rewrite length_firstn; lia | exact H1] | cbn; lia].
Qed.

Lemma nth_chunks (m n i : nat) (l : list scalar) :
  i < n -> nth i (chunks m n l) [] = firstn m (skipn (i * m) l).
Proof.
  revert i l. induction n as [|n IH]; intros i l Hi; [lia|].
  destruct i as [|i]; cbn [chunks nth]; [reflexivity|].
  rewrite IH by lia. rewrite skipn_skipn. f_equal. f_equal. cbn. lia.
Qed.

Lemma nth_heads_then_tails (m j : nat) (rows : list (list scalar)) :
  j < m ->
  nth j (heads_then_tails m rows) [] = map (fun r => nth j r (SInt 0)) rows.
Proof.
  revert j rows. induction m as [|m IH]; intros j rows Hj; [lia|].
  destruct j as [|j]; cbn [heads_then_tails nth].
  - apply map_ext. intros [|x r]; reflexivity.
  - rewrite IH by lia. rewrite map_map. apply map_ext. intros [|x r]; [|reflexivity].
    destruct j; reflexivity.
Qed.

Lemma heads_then_tails_lengths (m : nat) (rows : list (list scalar)) :
  Forall (fun c => length c = length rows) (heads_then_tails m rows)
  /\ length (heads_then_tails m rows) = m.
Proof.
  revert rows. induction m as [|m IH]; intros rows; cbn [heads_then_tails].
  - split; [constructor | reflexivity].
  - destruct (IH (map (@tl scalar) rows)) as [H1 H2]. rewrite length_map in H1.
    split; [constructor; [now rewrite length_map | exact H1] | cbn; lia].
Qed.

Lemma nth_concat_blocks (n j i : nat) (L : list (list scalar)) :
  Forall (fun c => length c = n) L -> j < length L -> i < n ->
  nth (j * n + i) (concat L) (SInt 0) = nth i (nth j L []) (SInt 0).
Proof.
  revert j. induction L as [|c L IH]; intros j HL Hj Hi; [cbn in Hj; lia|].
  inversion HL as [|? ? Hc HL']; subst. cbn [concat].
  destruct j as [|j]; cbn [nth].
  - rewrite app_nth1 by lia. reflexivity.
  - rewrite app_nth2 by (cbn; lia).
    replace (S j * length c + i - length c) with (j * length c + i) by (cbn; lia).
    apply IH; [assumption | cbn in Hj; lia | assumption].
Qed.

(** In two dimensions, Fortran order lists the array column by column:
    the element at row [i] and column [j] of an [n] by [m] array is at
    position [j * n + i]. *)
Lemma fortran_order_2d (n m i j : nat) (l : list scalar) :
  length l = n * m -> i < n -> j < m ->
  nth (j * n + i) (fortran_order [n; m] l) (SInt 0) = nth (i * m + j) l (SInt 0).
Proof.
  intros Hl Hi Hj.
  change (fortran_order [n; m] l)
    with (concat (heads_then_tails (prod [m]) (map (fortran_order [m]) (chunks (prod [m]) n l)))).
  replace (prod [m]) with m by (cbn; lia).
  destruct (chunks_lengths m n l Hl) as [Hrows Hn].
  replace (map (fortran_order [m]) (chunks m n l)) with (chunks m n l).
  2:{ symmetry. rewrite <- (map_id (chunks m n l)) at 2. apply map_ext_in.
      intros r Hr. apply fortran_order_1d. rewrite Forall_forall in Hrows. now apply Hrows. }
  destruct (heads_then_tails_lengths m (chunks m n l)) as [H1 H2]. rewrite Hn in H1.
  rewrite (nth_concat_blocks n j i _ H1) by lia.
  rewrite nth_heads_then_tails by assumption.
  rewrite (nth_indep _ (SInt 0) (nth j [] (SInt 0))) by (rewrite length_map; lia).
  rewrite (map_nth (fun r => nth j r (SInt 0))).
  rewrite nth_chunks by assumption.
  rewrite nth_firstn. replace (j <? m)%nat with true by (symmetry; apply Nat.ltb_lt; lia).
  rewrite nth_skipn. reflexivity.
Qed.

(** C7, as the spec states it, fails: the list is converted to an array
    before anything is compared (line 221), and an integer beyond 64 bits
    has no numeric dtype.  [1 <= 2**64], and [check_sorted([1, 2**64])]
    raises a [TypeError]. *)
Lemma check_sorted_huge_item_raises_TypeError :
  (1 <= 18446744073709551616)%Z
  /\ check_sorted (Obj (PyList [PyInt 1; PyInt 18446744073709551616])) true false
       (PyInt (-1)) "Array"
     = Raise (TypeError msg_object_arrays_not_supported)
  /\ check_sorted (Obj (PyList [PyInt 1; PyInt 18446744073709551616])) true false
       (PyInt (-1)) "Array"
     <> Ok tt.
Proof.
  assert (H : check_sorted (Obj (PyList [PyInt 1; PyInt 18446744073709551616])) true false
                (PyInt (-1)) "Array"
              = Raise (TypeError msg_object_arrays_not_supported))
    by (vm_compute; reflexivity).
  split; [lia|]. split; [exact H|]. rewrite H. discriminate.
Qed.

(** C7 (amended): with the default arguments [check_sorted([a, b])]
    succeeds for all integers [a <= b] of the [int64] range, and
    [check_sorted([b, a])] succeeds when [b = a] and raises a [ValueError]
    otherwise.  In general, for an array of at most 64 axes (as every
    NumPy array), the check passes exactly when every adjacent pair of
    elements along the checked axis satisfies the comparison selected by
    [ascending] and [strict] ([<=], [<], [>=] or [>]), and raises a
    [ValueError] when some pair does not.  With [axis=None] the pairs are
    those of the array flattened with [order='A']: in index order, unless
    the array is Fortran-contiguous in memory, when it is read in Fortran
    order (column by column in two dimensions), so that [[1, 3], [2, 4]]
    laid out that way passes and the same array in C layout does not. *)
Theorem check_sorted_adjacent_pairs :
  (forall a b : Z,
     fits_int64 a = true -> fits_int64 b = true -> (a <= b)%Z ->
     check_sorted (Obj (PyList [PyInt a; PyInt b])) true false (PyInt (-1)) "Array" = Ok tt
     /\ (b = a ->
         check_sorted (Obj (PyList [PyInt b; PyInt a])) true false (PyInt (-1)) "Array"
         = Ok tt)
     /\ (b <> a ->
         check_sorted (Obj (PyList [PyInt b; PyInt a])) true false (PyInt (-1)) "Array"
         = Raise (ValueError (msg_must_be_sorted "Array" 2 false true))))
  /\ (forall (a : ndarray) (ascending strict : bool) (axis : Z) (name : string),
        well_formed a ->
        1 <= arr_ndim a -> arr_ndim a <= 64 ->
        (- Z.of_nat (arr_ndim a) <= axis <= Z.of_nat (arr_ndim a) - 1)%Z ->
        (check_sorted (Nd a) ascending strict (PyInt axis) name = Ok tt
         <-> sorted_along a (axis_position axis (arr_ndim a)) (sorted_op ascending strict))
        /\ (check_sorted (Nd a) ascending strict (PyInt axis) name = Ok tt
            \/ check_sorted (Nd a) ascending strict (PyInt axis) name
               = Raise (ValueError (msg_must_be_sorted name (arr_size a) strict ascending)))
        /\ check_sorted (NdF a) ascending strict (PyInt axis) name
           = check_sorted (Nd a) ascending strict (PyInt axis) name)
  /\ (forall (a : ndarray) (ascending strict : bool) (name : string),
        1 <= arr_ndim a ->
        (check_sorted (Nd a) ascending strict PyNone name = Ok tt
         <-> adjacent_sorted (sorted_op ascending strict) (arr_data a))
        /\ (check_sorted (Nd a) ascending strict PyNone name = Ok tt
            \/ check_sorted (Nd a) ascending strict PyNone name
               = Raise (ValueError (msg_must_be_sorted name (length (arr_data a))
                                      strict ascending)))
        /\ (check_sorted (NdF a) ascending strict PyNone name = Ok tt
            <-> adjacent_sorted (sorted_op ascending strict)
                  (fortran_order (arr_shape a) (arr_data a))))
  /\ (forall (n m i j : nat) (l : list scalar),
        length l = n * m -> i < n -> j < m ->
        nth (j * n + i) (fortran_order [n; m] l) (SInt 0) = nth (i * m + j) l (SInt 0))
  /\ check_sorted (NdF (mk_ndarray int64 [2; 2] [SInt 1; SInt 3; SInt 2; SInt 4]))
       true false PyNone "Array" = Ok tt
  /\ check_sorted (Nd (mk_ndarray int64 [2; 2] [SInt 1; SInt 3; SInt 2; SInt 4]))
       true false PyNone "Array"
     = Raise (ValueError (msg_must_be_sorted "Array" 4 false true)).
Proof.
  split; [|split; [|split; [|split; [|split]]]].
  - intros a b Ha Hb Hab.
    destruct (_cast_to_numpy_int64_pair a b Ha Hb) as [Hab_cast _].
    destruct (_cast_to_numpy_int64_pair b a Hb Ha) as [Hba_cast _].
    rewrite (check_sorted_cast (Obj (PyList [PyInt a; PyInt b]))
               (mk_ndarray int64 [2] [SInt a; SInt b]))
      by (rewrite ?as_ndarray_cast; (assumption || reflexivity)).
    rewrite (check_sorted_cast (Obj (PyList [PyInt b; PyInt a]))
               (mk_ndarray int64 [2] [SInt b; SInt a]))
      by (rewrite ?as_ndarray_cast; (assumption || reflexivity)).
    rewrite !check_sorted_pair. cbn [sorted_op]. rewrite !np_less_equal_int.
    split; [|split].
    + replace (a <=? b)%Z with true by (symmetry; apply Z.leb_le; lia). reflexivity.
    + intros ->. now rewrite Z.leb_refl.
    + intros Hne. replace (b <=? a)%Z with false by (symmetry; apply Z.leb_gt; lia).
      reflexivity.
  - intros a ascending strict axis name Hwf Hn Hrank Hax.
    assert (Hfit : fits_int64 axis || fits_uint64 axis = true).
    { apply orb_true_iff. left. apply fits_int64_iff.
      unfold int64_min, int64_max. lia. }
    rewrite check_sorted_layout.
    rewrite check_sorted_int_axis by (assumption || lia).
    replace ((- Z.of_nat (arr_ndim a) <=? axis)%Z && (axis <=? Z.of_nat (arr_ndim a) - 1)%Z)
      with true by (symmetry; apply andb_true_iff; split; apply Z.leb_le; lia).
    destruct (list_index_in_range axis (arr_ndim a) Hax) as [-> Hk].
    cbn [bind].
    destruct (compare_along_sorted a (axis_position axis (arr_ndim a)) ascending strict
                name Hwf Hk) as [H1 H2].
    split; [exact H1 | split; [exact H2 | reflexivity]].
  - intros a ascending strict name Hn.
    rewrite (check_sorted_None (Nd a) a) by (reflexivity || lia).
    rewrite (check_sorted_None (NdF a) a) by (reflexivity || lia).
    cbn [order_A].
    assert (Hrav : forall order,
              well_formed (ravel order a) /\ 0 < arr_ndim (ravel order a)).
    { intros order. unfold well_formed, arr_size, ravel, prod, arr_ndim. cbn. lia. }
    destruct (compare_along_sorted (ravel C_order a) 0 ascending strict name
                (proj1 (Hrav C_order)) (proj2 (Hrav C_order))) as [H1 H2].
    destruct (compare_along_sorted (ravel F_order a) 0 ascending strict name
                (proj1 (Hrav F_order)) (proj2 (Hrav F_order))) as [H3 _].
    rewrite sorted_along_ravel in H1, H3.
    split; [exact H1 | split; [|exact H3]].
    replace (length (arr_data a)) with (arr_size (ravel C_order a))
      by (unfold arr_size, ravel, prod; cbn; lia).
    exact H2.
  - exact fortran_order_2d.
  - vm_compute. reflexivity.
  - vm_compute. reflexivity.
Qed.

Lemma check_sorted_adjacent_pairs_witness :
  (3 <= 7)%Z
  /\ check_sorted (Obj (PyList [PyInt 3; PyInt 7])) true false (PyInt (-1)) "Array" = Ok tt.
Proof.
  split.
  - vm_compute. discriminate.
  - apply (proj1 check_sorted_adjacent_pairs 3%Z 7%Z); [reflexivity | reflexivity |].
    vm_compute. discriminate.
Defined.

(** * Further properties of the module *)

(** ** [check_real], [check_greater_than], [check_less_than],
    [check_nonnegative] *)

(** X1: The early return of [check_real] (line 158) for the four common dtypes
    gives what the [check_subdtype] path gives for them; the outcome
    depends on the dtype alone, integer and floating dtypes being
    accepted and [bool] refused. *)
Theorem check_real_early_return_agrees :
  forall (a : ndarray) (name : string),
    check_real (Nd a) name
    = match check_subdtype a (base_seq [np_floating; np_integer]) name with
      | Raise (TypeError _) => Raise (TypeError (msg_must_have_real_numbers name))
      | r => r
      end
    /\ (check_real (Nd a) name = Ok tt <-> is_real_dtype (arr_dtype a) = true)
    /\ (check_real (Nd a) name = Ok tt
        \/ check_real (Nd a) name = Raise (TypeError (msg_must_have_real_numbers name))).
Proof.
  intros [d s l] name. destruct d; cbn; repeat split; auto; discriminate.
Qed.

Lemma _validate_real_value_Nd (v : ndarray) (name : string) :
  _validate_real_value (Nd v) name
  = if negb (length (arr_shape v) =? 0)%nat
    then Raise (ValueError (msg_shape_not_allowed name (arr_shape v)))
    else if negb (is_real_dtype (arr_dtype v))
    then Raise (TypeError (msg_must_have_real_numbers name))
    else Ok v.
Proof.
  unfold _validate_real_value, _validate_real_value_.
  cbn [_cast_to_numpy bind].
  fold check_shape. rewrite (check_shape_one _ (PyTuple []) []) by (discriminate || reflexivity).
  cbn [np_shape bind].
  replace (_shape_is_allowed (arr_shape v) [])
    with (length (arr_shape v) =? 0)%nat
    by (unfold _shape_is_allowed; destruct (arr_shape v); reflexivity).
  destruct (length (arr_shape v) =? 0)%nat; [|reflexivity].
  cbn [negb bind]. rewrite check_real_Nd.
  destruct (is_real_dtype (arr_dtype v)); reflexivity.
Qed.

Lemma forallb_map_comp {A B} (f : A -> B) (p : B -> bool) (l : list A) :
  forallb p (map f l) = forallb (fun x => p (f x)) l.
Proof. induction l as [|x l IH]; cbn; [reflexivity | now rewrite IH]. Qed.

Lemma forallb_weaken {A} (p q : A -> bool) (l : list A) :
  (forall x, p x = true -> q x = true) ->
  forallb p l = true -> forallb q l = true.
Proof.
  intros Hpq H. rewrite forallb_forall in *. intros x Hx. apply Hpq. now apply H.
Qed.

Lemma np_greater_weaken (x y : scalar) :
  np_greater x y = true -> np_greater_equal x y = true.
Proof.
  unfold np_greater, np_greater_equal.
  destruct (np_compare x y) as [[]|]; cbn; congruence.
Qed.

Lemma np_less_weaken (x y : scalar) :
  np_less x y = true -> np_less_equal x y = true.
Proof.
  unfold np_less, np_less_equal.
  destruct (np_compare x y) as [[]|]; cbn; congruence.
Qed.

(** X2: [check_greater_than] converts the array, then requires [value] to be a
    0-dimensional array of a real dtype (a [ValueError] resp. [TypeError]
    naming "Value" otherwise), and then compares every element with it:
    with [strict] all elements must be [>] the value, otherwise [>=]; once
    the strict test has passed, the second test of line 450 cannot fail. *)
Theorem check_greater_than_outcome :
  forall (a v : ndarray) (strict : bool) (name : string),
    check_greater_than (Nd a) (Nd v) strict name
    = if negb (length (arr_shape v) =? 0)%nat
      then Raise (ValueError (msg_shape_not_allowed "Value" (arr_shape v)))
      else if negb (is_real_dtype (arr_dtype v))
      then Raise (TypeError (msg_must_have_real_numbers "Value"))
      else if forallb (fun x => (if strict then np_greater else np_greater_equal) x (item v))
                (arr_data a)
      then Ok tt
      else Raise (ValueError (msg_must_be_greater_than name (negb strict))).
Proof.
  intros a v strict name. unfold check_greater_than, check_greater_than_.
  cbn [as_ndarray bind]. fold _validate_real_value. rewrite _validate_real_value_Nd.
  destruct (negb (length (arr_shape v) =? 0)%nat); [reflexivity|].
  destruct (negb (is_real_dtype (arr_dtype v))); [reflexivity|].
  cbn [bind]. unfold np_all_against.
  destruct strict; cbn [andb negb].
  - destruct (forallb (fun x => np_greater x (item v)) (arr_data a)) eqn:E; [|reflexivity].
    cbn [negb].
    rewrite (forallb_weaken _ (fun x => np_greater_equal x (item v)) _
               (fun x => np_greater_weaken x (item v)) E).
    reflexivity.
  - destruct (forallb _ _); reflexivity.
Qed.

(** X3: [check_less_than] mirrors [check_greater_than] with [<] and [<=]. *)
Theorem check_less_than_outcome :
  forall (a v : ndarray) (strict : bool) (name : string),
    check_less_than (Nd a) (Nd v) strict name
    = if negb (length (arr_shape v) =? 0)%nat
      then Raise (ValueError (msg_shape_not_allowed "Value" (arr_shape v)))
      else if negb (is_real_dtype (arr_dtype v))
      then Raise (TypeError (msg_must_have_real_numbers "Value"))
      else if forallb (fun x => (if strict then np_less else np_less_equal) x (item v))
                (arr_data a)
      then Ok tt
      else Raise (ValueError (msg_must_be_less_than name (negb strict))).
Proof.
  intros a v strict name. unfold check_less_than.
  cbn [as_ndarray bind]. rewrite _validate_real_value_Nd.
  destruct (negb (length (arr_shape v) =? 0)%nat); [reflexivity|].
  destruct (negb (is_real_dtype (arr_dtype v))); [reflexivity|].
  cbn [bind]. unfold np_all_against.
  destruct strict; cbn [andb negb].
  - destruct (forallb (fun x => np_less x (item v)) (arr_data a)) eqn:E; [|reflexivity].
    cbn [negb].
    rewrite (forallb_weaken _ (fun x => np_less_equal x (item v)) _
               (fun x => np_less_weaken x (item v)) E).
    reflexivity.
  - destruct (forallb _ _); reflexivity.
Qed.

Lemma check_greater_than_int_value (x : array_like) (v : Z) (strict : bool)
    (name : string) :
  fits_int64 v = true ->
  check_greater_than x (Obj (PyInt v)) strict name
  = check_greater_than x (Nd (zero_dim int64 (SInt v))) strict name.
Proof.
  intros Hv. unfold check_greater_than, check_greater_than_.
  destruct (as_ndarray x) as [a|e]; [|reflexivity]. cbn [bind].
  unfold _validate_real_value_. rewrite (_cast_to_numpy_int64 v Hv).
  reflexivity.
Qed.

(** X4: [check_nonnegative] on an array of integers succeeds exactly when no
    element is negative, and raises the "greater than or equal" [ValueError]
    otherwise; an empty array passes. *)
Theorem check_nonnegative_integers :
  forall (d : dtype) (s : list nat) (l : list Z) (name : string),
    (check_nonnegative (Nd (mk_ndarray d s (map SInt l))) name = Ok tt
     <-> Forall (fun z => (0 <= z)%Z) l)
    /\ (check_nonnegative (Nd (mk_ndarray d s (map SInt l))) name = Ok tt
        \/ check_nonnegative (Nd (mk_ndarray d s (map SInt l))) name
           = Raise (ValueError (msg_must_be_greater_than name true))).
Proof.
  intros d s l name. unfold check_nonnegative.
  rewrite check_greater_than_int_value, check_greater_than_zero_dim by reflexivity.
  cbn [arr_data]. rewrite forallb_map_comp.
  assert (H : forallb (fun z => np_greater_equal (SInt z) (SInt 0)) l = true
              <-> Forall (fun z => (0 <= z)%Z) l).
  { rewrite forallb_forall, Forall_forall. split; intros H z Hz; specialize (H z Hz).
    - rewrite np_greater_equal_int in H. now apply Z.leb_le.
    - rewrite np_greater_equal_int. now apply Z.leb_le. }
  destruct (forallb _ l); cbn [negb]; split; try (now left); try (now right).
  - split; [intros _; now apply H | reflexivity].
  - split; [discriminate | intros HF; apply H in HF; discriminate].
Qed.

(** ** [check_sorted] *)

Lemma sorted_op_weaken (ascending : bool) (x y : scalar) :
  sorted_op ascending true x y = true -> sorted_op ascending false x y = true.
Proof.
  unfold sorted_op, np_less, np_less_equal, np_greater, np_greater_equal.
  destruct ascending, (np_compare x y) as [[]|]; cbn; congruence.
Qed.

Lemma np_all_pairwise_weaken (p q : scalar -> scalar -> bool) (x y : ndarray) :
  (forall u v, p u v = true -> q u v = true) ->
  np_all_pairwise p x y = true -> np_all_pairwise q x y = true.
Proof.
  intros Hpq. unfold np_all_pairwise. apply forallb_weaken.
  intros [u v]. unfold on_pair. apply Hpq.
Qed.

(** X5: Whatever [check_sorted] accepts with [strict=True] it accepts with
    [strict=False], for every input, direction and [axis] argument: the
    two modes differ in the final comparison only. *)
Theorem check_sorted_strict_implies_non_strict :
  forall (x : array_like) (ascending : bool) (axis : pyobj) (name : string),
    check_sorted x ascending true axis name = Ok tt ->
    check_sorted x ascending false axis name = Ok tt.
Proof.
  intros x ascending axis name. unfold check_sorted, check_sorted_.
  destruct (as_ndarray x) as [a|e]; cbn [bind]; [|discriminate].
  destruct (arr_ndim a =? 0)%nat; [trivial|].
  match goal with
  | |- context [bind ?v _] => destruct v as [ax|e]
  end; cbn [bind]; [|discriminate].
  destruct (is_None ax && (1 <=? arr_ndim a)%nat).
  - destruct (list_index (PyInt 0) 1) as [k|e]; cbn [bind]; [|discriminate].
    destruct ascending; cbn [andb negb].
    + destruct (np_all_pairwise np_less _ _) eqn:E; cbn [negb]; [|discriminate].
      intros _. now rewrite (np_all_pairwise_weaken _ _ _ _ np_less_weaken E).
    + destruct (np_all_pairwise np_greater _ _) eqn:E; cbn [negb]; [|discriminate].
      intros _. now rewrite (np_all_pairwise_weaken _ _ _ _ np_greater_weaken E).
  - destruct (list_index ax (arr_ndim a)) as [k|e]; cbn [bind]; [|discriminate].
    destruct ascending; cbn [andb negb].
    + destruct (np_all_pairwise np_less _ _) eqn:E; cbn [negb]; [|discriminate].
      intros _. now rewrite (np_all_pairwise_weaken _ _ _ _ np_less_weaken E).
    + destruct (np_all_pairwise np_greater _ _) eqn:E; cbn [negb]; [|discriminate].
      intros _. now rewrite (np_all_pairwise_weaken _ _ _ _ np_greater_weaken E).
Qed.

Lemma check_sorted_strict_implies_non_strict_witness :
  check_sorted (Obj (PyList [PyInt 1; PyInt 2; PyInt 5])) true true (PyInt (-1)) "Array" = Ok tt
  /\ check_sorted (Obj (PyList [PyInt 1; PyInt 2; PyInt 5])) true false (PyInt (-1)) "Array"
     = Ok tt.
Proof.
  split; [reflexivity|].
  apply (check_sorted_strict_implies_non_strict
           (Obj (PyList [PyInt 1; PyInt 2; PyInt 5])) true (PyInt (-1)) "Array").
  reflexivity.
Defined.

Lemma concat_map_nil {A B} (l : list A) : concat (map (fun _ => @nil B) l) = [].
Proof. induction l; cbn; auto. Qed.

Lemma basic_slice_empty (a : ndarray) (k lo : nat) :
  arr_data (basic_slice a k lo lo) = [].
Proof.
  unfold basic_slice. cbn [arr_data]. rewrite Nat.sub_diag. cbn [Nat.mul firstn].
  apply concat_map_nil.
Qed.

(** X6: An array with at most one element along the axis that is checked
    (an empty array in particular) passes [check_sorted] in every mode,
    the strict ones included; a 0-dimensional array passes whatever the
    [axis] argument is, since line 226 returns before the axis is
    validated.  (The rank is at most 64, as that of every NumPy array:
    [-ndim] and [ndim - 1] are converted to an array on line 234.)  The
    memory layout of the array makes no difference. *)
Theorem check_sorted_short_axis :
  forall (a : ndarray) (ascending strict : bool) (name : string),
    (forall axis : Z,
       arr_ndim a <> 0 -> arr_ndim a <= 64 ->
       (- Z.of_nat (arr_ndim a) <= axis <= Z.of_nat (arr_ndim a) - 1)%Z ->
       axis_len (arr_shape a) (axis_position axis (arr_ndim a)) <= 1 ->
       check_sorted (Nd a) ascending strict (PyInt axis) name = Ok tt
       /\ check_sorted (NdF a) ascending strict (PyInt axis) name = Ok tt)
    /\ (forall axis : pyobj,
          arr_ndim a = 0 ->
          check_sorted (Nd a) ascending strict axis name = Ok tt
          /\ check_sorted (NdF a) ascending strict axis name = Ok tt).
Proof.
  intros a ascending strict name. split.
  - intros axis Hnd Hrank Hax Hlen.
    assert (Hfit : fits_int64 axis || fits_uint64 axis = true).
    { apply orb_true_iff. left. apply fits_int64_iff.
      unfold int64_min, int64_max. lia. }
    rewrite check_sorted_layout.
    rewrite check_sorted_int_axis by assumption.
    replace ((- Z.of_nat (arr_ndim a) <=? axis)%Z && (axis <=? Z.of_nat (arr_ndim a) - 1)%Z)
      with true by (symmetry; apply andb_true_iff; split; apply Z.leb_le; lia).
    destruct (list_index_in_range axis (arr_ndim a) Hax) as [-> _]. cbn [bind].
    unfold compare_along, np_all_pairwise.
    set (k := axis_position axis (arr_ndim a)) in *.
    replace (axis_len (arr_shape a) k - 1) with 0 by lia.
    now rewrite basic_slice_empty.
  - intros axis Hnd. unfold check_sorted, check_sorted_. cbn [as_ndarray bind].
    now rewrite Hnd.
Qed.

Lemma check_sorted_short_axis_witness :
  check_sorted (Nd (mk_ndarray int64 [1; 0] [])) true true (PyInt 0) "Array" = Ok tt
  /\ check_sorted (Nd (zero_dim int64 (SInt 3))) false true (PyStr "x") "Array" = Ok tt.
Proof.
  split.
  - apply (proj1 (check_sorted_short_axis (mk_ndarray int64 [1; 0] []) true true "Array") 0%Z).
    + cbn. lia.
    + cbn. lia.
    + cbn. lia.
    + cbn. lia.
  - apply (proj2 (check_sorted_short_axis (zero_dim int64 (SInt 3)) false true "Array")
             (PyStr "x")).
    reflexivity.
Defined.

(** ** [check_type] and [check_iterable_items] *)

(** X7: Whatever [check_type] accepts, [check_instance] accepts with the same
    class information; the converse fails, [True] being an instance of
    [int] whose type is not [int]. *)
Theorem check_type_implies_check_instance :
  (forall (obj : pyobj) (ci : classinfo) (name : pyobj),
     check_type obj ci name = Ok tt -> check_instance obj ci true name = Ok tt)
  /\ check_instance (PyBool true) (cls_one c_int) true (PyStr "Object") = Ok tt
  /\ check_type (PyBool true) (cls_one c_int) (PyStr "Object")
     = Raise (TypeError (msg_instance "Object" must_have_type)).
Proof.
  split; [|split; reflexivity].
  intros obj ci name. unfold check_type, check_instance.
  destruct (negb (isinstance name (cls_one c_str))); [discriminate|].
  cbn [andb negb].
  assert (H : existsb (pyclass_eqb (type_of obj)) (candidates ci) = true ->
              isinstance obj (match ci with cls_Union cs => cls_tuple cs | _ => ci end) = true).
  { intros H. apply existsb_pyclass_eqb in H.
    assert (Hi : isinstance obj ci = true).
    { apply isinstance_candidates. exists (type_of obj). split; [assumption|].
      apply issubclass_refl. }
    destruct ci; exact Hi. }
  destruct ci as [c|cs|cs]; cbn [candidates existsb] in H.
  - destruct (pyclass_eqb (type_of obj) c); cbn [negb]; [|discriminate].
    intros _. rewrite H by reflexivity. reflexivity.
  - destruct (existsb (pyclass_eqb (type_of obj)) cs); cbn [negb]; [|discriminate].
    intros _. rewrite H by reflexivity. reflexivity.
  - destruct (existsb (pyclass_eqb (type_of obj)) cs); cbn [negb]; [|discriminate].
    intros _. rewrite H by reflexivity. reflexivity.
Qed.

Lemma check_type_implies_check_instance_witness :
  check_instance (PyInt 3) (cls_one c_int) true (PyStr "Object") = Ok tt.
Proof.
  apply (proj1 check_type_implies_check_instance (PyInt 3) (cls_one c_int) (PyStr "Object")).
  reflexivity.
Defined.

Lemma any_check_instance_app (pre : list pyobj) (bad : pyobj) (post : list pyobj)
    (item_type : classinfo) (allow : bool) (name : pyobj) (e : exn) :
  Forall (fun x => check_instance x item_type allow name = Ok tt) pre ->
  check_instance bad item_type allow name = Raise e ->
  any_check_instance (pre ++ bad :: post) item_type allow name = (Raise e, post).
Proof.
  intros Hpre Hbad. induction Hpre as [|x pre Hx _ IH]; cbn.
  - now rewrite Hbad.
  - now rewrite Hx.
Qed.

Lemma any_check_instance_all (items : list pyobj)
    (item_type : classinfo) (allow : bool) (name : pyobj) :
  Forall (fun x => check_instance x item_type allow name = Ok tt) items ->
  any_check_instance items item_type allow name = (Ok tt, []).
Proof.
  intros H. induction H as [|x items Hx _ IH]; cbn; [reflexivity|]. now rewrite Hx.
Qed.

(** X8: [check_iterable_items] checks the items in order and stops at the
    first one that [check_instance] refuses: the error raised is that
    item's, the items after it are not looked at, and an iterator is left
    holding exactly the items after the offending one; a list is left as
    it was. *)
Theorem check_iterable_items_first_offender :
  forall (pre : list pyobj) (bad : pyobj) (post : list pyobj)
         (item_type : classinfo) (allow_subclass : bool) (name : string) (e : exn),
    Forall (fun x => check_instance x item_type allow_subclass
                       (PyStr ("All items of " ++ name)) = Ok tt) pre ->
    check_instance bad item_type allow_subclass (PyStr ("All items of " ++ name))
    = Raise e ->
    check_iterable_items (PyIter (pre ++ bad :: post)) item_type allow_subclass name
    = (Raise e, PyIter post)
    /\ check_iterable_items (PyList (pre ++ bad :: post)) item_type allow_subclass name
       = (Raise e, PyList (pre ++ bad :: post))
    /\ check_iterable_items (PyTuple (pre ++ bad :: post)) item_type allow_subclass name
       = (Raise e, PyTuple (pre ++ bad :: post)).
Proof.
  intros pre bad post item_type allow name e Hpre Hbad.
  unfold check_iterable_items.
  replace (check_iterable (PyIter (pre ++ bad :: post)) (PyStr name)) with (Ok tt)
    by reflexivity.
  replace (check_iterable (PyList (pre ++ bad :: post)) (PyStr name)) with (Ok tt)
    by reflexivity.
  replace (check_iterable (PyTuple (pre ++ bad :: post)) (PyStr name)) with (Ok tt)
    by reflexivity.
  cbn [iter_items].
  rewrite (any_check_instance_app pre bad post _ _ _ e Hpre Hbad).
  repeat split.
Qed.

Lemma check_iterable_items_first_offender_witness :
  check_iterable_items (PyIter ([PyInt 1] ++ PyStr "a" :: [PyNone])) (cls_one c_int) true "Shape"
  = (Raise (TypeError (msg_instance "All items of Shape" must_be_an_instance_of)),
     PyIter [PyNone]).
Proof.
  apply (check_iterable_items_first_offender [PyInt 1] (PyStr "a") [PyNone]
           (cls_one c_int) true "Shape").
  - constructor; [reflexivity | constructor].
  - reflexivity.
Defined.

(** X9: [check_iterable_items] succeeds on a list, tuple or iterator exactly
    when [check_instance] accepts every item (an empty one always
    passes); an object that is not iterable is refused by
    [check_iterable] with a [TypeError] before any item is looked at. *)
Theorem check_iterable_items_all_items :
  forall (items : list pyobj) (item_type : classinfo) (allow_subclass : bool)
         (name : string),
    (fst (check_iterable_items (PyList items) item_type allow_subclass name) = Ok tt
     <-> Forall (fun x => check_instance x item_type allow_subclass
                            (PyStr ("All items of " ++ name)) = Ok tt) items)
    /\ fst (check_iterable_items (PyTuple items) item_type allow_subclass name)
       = fst (check_iterable_items (PyList items) item_type allow_subclass name)
    /\ fst (check_iterable_items (PyIter items) item_type allow_subclass name)
       = fst (check_iterable_items (PyList items) item_type allow_subclass name)
    /\ (forall obj : pyobj,
          isinstance obj (cls_one c_Iterable) = false ->
          check_iterable_items obj item_type allow_subclass name
          = (Raise (TypeError (msg_instance name must_be_an_instance_of)), obj)).
Proof.
  intros items item_type allow name.
  assert (Hfst : forall o, iter_items o = Some items ->
            check_iterable o (PyStr name) = Ok tt ->
            fst (check_iterable_items o item_type allow name)
            = fst (any_check_instance items item_type allow (PyStr ("All items of " ++ name)))).
  { intros o Ho Hc. unfold check_iterable_items. rewrite Hc, Ho.
    destruct (any_check_instance _ _ _ _). reflexivity. }
  split; [|split; [|split]].
  - rewrite (Hfst (PyList items)) by reflexivity. clear Hfst. split.
    + induction items as [|x items IH]; cbn [any_check_instance]; [constructor|].
      destruct (check_instance x item_type allow (PyStr ("All items of " ++ name)))
        as [[]|e] eqn:Hx; [|cbn [fst]; discriminate].
      intros H. constructor; [assumption | now apply IH].
    + intros H. now rewrite any_check_instance_all.
  - now rewrite (Hfst (PyTuple items)), (Hfst (PyList items)).
  - now rewrite (Hfst (PyIter items)), (Hfst (PyList items)).
  - intros obj Hobj. unfold check_iterable_items, check_iterable.
    rewrite check_instance_cases. rewrite Hobj. reflexivity.
Qed.

Lemma check_iterable_items_all_items_witness :
  check_iterable_items (PyInt 3) (cls_one c_int) true "Shape"
  = (Raise (TypeError (msg_instance "Shape" must_be_an_instance_of)), PyInt 3).
Proof.
  apply (proj2 (proj2 (proj2 (check_iterable_items_all_items [] (cls_one c_int) true "Shape")))
           (PyInt 3)).
  reflexivity.
Defined.

(** ** Integers converted to binary64

    A tuple that mixes [int64] and [uint64] items becomes an array of
    dtype [float64]; what is needed of the conversion is its sign and, for
    the negative integers below -1, that the result stays below -1. *)

Lemma iter_pos_nat {A} (f : A -> A) (n : positive) (x : A) :
  iter_pos f n x = Nat.iter (Pos.to_nat n) f x.
Proof.
  revert x. induction n as [n IH|n IH|]; intros x; cbn [iter_pos].
  - rewrite !IH, Pos2Nat.inj_xI, Nat.iter_succ_r.
    replace (2 * Pos.to_nat n) with (Pos.to_nat n + Pos.to_nat n) by lia.
    now rewrite Nat.iter_add.
  - rewrite !IH, Pos2Nat.inj_xO.
    replace (2 * Pos.to_nat n) with (Pos.to_nat n + Pos.to_nat n) by lia.
    now rewrite Nat.iter_add.
  - reflexivity.
Qed.

Lemma shr_1_positive (q : positive) (r s : bool) :
  (2 <= Zpos (digits2_pos q))%Z ->
  exists q' r' s',
    shr_1 (Build_shr_record (Zpos q) r s) = Build_shr_record (Zpos q') r' s'
    /\ Zpos (digits2_pos q') = (Zpos (digits2_pos q) - 1)%Z.
Proof.
  intros H. destruct q as [q|q|]; cbn [shr_1 digits2_pos] in *.
  - exists q, true, (r || s). split; [reflexivity | lia].
  - exists q, false, (r || s). split; [reflexivity | lia].
  - lia.
Qed.

Lemma iter_shr_1_positive (k : nat) (q : positive) (r s : bool) :
  (Z.of_nat k < Zpos (digits2_pos q))%Z ->
  exists q' r' s',
    Nat.iter k shr_1 (Build_shr_record (Zpos q) r s) = Build_shr_record (Zpos q') r' s'.
Proof.
  revert q r s. induction k as [|k IH]; intros q r s H.
  - cbn. eauto.
  - rewrite Nat.iter_succ_r.
    destruct (shr_1_positive q r s ltac:(lia)) as [q' [r' [s' [E D]]]].
    rewrite E. apply IH. lia.
Qed.

Lemma shr_fexp_positive (q : positive) (e : Z) (l : location) :
  (-1074 < Zpos (digits2_pos q) + e)%Z ->
  exists q' r' s' e',
    shr_fexp 53 1024 (Zpos q) e l = (Build_shr_record (Zpos q') r' s', e')
    /\ (e <= e')%Z.
Proof.
  intros H. unfold shr_fexp, shr, fexp, emin. cbn [Zdigits2].
  set (n := (Z.max (Z.pos (digits2_pos q) + e - 53) (3 - 1024 - 53) - e)%Z).
  assert (Hn : (n < Zpos (digits2_pos q))%Z) by (unfold n; lia).
  destruct (shr_record_of_loc (Zpos q) l) as [m r s] eqn:E.
  assert (m = Zpos q) by (destruct l as [|[]]; cbn in E; congruence). subst m.
  destruct n as [|k|k] eqn:En.
  - exists q, r, s, e. split; [reflexivity | lia].
  - rewrite iter_pos_nat.
    destruct (iter_shr_1_positive (Pos.to_nat k) q r s) as [q' [r' [s' E']]].
    { rewrite positive_nat_Z. lia. }
    rewrite E'. exists q', r', s', (e + Zpos k)%Z. split; [reflexivity | lia].
  - exists q, r, s, e. split; [reflexivity | lia].
Qed.

Lemma binary_round_aux_sign (sx : bool) (q : positive) (e : Z) :
  (-1074 < e)%Z ->
  (exists m e', binary_round_aux 53 1024 sx (Zpos q) e loc_Exact = S754_finite sx m e'
                /\ (e <= e')%Z)
  \/ binary_round_aux 53 1024 sx (Zpos q) e loc_Exact = S754_infinity sx.
Proof.
  intros He. unfold binary_round_aux.
  destruct (shr_fexp_positive q e loc_Exact ltac:(lia)) as [q1 [r1 [s1 [e1 [E1 H1]]]]].
  rewrite E1. cbn [shr_m].
  assert (Hr : exists q2, round_nearest_even (Zpos q1)
                            (loc_of_shr_record (Build_shr_record (Zpos q1) r1 s1)) = Zpos q2).
  { unfold round_nearest_even.
    destruct (loc_of_shr_record _) as [|[]]; try (eexists; reflexivity).
    destruct (Z.even (Zpos q1)); eexists; reflexivity. }
  destruct Hr as [q2 ->].
  destruct (shr_fexp_positive q2 e1 loc_Exact ltac:(lia)) as [q3 [r3 [s3 [e3 [E3 H3]]]]].
  rewrite E3. cbn [shr_m].
  destruct (e3 <=? 1024 - 53)%Z; [left; exists q3, e3; split; [reflexivity | lia] | now right].
Qed.

Lemma binary_round_sign (sx : bool) (p : positive) :
  (exists m e, binary_round 53 1024 sx p 0 = S754_finite sx m e
               /\ (Z.min (Zpos (digits2_pos p) - 53) 0 <= e)%Z)
  \/ binary_round 53 1024 sx p 0 = S754_infinity sx.
Proof.
  unfold binary_round, shl_align, fexp, emin.
  set (d := Zpos (digits2_pos p)).
  assert (Hd : (1 <= d)%Z) by (unfold d; lia).
  destruct (Z.max (d + 0 - 53) (3 - 1024 - 53) - 0)%Z as [|k|k] eqn:E.
  - destruct (binary_round_aux_sign sx p 0 ltac:(lia)) as [[m [e [H1 H2]]] | H];
      [left; exists m, e; split; [exact H1 | lia] | now right].
  - destruct (binary_round_aux_sign sx p 0 ltac:(lia)) as [[m [e [H1 H2]]] | H];
      [left; exists m, e; split; [exact H1 | lia] | now right].
  - replace (Z.max (d + 0 - 53) (3 - 1024 - 53)) with (Zneg k) by lia.
    destruct (binary_round_aux_sign sx (Pos.iter xO p k) (Zneg k) ltac:(lia))
      as [[m [e [H1 H2]]] | H]; [left; exists m, e; split; [exact H1 | lia] | now right].
Qed.

Lemma of_Z_minus_1 : F.of_Z (-1) = S754_finite true 4503599627370496 (-52).
Proof. vm_compute. reflexivity. Qed.

(** [float(z) >= -1] exactly when [z >= -1]. *)
Lemma np_greater_equal_of_Z (z : Z) :
  np_greater_equal (SFloat (F.of_Z z)) (SInt (-1)) = (-1 <=? z)%Z.
Proof.
  unfold np_greater_equal, np_compare. cbn [scalar_to_float]. rewrite of_Z_minus_1.
  destruct z as [|p|p].
  - reflexivity.
  - unfold F.of_Z, F.prec, F.emax. cbn [binary_normalize].
    destruct (binary_round_sign false p) as [[m [e [-> _]]] | ->]; reflexivity.
  - destruct p as [p|p|]; [| |reflexivity].
    + unfold F.of_Z, F.prec, F.emax. cbn [binary_normalize].
      destruct (binary_round_sign true p~1) as [[m [e [-> He]]] | ->]; [|reflexivity].
      cbn [SFcompare]. cbn [digits2_pos] in He.
      replace (e ?= -52)%Z with Gt by (symmetry; apply Z.compare_gt_iff; lia).
      reflexivity.
    + unfold F.of_Z, F.prec, F.emax. cbn [binary_normalize].
      destruct (binary_round_sign true p~0) as [[m [e [-> He]]] | ->]; [|reflexivity].
      cbn [SFcompare]. cbn [digits2_pos] in He.
      replace (e ?= -52)%Z with Gt by (symmetry; apply Z.compare_gt_iff; lia).
      reflexivity.
Qed.

(** ** Tuples and lists of [int]s as arrays *)

Lemma plain_class_not_tuple (b : plain_class) :
  existsb (pyclass_eqb c_tuple) (ancestors (class_of_plain b)) = false.
Proof. induction b as [|n b IH]; [reflexivity|]. cbn. exact IH. Qed.

Lemma isinstance_int (o : pyobj) : isinstance o (cls_one c_int) = is_int o.
Proof.
  destruct o; try reflexivity.
  cbn [isinstance type_of is_int]. unfold issubclass. cbn [ancestors existsb].
  rewrite plain_class_not_int. reflexivity.
Qed.

Lemma isinstance_tuple (o : pyobj) : isinstance o (cls_one c_tuple) = is_tuple o.
Proof.
  destruct o; try reflexivity.
  cbn [isinstance type_of is_tuple]. unfold issubclass. cbn [ancestors existsb].
  rewrite plain_class_not_tuple. reflexivity.
Qed.

Lemma _is_valid_dim_is_int (d : pyobj) :
  _is_valid_dim d = is_int d && int_ge d (-1).
Proof. unfold _is_valid_dim. now rewrite isinstance_int. Qed.

Lemma forallb_ext_in {A} (p q : A -> bool) (l : list A) :
  (forall x, In x l -> p x = q x) -> forallb p l = forallb q l.
Proof.
  induction l as [|x l IH]; intros H; cbn; [reflexivity|].
  rewrite (H x (or_introl eq_refl)), IH; [reflexivity|].
  intros y Hy. apply H. now right.
Qed.

Lemma is_int64_is_int (l : list pyobj) :
  forallb is_int64 l = true -> forallb is_int l = true.
Proof.
  apply forallb_weaken. intros x. destruct x; try discriminate; reflexivity.
Qed.

Lemma sequence_np_shape_ints (l : list pyobj) :
  forallb is_int l = true ->
  sequence (map np_shape_obj l) = Ok (map (fun _ => []) l).
Proof.
  induction l as [|x l IH]; cbn [forallb map sequence]; [reflexivity|].
  intros H. apply andb_true_iff in H. destruct H as [Hx Hl].
  rewrite (IH Hl). destruct x; try discriminate; reflexivity.
Qed.

Lemma leaves_ints (l : list pyobj) :
  forallb is_int l = true -> concat (map leaves l) = l.
Proof.
  induction l as [|x l IH]; cbn [forallb map concat]; [reflexivity|].
  intros H. apply andb_true_iff in H. destruct H as [Hx Hl].
  rewrite (IH Hl). destruct x; try discriminate; reflexivity.
Qed.

Lemma shapes_agree_ints (l : list pyobj) :
  forallb (list_nat_eqb []) (map (fun _ : pyobj => @nil nat) l) = true.
Proof. induction l; cbn; auto. Qed.

(** The dtype of a sequence of [int]s: [bool], [int64], [uint64] or, when
    [int64] and [uint64] meet, [float64]; none when an item is beyond 64
    bits. *)
Lemma common_dtype_is_int (l : list pyobj) :
  forallb is_int l = true ->
  (forallb fits_64 l = true
   /\ exists d, common_dtype l = Some d
                /\ (d = bool_ \/ d = int64 \/ d = uint64 \/ d = float64))
  \/ (forallb fits_64 l = false /\ common_dtype l = None).
Proof.
  induction l as [|x l IH]; cbn [forallb common_dtype].
  - intros _. left. split; [reflexivity|]. exists bool_. auto.
  - intros H. apply andb_true_iff in H. destruct H as [Hx Hl].
    destruct x as [|b|z| | | | | |]; try discriminate Hx; cbn [fits_64 dtype_of_number].
    + destruct (IH Hl) as [[Hf [d [-> Hd]]] | [Hf ->]]; rewrite Hf.
      * left. split; [reflexivity|].
        destruct Hd as [-> | [-> | [-> | ->]]]; eexists; (split; [reflexivity|]);
          cbn; auto.
      * right. split; reflexivity.
    + destruct (fits_int64 z); [|destruct (fits_uint64 z)]; cbn [orb andb].
      * destruct (IH Hl) as [[Hf [d [-> Hd]]] | [Hf ->]]; rewrite Hf.
        -- left. split; [reflexivity|].
           destruct Hd as [-> | [-> | [-> | ->]]]; eexists; (split; [reflexivity|]);
             cbn; auto.
        -- right. split; reflexivity.
      * destruct (IH Hl) as [[Hf [d [-> Hd]]] | [Hf ->]]; rewrite Hf.
        -- left. split; [reflexivity|].
           destruct Hd as [-> | [-> | [-> | ->]]]; eexists; (split; [reflexivity|]);
             cbn; auto.
        -- right. split; reflexivity.
      * right. split; reflexivity.
Qed.

Lemma common_dtype_is_int64 (l : list pyobj) :
  forallb is_int64 l = true ->
  common_dtype l = Some bool_ \/ common_dtype l = Some int64.
Proof.
  induction l as [|x l IH]; cbn [forallb common_dtype]; [now left|].
  intros H. apply andb_true_iff in H. destruct H as [Hx Hl].
  destruct x as [|b|z| | | | | |]; try discriminate Hx; cbn [is_int64] in Hx;
    cbn [dtype_of_number]; rewrite ?Hx;
    destruct (IH Hl) as [-> | ->]; cbn; auto.
Qed.

Lemma common_dtype_PyInt (z : Z) (ls : list Z) :
  forallb fits_int64 (z :: ls) = true ->
  common_dtype (map PyInt (z :: ls)) = Some int64.
Proof.
  revert z. induction ls as [|y ls IH]; intros z H.
  - cbn in H. rewrite andb_true_r in H. cbn. now rewrite H.
  - change (map PyInt (z :: y :: ls)) with (PyInt z :: map PyInt (y :: ls)).
    cbn [forallb] in H. apply andb_true_iff in H. destruct H as [Hz H].
    cbn [common_dtype dtype_of_number]. rewrite Hz, (IH y H). reflexivity.
Qed.

Lemma forallb_is_int64_map (ls : list Z) :
  forallb fits_int64 ls = true -> forallb is_int64 (map PyInt ls) = true.
Proof. intros H. now rewrite forallb_map_comp. Qed.

(** A non-empty tuple or list of [int]s with a numeric dtype is converted
    to a 1-dimensional array of their values. *)
Lemma np_asanyarray_is_int (l : list pyobj) (d : dtype) :
  forallb is_int l = true -> l <> [] -> common_dtype l = Some d ->
  np_asanyarray (PyTuple l)
  = Ok (Numeric (mk_ndarray d [length l] (map (fun x => astype d (number_value x)) l)))
  /\ np_asanyarray (PyList l)
     = Ok (Numeric (mk_ndarray d [length l] (map (fun x => astype d (number_value x)) l))).
Proof.
  intros Hl Hne Hd. unfold np_asanyarray. cbn [np_shape_obj leaves].
  rewrite sequence_np_shape_ints, leaves_ints by assumption. cbn [bind].
  destruct l as [|x l]; [congruence|].
  cbn [map]. rewrite <- (map_cons (fun _ : pyobj => @nil nat) x l).
  rewrite shapes_agree_ints. cbn [bind]. rewrite Hd. split; reflexivity.
Qed.

(** With an item beyond 64 bits the array is of dtype [object], which
    [_cast_to_numpy] refuses. *)
Lemma _cast_to_numpy_big_ints (l : list pyobj) :
  forallb is_int l = true -> l <> [] -> common_dtype l = None ->
  _cast_to_numpy (Obj (PyTuple l)) = Raise (TypeError msg_object_arrays_not_supported)
  /\ _cast_to_numpy (Obj (PyList l)) = Raise (TypeError msg_object_arrays_not_supported).
Proof.
  intros Hl Hne Hd. unfold _cast_to_numpy, np_asanyarray. cbn [np_shape_obj leaves].
  rewrite sequence_np_shape_ints, leaves_ints by assumption. cbn [bind].
  destruct l as [|x l]; [congruence|].
  cbn [map]. rewrite <- (map_cons (fun _ : pyobj => @nil nat) x l).
  rewrite shapes_agree_ints. cbn [bind]. rewrite Hd. split; reflexivity.
Qed.

Lemma np_asanyarray_ints_dtype (l : list pyobj) (d : dtype) :
  forallb is_int64 l = true -> l <> [] -> common_dtype l = Some d ->
  (d = bool_ \/ d = int64) ->
  np_asanyarray (PyTuple l)
  = Ok (Numeric (mk_ndarray d [length l] (map number_value l)))
  /\ np_asanyarray (PyList l)
     = Ok (Numeric (mk_ndarray d [length l] (map number_value l))).
Proof.
  intros Hl Hne Hd Hcases.
  destruct (np_asanyarray_is_int l d (is_int64_is_int l Hl) Hne Hd) as [-> ->].
  destruct Hcases as [-> | ->]; split; reflexivity.
Qed.

(** A non-empty tuple or list of [int]s of the [int64] range is converted
    to a 1-dimensional array of their values. *)
Lemma np_asanyarray_ints (l : list pyobj) :
  forallb is_int64 l = true -> l <> [] ->
  exists d, (d = bool_ \/ d = int64)
    /\ np_asanyarray (PyTuple l)
       = Ok (Numeric (mk_ndarray d [length l] (map number_value l)))
    /\ np_asanyarray (PyList l)
       = Ok (Numeric (mk_ndarray d [length l] (map number_value l))).
Proof.
  intros Hl Hne.
  destruct (common_dtype_is_int64 _ Hl) as [Hd | Hd];
    [exists bool_ | exists int64]; (split; [auto|]);
    apply np_asanyarray_ints_dtype; auto.
Qed.

Lemma check_greater_than_cast (x : array_like) (a : ndarray) (value : array_like)
    (strict : bool) (name : string) :
  as_ndarray x = Ok a ->
  check_greater_than x value strict name = check_greater_than (Nd a) value strict name.
Proof. intros H. unfold check_greater_than, check_greater_than_. now rewrite H. Qed.

Lemma np_greater_equal_astype (x : pyobj) (d : dtype) :
  is_int x = true ->
  (d = bool_ \/ d = int64 \/ d = uint64 \/ d = float64) ->
  np_greater_equal (astype d (number_value x)) (SInt (-1)) = int_ge x (-1).
Proof.
  intros Hx Hd.
  destruct x as [|b|z| | | | | |]; try discriminate Hx; unfold number_value, int_ge;
    cbn [as_number]; destruct Hd as [-> | [-> | [-> | ->]]]; cbn [astype scalar_to_float];
    (apply np_greater_equal_int || apply np_greater_equal_of_Z).
Qed.

(** Line 1229, [check_greater_than(shape, -1, name='Shape', strict=False)],
    on a non-empty tuple of [int]s. *)
Lemma check_greater_than_shape (l : list pyobj) :
  forallb is_int l = true -> l <> [] ->
  check_greater_than (Obj (PyTuple l)) (Obj (PyInt (-1))) false "Shape"
  = if forallb fits_64 l then
      if forallb (fun d => int_ge d (-1)) l then Ok tt
      else Raise (ValueError (msg_must_be_greater_than "Shape" true))
    else Raise (TypeError msg_object_arrays_not_supported).
Proof.
  intros Hl Hne.
  destruct (common_dtype_is_int l Hl) as [[Hf [d [Hc Hd]]] | [Hf Hc]]; rewrite Hf.
  - destruct (np_asanyarray_is_int l d Hl Hne Hc) as [Ht _].
    rewrite (check_greater_than_cast (Obj (PyTuple l))
               (mk_ndarray d [length l] (map (fun x => astype d (number_value x)) l)))
      by (unfold as_ndarray, _cast_to_numpy; now rewrite Ht).
    rewrite check_greater_than_int_value, check_greater_than_zero_dim by reflexivity.
    cbn [arr_data]. rewrite forallb_map_comp.
    rewrite (forallb_ext_in _ (fun d => int_ge d (-1)) l); [reflexivity|].
    intros x Hx. apply np_greater_equal_astype; [|exact Hd].
    rewrite forallb_forall in Hl. now apply Hl.
  - destruct (_cast_to_numpy_big_ints l Hl Hne Hc) as [Ht _].
    unfold check_greater_than, check_greater_than_, as_ndarray. now rewrite Ht.
Qed.

Lemma any_check_instance_int (l : list pyobj) (name : string) :
  fst (any_check_instance l (cls_one c_int) true (PyStr name))
  = if forallb is_int l then Ok tt
    else Raise (TypeError (msg_instance name must_be_an_instance_of)).
Proof.
  induction l as [|x l IH]; cbn [any_check_instance forallb]; [reflexivity|].
  rewrite check_instance_cases, isinstance_int.
  destruct (is_int x); cbn [andb]; [exact IH | reflexivity].
Qed.

Lemma forallb_valid_dims (l : list pyobj) :
  forallb is_int l = true ->
  forallb _is_valid_dim l = forallb (fun d => int_ge d (-1)) l.
Proof.
  intros Hl. apply forallb_ext_in. intros x Hx. rewrite _is_valid_dim_is_int.
  rewrite forallb_forall in Hl. now rewrite (Hl x Hx).
Qed.

(** ** [_validate_shape_value] and [check_shape] *)

(** Lines 1214-1231 on a tuple. *)
Lemma validate_shape_general_tuple (l : list pyobj) :
  validate_shape_general check_greater_than (PyTuple l)
  = if forallb _is_valid_dim l then Ok (PyTuple l)
    else if forallb is_int l then
      if forallb fits_64 l
      then Raise (ValueError (msg_must_be_greater_than "Shape" true))
      else Raise (TypeError msg_object_arrays_not_supported)
    else Raise (TypeError (msg_instance "All items of Shape" must_be_an_instance_of)).
Proof.
  unfold validate_shape_general.
  replace (_is_valid_dim (PyTuple l)) with false by reflexivity.
  replace (isinstance (PyTuple l) (cls_one c_tuple)) with true by reflexivity.
  cbn [iter_items andb].
  destruct (forallb _is_valid_dim l) eqn:Hv; [reflexivity|].
  replace (check_instance (PyTuple l) (cls_tuple [c_int; c_tuple]) true (PyStr "Shape"))
    with (Ok tt) by reflexivity.
  replace (isinstance (PyTuple l) (cls_one c_int)) with false by reflexivity.
  cbn [bind].
  replace (fst (check_iterable_items (PyTuple l) (cls_one c_int) true "Shape"))
    with (fst (any_check_instance l (cls_one c_int) true (PyStr "All items of Shape"))).
  2:{ unfold check_iterable_items.
      replace (check_iterable (PyTuple l) (PyStr "Shape")) with (Ok tt) by reflexivity.
      cbn [iter_items]. destruct (any_check_instance _ _ _ _). reflexivity. }
  rewrite any_check_instance_int.
  destruct (forallb is_int l) eqn:Hl; [|reflexivity]. cbn [bind].
  assert (Hne : l <> []) by (intros ->; discriminate).
  rewrite check_greater_than_shape by assumption.
  rewrite <- forallb_valid_dims, Hv by assumption.
  destruct (forallb fits_64 l); reflexivity.
Qed.

(** Lines 1214-1231 on an [int]. *)
Lemma validate_shape_general_int (z : Z) :
  validate_shape_general check_greater_than (PyInt z)
  = if (-1 <=? z)%Z then Ok (PyTuple [PyInt z])
    else if fits_int64 z
    then Raise (ValueError (msg_must_be_greater_than "Shape" true))
    else Raise (TypeError msg_object_arrays_not_supported).
Proof.
  unfold validate_shape_general. rewrite _is_valid_dim_int.
  destruct (-1 <=? z)%Z eqn:Hz; [reflexivity|].
  replace (isinstance (PyInt z) (cls_one c_tuple)) with false by reflexivity.
  cbn [andb].
  replace (check_instance (PyInt z) (cls_tuple [c_int; c_tuple]) true (PyStr "Shape"))
    with (Ok tt) by reflexivity.
  replace (isinstance (PyInt z) (cls_one c_int)) with true by reflexivity.
  cbn [bind].
  rewrite check_greater_than_shape by (reflexivity || discriminate).
  cbn [forallb fits_64]. unfold int_ge. cbn [as_number]. rewrite Hz, !andb_true_r.
  replace (fits_uint64 z) with false
    by (symmetry; unfold fits_uint64; apply andb_false_iff; left;
        apply Z.leb_gt; apply Z.leb_gt in Hz; lia).
  rewrite orb_false_r. destruct (fits_int64 z); reflexivity.
Qed.

(** Lines 1214-1231 on an object that is neither an [int] nor a tuple. *)
Lemma validate_shape_general_other (shape : pyobj) :
  is_int shape = false -> is_tuple shape = false ->
  validate_shape_general check_greater_than shape
  = Raise (TypeError (msg_instance "Shape" must_be_an_instance_of_any_type)).
Proof.
  intros Hi Ht. unfold validate_shape_general.
  rewrite _is_valid_dim_is_int, isinstance_tuple, Hi, Ht. cbn [andb].
  rewrite check_instance_cases. cbn [isinstance existsb].
  fold (isinstance shape (cls_one c_int)). fold (isinstance shape (cls_one c_tuple)).
  rewrite isinstance_int, isinstance_tuple, Hi, Ht. reflexivity.
Qed.

Lemma py_in_common_shapes_not_tuple (shape : pyobj) :
  is_tuple shape = false -> is_None shape = false ->
  py_in shape common_shapes = false.
Proof. destruct shape; try discriminate; reflexivity. Qed.

(** X10: The outcomes of [_validate_shape_value].  [None] and objects that
    are neither an [int] nor a tuple are a [TypeError].  An [int] of at
    least -1 gives the tuple that holds it; below -1 it is a [ValueError],
    unless it is beyond the [int64] range, when the conversion of line
    1229 raises a [TypeError].  A tuple that is not equal to one of the
    common shapes of line 1211 is returned when all its items are [int]s
    of at least -1; otherwise it is a [TypeError] when an item is not an
    [int], a [ValueError] when all are [int]s of 64 bits, and the
    [TypeError] of the conversion when an item is beyond 64 bits. *)
Theorem _validate_shape_value_cases :
  (forall z : Z,
     _validate_shape_value (PyInt z)
     = if (-1 <=? z)%Z then Ok (PyTuple [PyInt z])
       else if fits_int64 z
       then Raise (ValueError (msg_must_be_greater_than "Shape" true))
       else Raise (TypeError msg_object_arrays_not_supported))
  /\ (forall l : list pyobj,
        py_in (PyTuple l) common_shapes = false ->
        _validate_shape_value (PyTuple l)
        = if forallb _is_valid_dim l then Ok (PyTuple l)
          else if forallb is_int l then
            if forallb fits_64 l
            then Raise (ValueError (msg_must_be_greater_than "Shape" true))
            else Raise (TypeError msg_object_arrays_not_supported)
          else Raise (TypeError (msg_instance "All items of Shape" must_be_an_instance_of)))
  /\ (forall shape : pyobj,
        is_int shape = false -> is_tuple shape = false ->
        _validate_shape_value shape
        = Raise (TypeError (if is_None shape then msg_none_is_not_a_valid_shape
                            else msg_instance "Shape" must_be_an_instance_of_any_type)))
  /\ _validate_shape_value (PyInt (-9223372036854775808))
     = Raise (ValueError (msg_must_be_greater_than "Shape" true))
  /\ _validate_shape_value (PyInt (-9223372036854775809))
     = Raise (TypeError msg_object_arrays_not_supported)
  /\ _validate_shape_value (PyTuple [PyInt 9223372036854775808; PyInt (-5)])
     = Raise (ValueError (msg_must_be_greater_than "Shape" true))
  /\ _validate_shape_value (PyTuple [PyInt (-18446744073709551616)])
     = Raise (TypeError msg_object_arrays_not_supported).
Proof.
  assert (Hint : forall z : Z,
     _validate_shape_value (PyInt z)
     = if (-1 <=? z)%Z then Ok (PyTuple [PyInt z])
       else if fits_int64 z
       then Raise (ValueError (msg_must_be_greater_than "Shape" true))
       else Raise (TypeError msg_object_arrays_not_supported)).
  { intros z. unfold _validate_shape_value, _validate_shape_value_.
    replace (is_None (PyInt z)) with false by reflexivity.
    replace (py_in (PyInt z) common_shapes) with false by reflexivity.
    apply validate_shape_general_int. }
  assert (Htuple : forall l : list pyobj,
        py_in (PyTuple l) common_shapes = false ->
        _validate_shape_value (PyTuple l)
        = if forallb _is_valid_dim l then Ok (PyTuple l)
          else if forallb is_int l then
            if forallb fits_64 l
            then Raise (ValueError (msg_must_be_greater_than "Shape" true))
            else Raise (TypeError msg_object_arrays_not_supported)
          else Raise (TypeError (msg_instance "All items of Shape" must_be_an_instance_of))).
  { intros l Hl. unfold _validate_shape_value, _validate_shape_value_.
    replace (is_None (PyTuple l)) with false by reflexivity.
    rewrite Hl. apply validate_shape_general_tuple. }
  split; [exact Hint|]. split; [exact Htuple|].
  split; [|split; [|split; [|split]]];
    [| rewrite Hint; reflexivity | rewrite Hint; reflexivity
     | rewrite Htuple by reflexivity; reflexivity
     | rewrite Htuple by reflexivity; reflexivity].
  intros shape Hi Ht. unfold _validate_shape_value, _validate_shape_value_.
  destruct (is_None shape) eqn:Hn; [reflexivity|].
  rewrite py_in_common_shapes_not_tuple by assumption.
  now apply validate_shape_general_other.
Qed.

Lemma _validate_shape_value_cases_witness :
  _validate_shape_value (PyTuple [PyInt 4; PyInt (-2)])
  = Raise (ValueError (msg_must_be_greater_than "Shape" true))
  /\ _validate_shape_value (PyStr "3")
     = Raise (TypeError (msg_instance "Shape" must_be_an_instance_of_any_type)).
Proof.
  split.
  - apply (proj1 (proj2 _validate_shape_value_cases) [PyInt 4; PyInt (-2)]). reflexivity.
  - apply (proj1 (proj2 (proj2 _validate_shape_value_cases)) (PyStr "3")); reflexivity.
Defined.

(** X11: The [RuntimeError] of line 1231 ("This line should not be reachable")
    is never raised: [_validate_shape_value] returns a tuple, or raises a
    [TypeError], or raises the [ValueError] of the comparison with -1. *)
Theorem _validate_shape_value_last_line_unreachable :
  forall shape : pyobj,
    (exists dims, _validate_shape_value shape = Ok (PyTuple dims))
    \/ raises KTypeError (_validate_shape_value shape)
    \/ _validate_shape_value shape
       = Raise (ValueError (msg_must_be_greater_than "Shape" true)).
Proof.
  intros shape. unfold _validate_shape_value, _validate_shape_value_.
  destruct (is_None shape) eqn:Hn.
  { right. left. eexists. split; reflexivity. }
  destruct (is_tuple shape) eqn:Ht.
  - destruct shape as [| | | | |l| | |]; try discriminate.
    destruct (py_in (PyTuple l) common_shapes); [left; eauto|].
    rewrite validate_shape_general_tuple.
    destruct (forallb _is_valid_dim l); [left; eauto|].
    destruct (forallb is_int l); [destruct (forallb fits_64 l); [now right; right|]|];
      right; left; eexists; split; reflexivity.
  - rewrite py_in_common_shapes_not_tuple by assumption.
    destruct (is_int shape) eqn:Hi.
    + destruct shape as [|b|z| | | | | |]; try discriminate.
      * left. destruct b; eexists; reflexivity.
      * rewrite validate_shape_general_int.
        destruct (-1 <=? z)%Z; [left; eauto|].
        destruct (fits_int64 z); [now right; right|].
        right. left. eexists. split; reflexivity.
    + rewrite validate_shape_general_other by assumption.
      right. left. eexists. split; reflexivity.
Qed.

(** X12: [check_shape] validates the candidates one at a time and returns at
    the first that matches: with a matching descriptor in front the call
    succeeds whatever follows, valid or not, while an invalid candidate
    in front raises its error even though a matching one follows. *)
Theorem check_shape_stops_at_first_match :
  forall (x : array_like) (s : list nat) (c : pyobj) (zs : list Z)
         (rest : list pyobj) (name : string),
    np_shape x = Ok s ->
    shape_descriptor c zs ->
    shape_matches s zs ->
    check_shape x (PyList (c :: rest)) name = Ok tt
    /\ (forall (bad : pyobj) (e : exn),
          _validate_shape_value bad = Raise e ->
          check_shape x (PyList (bad :: c :: rest)) name = Raise e).
Proof.
  intros x s c zs rest name Hs Hc Hm.
  unfold check_shape, check_shape_. rewrite Hs. cbn [bind some_shape_is_allowed].
  fold _validate_shape_value. split.
  - rewrite (_validate_shape_value_descriptor c zs Hc). cbn [bind].
    now rewrite (proj2 (_shape_is_allowed_matches s zs) Hm).
  - intros bad e Hbad. now rewrite Hbad.
Qed.

Lemma check_shape_stops_at_first_match_witness :
  check_shape (Obj (PyList [PyInt 1; PyInt 2; PyInt 3]))
    (PyList [PyInt 3; PyStr "x"]) "Array" = Ok tt
  /\ check_shape (Obj (PyList [PyInt 1; PyInt 2; PyInt 3]))
       (PyList [PyStr "x"; PyInt 3]) "Array"
     = Raise (TypeError (msg_instance "Shape" must_be_an_instance_of_any_type)).
Proof.
  destruct (check_shape_stops_at_first_match
              (Obj (PyList [PyInt 1; PyInt 2; PyInt 3])) [3] (PyInt 3) [3%Z]
              [PyStr "x"] "Array") as [H1 _].
  - reflexivity.
  - constructor. lia.
  - constructor; [now left | constructor].
  - split; [exact H1|]. reflexivity.
Defined.

(** ** [check_length] *)

Lemma check_length_no_exact (x : array_like) (n : nat) (min_length max_length : pyobj)
    (name : string) :
  py_len x = Ok n ->
  check_length x (Obj PyNone) min_length max_length false false name
  = ((if negb (is_None min_length) then check_finite (Obj min_length) "Min length"
      else ret_None) ;;
     (if negb (is_None max_length) then check_finite (Obj max_length) "Max length"
      else ret_None) ;;
     (if negb (is_None min_length) && negb (is_None max_length)
      then check_sorted (Obj (PyTuple [min_length; max_length])) true false (PyInt (-1)) "Range"
      else ret_None) ;;
     too_short <- (if negb (is_None min_length) then py_lt n min_length else Ok false) ;;
     if (too_short : bool) then Raise (ValueError (msg_length_minimum name))
     else
       too_long <- (if negb (is_None max_length) then py_gt n max_length else Ok false) ;;
       if (too_long : bool) then Raise (ValueError (msg_length_maximum name))
       else ret_None)%check.
Proof.
  intros Hn. unfold check_length. cbn [bind ret_None]. rewrite Hn. reflexivity.
Qed.

Lemma check_finite_int (z : Z) (name : string) :
  check_finite (Obj (PyInt z)) name
  = if fits_int64 z || fits_uint64 z then Ok tt
    else Raise (TypeError msg_object_arrays_not_supported).
Proof.
  unfold check_finite. rewrite as_ndarray_cast.
  destruct (fits_int64 z || fits_uint64 z) eqn:Hz.
  - destruct (dtype_of_int z Hz) as [d [Hd Hdz]].
    rewrite (_cast_to_numpy_int z d Hd Hdz). reflexivity.
  - now rewrite (_cast_to_numpy_big_int z Hz).
Qed.

(** X13: With integer bounds of the [int64] range and no exact length,
    [check_length] first refuses a range whose minimum exceeds its
    maximum, whatever the length of the input is, with the [ValueError]
    of [check_sorted] on "Range"; then a length below the minimum, then a
    length above the maximum; it succeeds exactly when
    [min_length <= len <= max_length].  With one bound alone, of 64 bits,
    only that bound is compared.  A bound beyond 64 bits is refused by
    [check_finite] with the [TypeError] of the conversion. *)
Theorem check_length_integer_bounds :
  forall (x : array_like) (n : nat) (lo hi : Z) (name : string),
    py_len x = Ok n ->
    (fits_int64 lo = true -> fits_int64 hi = true ->
     check_length x (Obj PyNone) (PyInt lo) (PyInt hi) false false name
     = (if (hi <? lo)%Z then Raise (ValueError (msg_must_be_sorted "Range" 2 false true))
        else if (Z.of_nat n <? lo)%Z then Raise (ValueError (msg_length_minimum name))
        else if (hi <? Z.of_nat n)%Z then Raise (ValueError (msg_length_maximum name))
        else Ok tt))
    /\ (fits_int64 lo || fits_uint64 lo = true ->
        check_length x (Obj PyNone) (PyInt lo) PyNone false false name
        = (if (Z.of_nat n <? lo)%Z then Raise (ValueError (msg_length_minimum name))
           else Ok tt))
    /\ (fits_int64 hi || fits_uint64 hi = true ->
        check_length x (Obj PyNone) PyNone (PyInt hi) false false name
        = (if (hi <? Z.of_nat n)%Z then Raise (ValueError (msg_length_maximum name))
           else Ok tt))
    /\ (fits_int64 lo || fits_uint64 lo = false ->
        forall max_length : pyobj,
          check_length x (Obj PyNone) (PyInt lo) max_length false false name
          = Raise (TypeError msg_object_arrays_not_supported))
    /\ (fits_int64 hi || fits_uint64 hi = false ->
        check_length x (Obj PyNone) PyNone (PyInt hi) false false name
        = Raise (TypeError msg_object_arrays_not_supported)).
Proof.
  intros x n lo hi name Hn.
  split; [|split; [|split; [|split]]].
  - intros Hlo Hhi. rewrite (check_length_no_exact x n) by assumption.
    cbn [is_None negb andb]. rewrite !check_finite_int, Hlo, Hhi. cbn [orb bind ret_None].
    destruct (_cast_to_numpy_int64_pair lo hi Hlo Hhi) as [_ Hc].
    rewrite (check_sorted_cast _ (mk_ndarray int64 [2] [SInt lo; SInt hi]))
      by (rewrite ?as_ndarray_cast; (assumption || reflexivity)).
    rewrite check_sorted_pair. cbn [sorted_op]. rewrite np_less_equal_int.
    unfold py_lt, py_gt. cbn [as_number bind].
    rewrite (Z.ltb_antisym lo hi). destruct (lo <=? hi)%Z; cbn [negb bind]; [|reflexivity].
    destruct (Z.of_nat n <? lo)%Z; [reflexivity|].
    destruct (hi <? Z.of_nat n)%Z; reflexivity.
  - intros Hlo. rewrite (check_length_no_exact x n) by assumption.
    cbn [is_None negb andb]. rewrite check_finite_int, Hlo. cbn [bind ret_None].
    unfold py_lt. cbn [as_number bind].
    destruct (Z.of_nat n <? lo)%Z; reflexivity.
  - intros Hhi. rewrite (check_length_no_exact x n) by assumption.
    cbn [is_None negb andb]. rewrite check_finite_int, Hhi. cbn [bind ret_None].
    unfold py_gt. cbn [as_number bind].
    destruct (hi <? Z.of_nat n)%Z; reflexivity.
  - intros Hlo max_length. rewrite (check_length_no_exact x n) by assumption.
    cbn [is_None negb andb]. rewrite check_finite_int, Hlo. reflexivity.
  - intros Hhi. rewrite (check_length_no_exact x n) by assumption.
    cbn [is_None negb andb]. rewrite check_finite_int, Hhi. reflexivity.
Qed.

Lemma check_length_integer_bounds_witness :
  check_length (Obj (PyList [PyInt 7; PyInt 8; PyInt 9])) (Obj PyNone)
    (PyInt 5) (PyInt 2) false false "Array"
  = Raise (ValueError (msg_must_be_sorted "Range" 2 false true)).
Proof.
  apply (proj1 (check_length_integer_bounds
                  (Obj (PyList [PyInt 7; PyInt 8; PyInt 9])) 3 5 2 "Array" eq_refl));
    reflexivity.
Defined.

Lemma list_nat_eqb_refl (s : list nat) : list_nat_eqb s s = true.
Proof. unfold list_nat_eqb. destruct (list_eq_dec Nat.eq_dec s s); congruence. Qed.

Lemma all2_floor_ints (l : list pyobj) :
  forallb is_int l = true ->
  all2 np_equal (map number_value l) (map np_floor_scalar (map number_value l)) = true.
Proof.
  induction l as [|x l IH]; cbn [forallb map all2]; [reflexivity|].
  intros H. apply andb_true_iff in H. destruct H as [Hx Hl].
  rewrite (IH Hl), andb_true_r.
  destruct x; try discriminate; unfold number_value; cbn [as_number np_floor_scalar];
    rewrite np_equal_int; apply Z.eqb_refl.
Qed.

Lemma check_integer_cast (x : array_like) (a : ndarray) (strict : bool) (name : string) :
  as_ndarray x = Ok a ->
  check_integer x strict name = check_integer (Nd a) strict name.
Proof. intros H. unfold check_integer. now rewrite H. Qed.

Lemma check_integer_int_data (d : dtype) (s : list nat) (l : list pyobj) (name : string) :
  forallb is_int l = true ->
  check_integer (Nd (mk_ndarray d s (map number_value l))) false name = Ok tt.
Proof.
  intros Hl. unfold check_integer, np_array_equal, np_floor.
  cbn [as_ndarray bind arr_shape arr_data].
  now rewrite list_nat_eqb_refl, all2_floor_ints.
Qed.

Lemma existsb_ext {A} (p q : A -> bool) (l : list A) :
  (forall x, p x = q x) -> existsb p l = existsb q l.
Proof. intros H. induction l as [|x l IH]; cbn; [reflexivity|]. now rewrite H, IH. Qed.

Lemma existsb_map_comp {A B} (f : A -> B) (p : B -> bool) (l : list A) :
  existsb p (map f l) = existsb (fun x => p (f x)) l.
Proof. induction l as [|x l IH]; cbn; [reflexivity | now rewrite IH]. Qed.

Lemma forallb_is_int_map (ls : list Z) : forallb is_int (map PyInt ls) = true.
Proof. induction ls; cbn; auto. Qed.

Lemma forallb_fits_64_map (ls : list Z) :
  forallb fits_64 (map PyInt ls) = forallb (fun z => fits_int64 z || fits_uint64 z) ls.
Proof. now rewrite forallb_map_comp. Qed.

Lemma check_integer_big_int (z : Z) (strict : bool) (name : string) :
  fits_int64 z || fits_uint64 z = false ->
  check_integer (Obj (PyInt z)) strict name
  = Raise (TypeError msg_object_arrays_not_supported).
Proof.
  intros H. unfold check_integer.
  now rewrite as_ndarray_cast, (_cast_to_numpy_big_int z H).
Qed.

(** X14: With [exact_length] a list of integers of the [int64] range (an
    empty list included) and no bounds, [check_length] succeeds exactly
    when the length of the input is one of them, and raises a
    [ValueError] otherwise; with an integer beyond 64 bits in the list,
    [check_integer] raises the [TypeError] of the conversion.  A single
    integer stands for the list that holds it. *)
Theorem check_length_exact_lengths :
  forall (x : array_like) (n : nat) (ls : list Z) (name : string),
    py_len x = Ok n ->
    (forallb fits_int64 ls = true ->
     check_length x (Obj (PyList (map PyInt ls))) PyNone PyNone false false name
     = (if existsb (Z.eqb (Z.of_nat n)) ls then Ok tt
        else Raise (ValueError (msg_length_equal name))))
    /\ (forallb (fun z => fits_int64 z || fits_uint64 z) ls = false ->
        check_length x (Obj (PyList (map PyInt ls))) PyNone PyNone false false name
        = Raise (TypeError msg_object_arrays_not_supported))
    /\ (forall k : Z,
          check_length x (Obj (PyInt k)) PyNone PyNone false false name
          = check_length x (Obj (PyList [PyInt k])) PyNone PyNone false false name).
Proof.
  intros x n ls name Hn. split; [|split].
  - intros Hfit. unfold check_length. cbn [bind ret_None]. rewrite Hn.
    cbn [bind arg_is_None is_None negb andb].
    destruct ls as [|z ls]; [reflexivity|].
    set (l := map PyInt (z :: ls)).
    assert (Hl : forallb is_int64 l = true) by (now apply forallb_is_int64_map).
    assert (Hne : l <> []) by discriminate.
    destruct (np_asanyarray_ints l Hl Hne) as [d [_ [_ Ha]]].
    rewrite (check_integer_cast _ (mk_ndarray d [length l] (map number_value l)))
      by (unfold as_ndarray, _cast_to_numpy; now rewrite Ha).
    rewrite check_integer_int_data by (now apply is_int64_is_int).
    unfold np_atleast_1d. rewrite Ha.
    cbn [bind arr_shape negb ret_None array_contains arr_data].
    unfold l. rewrite !existsb_map_comp.
    rewrite (existsb_ext _ (Z.eqb (Z.of_nat n))).
    2:{ intros k. unfold number_value. cbn [as_number]. rewrite np_equal_int.
        apply Z.eqb_sym. }
    destruct (existsb (Z.eqb (Z.of_nat n)) (z :: ls)); reflexivity.
  - intros Hbig. unfold check_length. cbn [bind ret_None]. rewrite Hn.
    cbn [bind arg_is_None is_None negb andb].
    assert (Hne : map PyInt ls <> []) by (destruct ls; [discriminate Hbig | discriminate]).
    destruct (common_dtype_is_int (map PyInt ls) (forallb_is_int_map ls))
      as [[Hf _] | [_ Hc]].
    { rewrite forallb_fits_64_map, Hbig in Hf. discriminate. }
    destruct (_cast_to_numpy_big_ints _ (forallb_is_int_map ls) Hne Hc) as [_ Hcast].
    unfold check_integer. rewrite as_ndarray_cast, Hcast. reflexivity.
  - intros k. unfold check_length. cbn [bind ret_None]. rewrite Hn.
    cbn [bind arg_is_None is_None negb andb].
    destruct (fits_int64 k || fits_uint64 k) eqn:Hk.
    + destruct (dtype_of_int k Hk) as [d [Hd Hdk]].
      assert (Hc : common_dtype [PyInt k] = Some d)
        by (cbn [common_dtype]; rewrite Hdk; destruct Hd as [-> | ->]; reflexivity).
      destruct (np_asanyarray_is_int [PyInt k] d eq_refl ltac:(discriminate) Hc)
        as [_ Hlist].
      assert (Hdata : map (fun x => astype d (number_value x)) [PyInt k] = [SInt k])
        by (destruct Hd as [-> | ->]; reflexivity).
      rewrite Hdata in Hlist.
      rewrite (check_integer_cast (Obj (PyInt k)) (zero_dim d (SInt k)))
        by (rewrite as_ndarray_cast; now apply _cast_to_numpy_int).
      rewrite (check_integer_cast (Obj (PyList [PyInt k])) (mk_ndarray d [1] [SInt k]))
        by (unfold as_ndarray, _cast_to_numpy; now rewrite Hlist).
      change (zero_dim d (SInt k)) with (mk_ndarray d [] (map number_value [PyInt k])).
      change [SInt k] with (map number_value [PyInt k]).
      rewrite !check_integer_int_data by reflexivity.
      unfold np_atleast_1d. rewrite (np_asanyarray_int k d Hd Hdk), Hlist. reflexivity.
    + rewrite (check_integer_big_int k false _ Hk).
      assert (Hc : common_dtype [PyInt k] = None)
        by (cbn [common_dtype]; now rewrite (dtype_of_big_int k Hk)).
      destruct (_cast_to_numpy_big_ints [PyInt k] eq_refl ltac:(discriminate) Hc)
        as [_ Hcast].
      unfold check_integer. rewrite as_ndarray_cast, Hcast. reflexivity.
Qed.

Lemma check_length_exact_lengths_witness :
  check_length (Obj (PyList [PyInt 1; PyInt 2])) (Obj (PyList (map PyInt [2; 3]%Z)))
    PyNone PyNone false false "Array" = Ok tt.
Proof.
  apply (proj1 (check_length_exact_lengths
                  (Obj (PyList [PyInt 1; PyInt 2])) 2 [2; 3]%Z "Array" eq_refl)).
  reflexivity.
Defined.

Lemma plain_class_not_float (b : plain_class) :
  existsb (pyclass_eqb c_float) (ancestors (class_of_plain b)) = false.
Proof. induction b as [|n b IH]; [reflexivity|]. cbn. exact IH. Qed.

Lemma isinstance_float_int (o : pyobj) :
  isinstance o (cls_tuple [c_float; c_int]) = true ->
  exists v, as_number o = Some v.
Proof.
  destruct o; try discriminate; cbn [as_number]; eauto.
  cbn [isinstance type_of existsb]. unfold issubclass. cbn [ancestors existsb].
  rewrite plain_class_not_float, plain_class_not_int. discriminate.
Qed.

(** X15: A number has no length: without [allow_scalar], [check_length] on a
    [float] or [int] raises the [TypeError] of [len()], or, with
    [must_be_1d], the [ValueError] of [check_shape] for the shape [()].
    With [allow_scalar] the number is checked as the one-element list
    that holds it, and [must_be_1d] makes no difference. *)
Theorem check_length_of_a_number :
  forall (o : pyobj) (exact_length : array_like) (min_length max_length : pyobj)
         (must_be_1d : bool) (name : string),
    isinstance o (cls_tuple [c_float; c_int]) = true ->
    check_length (Obj o) exact_length min_length max_length false false name
    = Raise (TypeError (msg_interpreter "object has no len()"))
    /\ check_length (Obj o) exact_length min_length max_length true false name
       = Raise (ValueError (msg_shape_not_allowed "Array" []))
    /\ check_length (Obj o) exact_length min_length max_length must_be_1d true name
       = check_length (Obj (PyList [o])) exact_length min_length max_length false false name.
Proof.
  intros o e lo hi must name Ho.
  destruct (isinstance_float_int o Ho) as [v Hv].
  assert (Hs : np_shape_obj o = Ok []) by (destruct o; try discriminate; reflexivity).
  assert (Hlen : py_len (Obj o) = Raise (TypeError (msg_interpreter "object has no len()")))
    by (destruct o; try discriminate; reflexivity).
  split; [|split].
  - unfold check_length. cbn [bind ret_None]. now rewrite Hlen.
  - unfold check_length.
    rewrite (check_shape_descriptor (Obj o) [] (PyInt (-1)) [(-1)%Z]);
      [reflexivity | exact Hs | constructor; lia].
  - unfold check_length. rewrite Ho.
    replace (isinstance (PyList [o]) (cls_tuple [c_float; c_int])) with false by reflexivity.
    destruct must; [|reflexivity].
    rewrite (check_shape_descriptor (Obj (PyList [o])) [1] (PyInt (-1)) [(-1)%Z]);
      [reflexivity | | constructor; lia].
    cbn [np_shape np_shape_obj map sequence]. rewrite Hs. reflexivity.
Qed.

Lemma check_length_of_a_number_witness :
  check_length (Obj (PyInt 5)) (Obj (PyInt 1)) PyNone PyNone true true "Array" = Ok tt.
Proof.
  rewrite (proj2 (proj2 (check_length_of_a_number (PyInt 5) (Obj (PyInt 1)) PyNone PyNone
                           true "Array" eq_refl))).
  reflexivity.
Defined.

(** X16: [must_be_1d] asks for one axis of any length, not for the shape
    [(1,)]: an array passes exactly when it has one dimension, and the
    [ValueError] for any other shape names "Array" whatever [name] is. *)
Theorem check_length_must_be_1d :
  forall (a : ndarray) (name : string),
    check_length (Nd a) (Obj PyNone) PyNone PyNone true false name
    = match arr_shape a with
      | [_] => Ok tt
      | s => Raise (ValueError (msg_shape_not_allowed "Array" s))
      end.
Proof.
  intros a name. unfold check_length.
  rewrite (check_shape_descriptor (Nd a) (arr_shape a) (PyInt (-1)) [(-1)%Z]);
    [| reflexivity | constructor; lia].
  destruct (arr_shape a) as [|n [|m s]] eqn:Hs; try reflexivity.
  rewrite (proj2 (_shape_is_allowed_matches [n] [(-1)%Z]))
    by (constructor; [now right | constructor]).
  cbn [bind py_len]. rewrite Hs. reflexivity.
Qed.

(** ** [check_ndim] on integer ranks and [check_contains] *)

(** X17: With [ndim] a list of integers of the [int64] range, [check_ndim]
    succeeds exactly when the rank of the array is one of them and raises
    the [ValueError] that reports the rank otherwise; an empty list is
    refused with the [TypeError] of the dtype check, since an empty array
    is of a float dtype. *)
Theorem check_ndim_integer_ranks :
  forall (x : array_like) (a : ndarray) (ls : list Z) (name : string),
    _cast_to_numpy x = Ok a ->
    forallb fits_int64 ls = true ->
    check_ndim x (Obj (PyList (map PyInt ls))) name
    = match ls with
      | [] => Raise (TypeError (msg_incorrect_dtype "Input" float64))
      | _ =>
          if existsb (Z.eqb (Z.of_nat (arr_ndim a))) ls then Ok tt
          else Raise (ValueError (msg_incorrect_ndim name (arr_ndim a)))
      end.
Proof.
  intros x a ls name Hx Hfit. rewrite check_ndim_eq. unfold check_ndim_.
  fold ranks_0_1.
  destruct ls as [|z ls].
  - replace (np_atleast_1d (Obj (PyList (map PyInt []))))
      with (Ok (Numeric (mk_ndarray float64 [0] []))) by reflexivity.
    cbn [bind]. rewrite Hx. cbn [bind array_contains arr_data existsb negb].
    rewrite (check_ndim_ranks_0_1 _ (mk_ndarray float64 [0] [])) by reflexivity.
    reflexivity.
  - set (l := map PyInt (z :: ls)).
    assert (Hl : forallb is_int64 l = true) by (now apply forallb_is_int64_map).
    assert (Hne : l <> []) by discriminate.
    destruct (np_asanyarray_ints_dtype l int64 Hl Hne (common_dtype_PyInt z ls Hfit)
                (or_intror eq_refl)) as [_ Ha].
    set (n0 := mk_ndarray int64 [length l] (map number_value l)) in *.
    assert (Hc : _cast_to_numpy (Obj (PyList l)) = Ok n0)
      by (unfold _cast_to_numpy; now rewrite Ha).
    unfold np_atleast_1d. rewrite Ha. cbn [bind n0 arr_shape]. fold n0.
    rewrite Hx. cbn [bind array_contains].
    replace (existsb (fun v => np_equal v (SInt (Z.of_nat (arr_ndim a)))) (arr_data n0))
      with (existsb (Z.eqb (Z.of_nat (arr_ndim a))) (z :: ls)).
    2:{ unfold n0, l. cbn [arr_data]. rewrite !existsb_map_comp.
        apply existsb_ext. intros k. unfold number_value. cbn [as_number].
        rewrite np_equal_int. apply Z.eqb_sym. }
    destruct (existsb (Z.eqb (Z.of_nat (arr_ndim a))) (z :: ls)); [reflexivity|].
    cbn [negb]. rewrite (check_ndim_ranks_0_1 _ n0 Hc).
    replace (arr_ndim n0 <=? 1)%nat with true by reflexivity. cbn [bind].
    rewrite (check_integer_strict_cast _ n0 "ndim" Hc).
    cbn [array_first]. rewrite check_integer_strict_dtype.
    replace (np_issubdtype (arr_dtype (getitem n0 0)) np_integer) with true by reflexivity.
    replace (np_issubdtype (arr_dtype n0) np_integer) with true by reflexivity.
    destruct (array_len (Numeric n0) =? 1)%nat; reflexivity.
Qed.

Lemma check_ndim_integer_ranks_witness :
  check_ndim (Obj (PyList [PyInt 1; PyInt 2])) (Obj (PyList (map PyInt [2; 3]%Z))) "Array"
  = Raise (ValueError (msg_incorrect_ndim "Array" 1)).
Proof.
  apply (check_ndim_integer_ranks (Obj (PyList [PyInt 1; PyInt 2]))
           (mk_ndarray int64 [2] [SInt 1; SInt 2]) [2; 3]%Z "Array" eq_refl eq_refl).
Defined.

Lemma py_contains_first_match (same : nat -> bool) (x y : pyobj)
    (pre post : list pyobj) (i0 : nat) :
  (forall i, i < length pre -> same (i0 + i) || py_eq x (nth i pre PyNone) = false) ->
  same (i0 + length pre) || py_eq x y = true ->
  py_contains same i0 x (pre ++ y :: post) = true
  /\ drop_through same i0 x (pre ++ y :: post) = post.
Proof.
  revert i0. induction pre as [|p pre IH]; intros i0 Hpre Hy;
    cbn [app py_contains drop_through length] in *.
  - rewrite Nat.add_0_r in Hy. rewrite Hy. split; reflexivity.
  - pose proof (Hpre 0 ltac:(lia)) as Hp. rewrite Nat.add_0_r in Hp. cbn [nth] in Hp.
    rewrite Hp. cbn [orb]. apply IH.
    + intros i Hi. specialize (Hpre (S i) ltac:(lia)). cbn [nth] in Hpre.
      now replace (S i0 + i) with (i0 + S i) by lia.
    + now replace (S i0 + length pre) with (i0 + S (length pre)) by lia.
Qed.

Lemma py_contains_no_match (same : nat -> bool) (x : pyobj) (items : list pyobj)
    (i0 : nat) :
  (forall i, i < length items -> same (i0 + i) || py_eq x (nth i items PyNone) = false) ->
  py_contains same i0 x items = false.
Proof.
  revert i0. induction items as [|p items IH]; intros i0 H; cbn [py_contains length] in *.
  - reflexivity.
  - pose proof (H 0 ltac:(lia)) as Hp. rewrite Nat.add_0_r in Hp. cbn [nth] in Hp.
    rewrite Hp. cbn [orb]. apply IH.
    intros i Hi. specialize (H (S i) ltac:(lia)). cbn [nth] in H.
    now replace (S i0 + i) with (i0 + S i) by lia.
Qed.

(** [t in s] for a non-empty [t]: [t] is the part of [s] that starts at
    some position. *)
Lemma is_substring_spec (t s : string) :
  t <> EmptyString ->
  (is_substring t s = true <-> exists m, String.substring m (String.length t) s = t).
Proof.
  intros Ht. unfold is_substring. destruct (String.index 0 t s) as [m|] eqn:E.
  - split; [intros _ | reflexivity]. exists m. exact (index_correct1 0 m t s E).
  - split; [discriminate|]. intros [m Hm].
    exfalso. exact (index_correct3 0 m t s E Ht (Nat.le_0_l m) Hm).
Qed.

(** X18: [check_contains] compares the items in order with the object that
    is searched for, an item matching when it is that object itself or
    equals it with [==].  When the first match is at some position, the
    call succeeds, a list or tuple is left as it was and an iterator is
    left holding the items after the match; when no item matches, a
    [ValueError] is raised, worded "one of" for a list or tuple and "in"
    for any other container, and an iterator is exhausted.  Identity
    counts: a list that holds the NaN that is searched for passes, a list
    that holds another NaN does not.  In a string a string is searched as
    a substring, and anything else is a [TypeError]. *)
Theorem check_contains_search :
  forall (must_contain : pyobj) (same : nat -> bool) (name : string),
    (forall (pre post : list pyobj) (y : pyobj),
       (forall i, i < length pre ->
                  same i || py_eq must_contain (nth i pre PyNone) = false) ->
       same (length pre) || py_eq must_contain y = true ->
       check_contains (PyList (pre ++ y :: post)) must_contain same name
       = (Ok tt, PyList (pre ++ y :: post))
       /\ check_contains (PyTuple (pre ++ y :: post)) must_contain same name
          = (Ok tt, PyTuple (pre ++ y :: post))
       /\ check_contains (PyIter (pre ++ y :: post)) must_contain same name
          = (Ok tt, PyIter post))
    /\ (forall items : list pyobj,
          (forall i, i < length items ->
                     same i || py_eq must_contain (nth i items PyNone) = false) ->
          check_contains (PyList items) must_contain same name
          = (Raise (ValueError (msg_not_valid name true)), PyList items)
          /\ check_contains (PyTuple items) must_contain same name
             = (Raise (ValueError (msg_not_valid name true)), PyTuple items)
          /\ check_contains (PyIter items) must_contain same name
             = (Raise (ValueError (msg_not_valid name false)), PyIter []))
    /\ (forall s t : string,
          t <> EmptyString ->
          (fst (check_contains (PyStr s) (PyStr t) same name) = Ok tt
           <-> exists m, String.substring m (String.length t) s = t)
          /\ (fst (check_contains (PyStr s) (PyStr t) same name) = Ok tt
              \/ fst (check_contains (PyStr s) (PyStr t) same name)
                 = Raise (ValueError (msg_not_valid name false)))
          /\ snd (check_contains (PyStr s) (PyStr t) same name) = PyStr s)
    /\ (forall s : string,
          (forall t, must_contain <> PyStr t) ->
          raises KTypeError (fst (check_contains (PyStr s) must_contain same name)))
    /\ check_contains (PyList [PyFloat F.nan]) (PyFloat F.nan) (fun _ => true) name
       = (Ok tt, PyList [PyFloat F.nan])
    /\ check_contains (PyList [PyFloat F.nan]) (PyFloat F.nan) (fun _ => false) name
       = (Raise (ValueError (msg_not_valid name true)), PyList [PyFloat F.nan]).
Proof.
  intros x same name. split; [|split; [|split; [|split; [|split]]]].
  - intros pre post y Hpre Hy. unfold check_contains.
    destruct (py_contains_first_match same x y pre post 0 Hpre Hy) as [-> ->]. auto.
  - intros items H. unfold check_contains.
    rewrite (py_contains_no_match same x items 0 H). auto.
  - intros s t Ht. cbn [check_contains].
    rewrite <- (is_substring_spec t s Ht).
    destruct (is_substring t s); cbn [negb fst snd]; split; [|auto| |auto].
    + split; reflexivity.
    + split; discriminate.
  - intros s Hx. cbn [check_contains].
    destruct x; try (eexists; split; reflexivity).
    exfalso. now apply (Hx s0).
  - reflexivity.
  - reflexivity.
Qed.

Lemma check_contains_search_witness :
  check_contains (PyIter ([PyStr "a"] ++ PyInt 1 :: [PyStr "b"])) (PyFloat float_1_0)
    (fun _ => false) "Input"
  = (Ok tt, PyIter [PyStr "b"]).
Proof.
  apply (proj1 (check_contains_search (PyFloat float_1_0) (fun _ => false) "Input")
           [PyStr "a"] [PyStr "b"] (PyInt 1)).
  - intros [|i] Hi; [reflexivity | cbn in Hi; lia].
  - reflexivity.
Defined.

(** ** The wrappers of [check_instance] *)




